(* ===== verification/_CoqProject ===== *)
-Q . S2P
Prelude.v
Decode.v
Records.v
Blocks.v
State.v
Dispatch.v
Chains.v
Orchestrator.v
Legacy.v
Invalidation.v
Bootstrap.v
Fuel.v
Heap.v
Group.v
