(* ===== verification/Prelude.v ===== *)
(** * A verification development for GoASAMMDF's signal extraction engine

    The repository reads ASAM MDF4 measurement files.  Its core (the Go
    package [mf4] under [src/]) is a decoder that, given a channel's
    record geometry and the address of its data-block graph, walks the
    blocks of the file, inflates compressed payloads and turns raw record
    bytes into typed samples.

    ** The program and how its parts interact

    - [src/channel.go], [parseSignalMeasure] and [reverseBytes]: the
      bit-level value decoder.  It takes the byte window of one field, the
      byte order, the Go type the channel decodes to, and the bit offset
      and bit count, and returns one typed value.
    - [src/channel.go], [readDT], [readDatablock], [loadChannelReader]:
      the fixed-length record reader.  It walks a raw block buffer row by
      row with the record stride and carries the misalignment of a block
      end over to the next block of a data list through the reader's
      [StartOffset].
    - [src/channel.go], [extractSample], [readFixedLenghtSample],
      [readVLSDSample], [readDataList], [readDataZipped], [readHeaderList],
      [readSdBlock], [RawSample], [Sample]: the block dispatcher and the
      orchestrator.  They read the 4-byte block tag at an address and
      recurse through data lists (DL), zipped blocks (DZ) and header lists
      (HL) down to data blocks (DT/DV) or signal-data blocks (SD).  The
      Channel, its ChannelReader and the DataGroup's cached buffer are
      mutable state shared along the recursion.
    - [src/blocks/DZ/flate.go], [Deflate] and [Flate.Decompress]: the
      decompression adapter (zlib through Go's [compress/zlib]).  It
      returns Go's pair of a slice and an error; [readDataZipped]
      assigns the slice to the data group's cache before it tests the
      error.
    - [src/mf4.go], [GetChannelSample], [seekRead], [loadDataType]: an
      older direct reader that seeks to each record in the file and
      decodes it with [encoding/binary].
    - [src/channel.go], [readInvalidationBit]: the test of a record's
      invalidation bit, a function no code calls.
    - [src/mf4.go], [ReadFile], [read], [loadFileHistory],
      [loadAttachmemt]: the container bootstrap.  It checks the version,
      walks the FH, AT and DG chains and, inside each DG, the CG and CN
      chains, and builds the [ChannelGroup]s [GetChannelSample] and
      [ChannelNames] search.

    ** Files of the development (in dependency order)

    - [Prelude] (this file): the result type of fallible code with its
      bind notation in [res_scope], Go's slice, index, remainder and
      integer-conversion semantics, the byte slice [byte_slice] with its
      elements and the spare array up to its capacity, byte lists read as
      big- and little-endian integers, the hint databases and the shared
      lemmas on lists and integers.
    - [Decode] (Module [Decode]): the type descriptors and typed values,
      [reverseBytes], [hex.EncodeToString], the bit-array extraction, the
      two type switches of [parseSignalMeasure] and [loadDataType] of
      mf4.go.  Theorems: the decoded value is the bit field of the window
      (C1), a field written into a window decodes back (C2), every result
      has its Go type and range (C10), the panic and error branches
      (C11, C12), [loadDataType] picks, for each code and size, the kind
      and width Go has or the nil type (C20).
    - [Records] (Module [Records]): [ChannelReader] as a record whose
      [MeasureBuffer] is a Go slice (the field [MeasureSpare] is the array
      between its length and its capacity), [readDatablock] slicing up to
      the capacity as Go does, and the row loop of [readDT] with the carry
      of [StartOffset].  Theorems: exact buffers (C3), the carry (C4),
      that the loop stops on the count with exactly CycleCount values and
      the reader unchanged, the stale offset a later block then starts
      from (C9), the lemma that two consecutive blocks read as their
      concatenation, and that the spare capacity is never read when every
      field of the buffer fits in it.
    - [Blocks] (Module [Blocks]): what channel.go needs from the block
      packages that are not under [src/]: the class [BlockSource] (tag,
      length, positioned read, DL/DZ/HL parsing), [Deflate], [Flate]
      and [Decompress] of flate.go over the class [Decompressor] (the
      calls [zlib.NewReader] and [io.ReadAll], the latter returning a
      slice that may have spare capacity), and the instance [BlockMap]
      over a file given as a finite map from addresses to blocks.
    - [State] (Module [State]): the mutable state as records (the
      channel's reader pointer and HL flag, the heap of [ChannelReader]
      objects, the data group's cached slice, the measure), the
      state-and-error monad [M] with its notation in [dispatch_scope], its
      primitive operations, [with_copy] for the value receiver of
      [readFixedLenghtSample], and the equations of the state updates.
    - [Dispatch] (Module [Dispatch]): every handler of channel.go
      ([loadChannelReader], [loadBuffer], [readBlockToMemory], [readDT],
      [readSdBlock], [readDataZipped], [readHeaderList], the DL loop of
      [readDataList], [readVLSDSample], [readFixedLenghtSample],
      [extractSample], [loadDataAdress], [RawSample]) as one definition
      each, then one equation per handler.  Theorems: the constant
      not-ready error of an unhandled tag on either path (C13, C14), the
      silent bare DT of a VLSD channel (C15), [readSdBlock] reading one
      record (C16).
    - [Chains] (Module [Chains]): the reference [read_bufs] (the row loop
      over a list of buffers in turn, each installed by a setter:
      [read_chunks] writes in place as [io.ReadFull] does, [read_slices]
      assigns a slice as [readDataZipped] does), the proof that the
      in-place reading of any number of blocks is their concatenation
      (C5), and the simulation of the DL loop against [read_bufs], with
      the child's step and the reader invariant Section hypotheses.
      Theorems: a DL chain of DT blocks (C6), a DZ block reads as the DT
      block of its payload when every field fits in the payload (C7), an
      HL chain of DZ blocks reads the inflated slices, capacity included
      (C8); examples show a DZ slice whose spare capacity is read where
      the DT block of the same bytes panics, a mixed DL chain and the
      stale cache of an HL chain.
    - [Orchestrator] (Module [Orchestrator]): [Sample] with its cache and
      conversion flag, on the fields of one channel.  Theorems:
      idempotence of the cache (C17), errors without partial results
      (C19), and that a memory-optimized file caches nothing.
    - [Legacy] (Module [Legacy]): [GetChannelSample], [seekRead] and
      [ChannelNames] of mf4.go, the file as its bytes and its cursor.
      Theorems: the records of a file that holds them (C21), the number of
      samples (C22), the missing channel exactly for unlisted names (C23),
      the panic on types without a Go type (C24), and that once the
      address passes the end of the file every further record repeats
      the last decoded value (C25); examples show that and the
      rounded-down buffer size.
    - [Invalidation] (Module [Invalidation]): [readInvalidationBit] and
      its getters over the file of [Legacy].  Theorems: the byte it reads
      is found relative to the cursor, and its bit is [InvalBitPos mod 8]
      (C32); the byte index [InvalBitPos >> 3] is dropped (C33).
    - [Bootstrap] (Module [Bootstrap]): the blocks of the directory as
      records, their parsers as the class [MdfFile] (the packages are not
      under [src/]), the generic loop [walk] over [Next] links of which the
      FH, AT, DG, CG and CN loops are instances, [ReadFile], [read] (as
      [mf4_read]) and [Version], and an instance over a file given as
      maps.  Theorems: the channel map of a CN chain (C26), the groups
      [ReadFile] builds (C27), the non-termination of a cyclic chain
      (C28), the version and unfinalized errors (C29, C30), the NUL
      trimming of names (C31); an example shows a channel shadowed by a
      later one of the same name.
    - [Fuel] (Module [Fuel]): a lemma on the model itself, not on the
      program: a result of [RawSample] other than [EFuel] is its result
      with any larger fuel, so the fuel chosen is not observable.
    - [Heap] (Module [Heap]): the invariant of the channel's reader
      pointer: from a state where it addresses an allocated reader, every
      handler either fails with an error other than the nil dereference
      or ends in such a state with a heap that contains the old one
      ([safe], closed under [mbind] and [with_copy]).  Theorem: from any
      state, [RawSample] never dereferences a nil reader (C34).  The block
      parsers are assumed not to report that panic themselves.
    - [Group] (Module [Group]): the structs [Channel] and [ChannelGroup]
      of channel.go, a store of channels and data group objects addressed
      by keys (the pointers [Channel.DataGroup] that all channels of a
      group share), [recordIDSize], [readSingleDataBlockVLSD], and
      [Sample_at], the [Sample] of [Orchestrator] run on a channel's view
      of the store, its cache written back to the shared data group.
      Theorem: a channel whose data group already holds a cached slice
      reads its DT rows from that slice, whatever its own data block holds
      (C18); lemmas show that a sample changes nothing another channel
      reads but its data group's cache, and an example the stale sample
      that follows.

    ** Fuel

    [extractSample] recurses through DL, DZ and HL blocks and the DL loop
    visits every child of a chain; both are bounded by a [nat] fuel and
    return [EFuel] when it runs out.  One unit is spent per dispatch
    level, and the DL loop of a level with fuel [f] may visit [f]
    children, so a DL chain of [n >= 1] DT blocks needs fuel [n + 1] (and
    at least 2) and an HL chain of [n] DZ blocks fuel [n + 2] (and at
    least 4); the theorems C6 and C8 hold for every fuel at least that,
    so the result they state is reached.  The loops of the bootstrap are
    bounded the same way; C27 gives the fuel a finite chain needs and C28
    shows a cyclic chain exhausts any fuel.

    ** What is not modelled

    The zlib algorithm behind [Deflate] (the library [compress/zlib] and
    [io.ReadAll]) is the parameter [Decompressor]; the block packages [blocks], [DL], [DZ],
    [HL], [CN], [CG], [DG] are not under [src/] and are modelled from the
    MDF4 layout.  The conversion of [Sample] (package [CC]) is a
    parameter.  In the bootstrap, the parsers of the ID, HD, DG, CG, CN,
    TX, AT and FH blocks are the class [MdfFile], and the MD comment
    blocks, which are only printed, are not read.  [readInvalidationBit]
    is modelled although nothing calls it; [PrintProperties] and [debug]
    only print.  The monad [M] of [State] returns no state with an
    error: what a Go handler assigned before it returned an error (the
    partial output of a failed inflation that [readDataZipped] stores in
    [CachedDataGroup]) is not carried to a later call. *)

From Stdlib Require Import ZArith String Lia.
From stdpp Require Export base list option.
Export ListNotations.

(** ** Errors and the result type *)

(** The error taxonomy of the engine.  [EPanic] stands for a Go runtime
    panic (index or slice out of range, integer division by zero, a
    library panic): the Go program does not return an error value there,
    it unwinds.  [ENotReady] is the error [fmt.Errorf("package not ready
    to read this file")] the two tag switches of channel.go return for a
    tag they do not handle; the tag itself is only printed.  [EVersion]
    is the [*VersionError] of [ReadFile].
    [EFuel] is the model's own outcome when the fuel bounding
    the recursion runs out; it is not an error of the program. *)
Inductive err : Type :=
  | EIO (what : string)
  | EPanic (what : string)
  | ENotReady
  | ENotEnoughData (ty : string)
  | EUnsupportedType
  | EDecompress (what : string)
  | EChannelNotFound
  | EParse (what : string)
  | EVersion
  | EFuel.

Inductive result (A : Type) : Type :=
  | Ok (a : A)
  | Err (e : err).
Arguments Ok {A} a.
Arguments Err {A} e.

Definition rbind {A B : Type} (c : result A) (k : A -> result B) : result B :=
  match c with
  | Ok a => k a
  | Err e => Err e
  end.

Declare Scope res_scope.
Delimit Scope res_scope with res.
Notation "'let*' x ':=' c 'in' k" := (rbind c (fun x => k))
  (at level 10, x name, c at level 100, k at level 200) : res_scope.
Notation "'let*' ' p ':=' c 'in' k" := (rbind c (fun x => match x with p => k end))
  (at level 10, p pattern, c at level 100, k at level 200) : res_scope.
Open Scope res_scope.

Definition is_ok {A} (r : result A) : bool :=
  match r with Ok _ => true | Err _ => false end.

Definition is_fuel {A} (r : result A) : bool :=
  match r with Err EFuel => true | _ => false end.

(** A Go runtime panic with a message. *)
(** The value of a computation that also returns a state. *)
Definition res_fst {A B} (r : result (A * B)) : result A := let* '(a, _) := r in Ok a.

Definition panic {A} (what : string) : result A := Err (EPanic what).

(** ** Go integers *)

Open Scope Z_scope.

(** [uint_w w z] is Go's conversion of an integer to an unsigned
    integer of [w] bits: keep the low [w] bits. *)
Definition uint_w (w z : Z) : Z := z mod 2 ^ w.

(** [int_w w z] is Go's conversion to a signed integer of [w] bits: the
    low [w] bits read in two's complement. *)
Definition int_w (w z : Z) : Z :=
  let u := z mod 2 ^ w in
  if u <? 2 ^ (w - 1) then u else u - 2 ^ w.

(** Go's [%] on signed integers truncates toward zero and panics on a
    zero divisor. *)
Definition go_rem (a b : Z) : result Z :=
  if b =? 0 then panic "integer divide by zero" else Ok (Z.rem a b).

(** ** Go slices *)

(** [s[lo:hi]] over the elements of the underlying array up to the
    capacity of [s]: Go bounds [hi] by [cap(s)], not by [len(s)], and
    the result holds the elements of the array from [lo] to [hi].  A
    slice whose capacity is its length is its own list of elements. *)
Definition go_slice {A} (s : list A) (lo hi : Z) : result (list A) :=
  if (0 <=? lo) && (lo <=? hi) && (hi <=? Z.of_nat (length s))
  then Ok (take (Z.to_nat (hi - lo)) (drop (Z.to_nat lo) s))
  else panic "slice bounds out of range".

(** A Go [[]byte] value: its [len(s)] elements, and the elements of the
    underlying array between [len(s)] and [cap(s)], which [s[lo:hi]]
    reaches.  [make([]byte, n)] and [nil] have no spare capacity; the
    slice [io.ReadAll] returns usually has. *)
Record byte_slice : Type := mkSlice { sl_elems : list Byte.byte; sl_spare : list Byte.byte }.

(** A slice whose capacity is its length. *)
Definition slice_of (b : list Byte.byte) : byte_slice := mkSlice b [].

(** The [nil] slice. *)
Definition nil_slice : byte_slice := slice_of [].

(** The element at an integer index. *)
Fixpoint nth_Z {A} (s : list A) (i : Z) : option A :=
  match s with
  | [] => None
  | x :: s' => if i =? 0 then Some x else nth_Z s' (i - 1)
  end.

(** [s[i]]. *)
Definition go_index {A} (s : list A) (i : Z) : result A :=
  if 0 <=? i then
    match nth_Z s i with
    | Some x => Ok x
    | None => panic "index out of range"
    end
  else panic "index out of range".

(** [s[i]] at a counter that is never negative. *)
Definition go_index_n {A} (s : list A) (i : nat) : result A :=
  match nth_error s i with
  | Some x => Ok x
  | None => panic "index out of range"
  end.

(** ** Bytes *)

Definition bval (b : Byte.byte) : Z := Z.of_N (Byte.to_N b).

Definition byte_of_Z (z : Z) : Byte.byte :=
  match Byte.of_N (Z.to_N (z mod 256)) with
  | Some b => b
  | None => Byte.x00
  end.

#[export] Instance byte_eq_decision : EqDecision Byte.byte := Byte.byte_eq_dec.

(** The unsigned integer a byte list denotes with its first byte most
    significant (big endian). *)
Fixpoint be_value_acc (acc : Z) (bs : list Byte.byte) : Z :=
  match bs with
  | [] => acc
  | b :: t => be_value_acc (acc * 256 + bval b) t
  end.
Definition be_value (bs : list Byte.byte) : Z := be_value_acc 0 bs.

(** The unsigned integer a byte list denotes with its first byte least
    significant (little endian). *)
Fixpoint le_value (bs : list Byte.byte) : Z :=
  match bs with
  | [] => 0
  | b :: t => bval b + 256 * le_value t
  end.

(** ** Automation *)

Create HintDb mdf.
Create Rewrite HintDb mdf.

(** Unfold a bind whose head is known, and discharge the error cases. *)
Ltac res_simpl :=
  repeat match goal with
  | H : rbind ?c _ = Ok _ |- _ =>
      let E := fresh "E" in destruct c eqn:E; cbn [rbind] in H; [|discriminate H]
  | H : Ok _ = Ok _ |- _ => injection H as H
  end.

(** Case on every boolean comparison of integers in the goal and the
    hypotheses, leaving
    the arithmetic facts for [lia]. *)
Ltac zcase :=
  repeat match goal with
  | |- context [Z.ltb ?a ?b] => destruct (Z.ltb_spec a b)
  | |- context [Z.leb ?a ?b] => destruct (Z.leb_spec a b)
  | |- context [Z.eqb ?a ?b] => destruct (Z.eqb_spec a b)
  | H : context [Z.ltb ?a ?b] |- _ => destruct (Z.ltb_spec a b)
  | H : context [Z.leb ?a ?b] |- _ => destruct (Z.leb_spec a b)
  | H : context [Z.eqb ?a ?b] |- _ => destruct (Z.eqb_spec a b)
  end; cbn [orb andb negb] in *.

(** ** Shared lemmas *)

Lemma rbind_Ok {A B} (a : A) (k : A -> result B) : rbind (Ok a) k = k a.
Proof. reflexivity. Qed.

Lemma rbind_Err {A B} e (k : A -> result B) : rbind (Err e) k = Err e.
Proof. reflexivity. Qed.

Lemma rbind_Ok_inv {A B} (c : result A) (k : A -> result B) b :
  rbind c k = Ok b -> exists a, c = Ok a /\ k a = Ok b.
Proof. destruct c; cbn; [eauto | discriminate]. Qed.

#[export] Hint Rewrite @rbind_Ok @rbind_Err : mdf.

Lemma Ok_pair_inj {A B} (a c : A) (b d : B) : Ok (a, b) = Ok (c, d) -> a = c /\ b = d.
Proof. intros [= -> ->]. split; reflexivity. Qed.

Lemma drop_nth_error {A} (l : list A) i x :
  nth_error l i = Some x -> drop i l = x :: drop (S i) l.
Proof.
  revert l. induction i as [|i IH]; intros [|y l] E; cbn in *; try discriminate.
  - injection E as ->. reflexivity.
  - apply IH. exact E.
Qed.

Lemma go_index_n_some {A} (l : list A) i x : nth_error l i = Some x -> go_index_n l i = Ok x.
Proof. intros E. unfold go_index_n. rewrite E. reflexivity. Qed.

Lemma Forall2_nth_error {A B} (R : A -> B -> Prop) l1 l2 j a b :
  Forall2 R l1 l2 -> nth_error l1 j = Some a -> nth_error l2 j = Some b -> R a b.
Proof.
  intros HF. revert j. induction HF as [|x y l1 l2 Hxy HF IH]; intros [|j] E1 E2;
    cbn in *; try discriminate.
  - injection E1 as <-. injection E2 as <-. exact Hxy.
  - exact (IH j E1 E2).
Qed.

Lemma Forall2_mono {A B} (R R' : A -> B -> Prop) l1 l2 :
  (forall a b, R a b -> R' a b) -> Forall2 R l1 l2 -> Forall2 R' l1 l2.
Proof. intros HR. induction 1; constructor; auto. Qed.

Lemma Forall2_length_eq {A B} (R : A -> B -> Prop) l1 l2 :
  Forall2 R l1 l2 -> length l1 = length l2.
Proof. induction 1; cbn; congruence. Qed.

Lemma bval_range b : 0 <= bval b < 256.
Proof.
  unfold bval. pose proof (Byte.to_N_bounded b). lia.
Qed.

Lemma bval_byte_of_Z z : bval (byte_of_Z z) = z mod 256.
Proof.
  unfold byte_of_Z, bval.
  pose proof (Z.mod_pos_bound z 256 ltac:(lia)) as Hr.
  destruct (Byte.of_N (Z.to_N (z mod 256))) eqn:E.
  - apply Byte.to_of_N in E. rewrite E. lia.
  - apply Byte.of_N_None_iff in E. lia.
Qed.

Lemma byte_of_Z_bval b : byte_of_Z (bval b) = b.
Proof.
  unfold byte_of_Z, bval.
  rewrite Z.mod_small by (pose proof (Byte.to_N_bounded b); lia).
  rewrite N2Z.id, Byte.of_to_N. reflexivity.
Qed.

#[export] Hint Rewrite bval_byte_of_Z byte_of_Z_bval : mdf.

Lemma be_value_acc_app acc l1 l2 :
  be_value_acc acc (l1 ++ l2) = be_value_acc (be_value_acc acc l1) l2.
Proof. revert acc. induction l1; intros; cbn; auto. Qed.

Lemma be_value_acc_shift acc l :
  be_value_acc acc l = acc * 256 ^ Z.of_nat (length l) + be_value l.
Proof.
  unfold be_value. revert acc. induction l as [|b l IH]; intros acc; cbn [be_value_acc length].
  - lia.
  - rewrite (IH (acc * 256 + bval b)), (IH (0 * 256 + bval b)).
    rewrite Nat2Z.inj_succ, Z.pow_succ_r by lia. lia.
Qed.

Lemma be_value_rev l : be_value (rev l) = le_value l.
Proof.
  induction l as [|b l IH]; [reflexivity|].
  cbn [rev le_value]. unfold be_value in *.
  rewrite be_value_acc_app, IH. cbn. lia.
Qed.

Lemma le_value_bound l : 0 <= le_value l < 2 ^ (8 * Z.of_nat (length l)).
Proof.
  induction l as [|b l IH]; cbn [le_value length]; [lia|].
  pose proof (bval_range b).
  rewrite Nat2Z.inj_succ, Z.mul_succ_r, Z.pow_add_r by lia. lia.
Qed.

Lemma be_value_bound l : 0 <= be_value l < 2 ^ (8 * Z.of_nat (length l)).
Proof.
  rewrite <- (rev_involutive l), be_value_rev, length_rev. apply le_value_bound.
Qed.

Lemma le_value_app l1 l2 :
  le_value (l1 ++ l2) = le_value l1 + 2 ^ (8 * Z.of_nat (length l1)) * le_value l2.
Proof.
  induction l1 as [|b l IH]; cbn [le_value length app]; [lia|].
  rewrite IH, Nat2Z.inj_succ, Z.mul_succ_r, Z.pow_add_r by lia. lia.
Qed.

Lemma go_slice_ok {A} (s : list A) lo hi :
  0 <= lo <= hi -> hi <= Z.of_nat (length s) ->
  go_slice s lo hi = Ok (take (Z.to_nat (hi - lo)) (drop (Z.to_nat lo) s)).
Proof.
  intros ??. unfold go_slice.
  replace ((0 <=? lo) && (lo <=? hi) && (hi <=? Z.of_nat (length s))) with true
    by (symmetry; repeat rewrite andb_true_iff; rewrite !Z.leb_le; lia).
  reflexivity.
Qed.

Lemma go_slice_whole {A} (l : list A) : go_slice l 0 (Z.of_nat (length l)) = Ok l.
Proof.
  rewrite go_slice_ok by lia. rewrite Z.sub_0_r, Nat2Z.id, drop_0, take_ge; reflexivity.
Qed.

Lemma go_slice_panic {A} (s : list A) lo hi :
  0 <= lo <= hi -> Z.of_nat (length s) < hi ->
  go_slice s lo hi = panic "slice bounds out of range".
Proof.
  intros ??. unfold go_slice.
  replace (hi <=? Z.of_nat (length s)) with false by (symmetry; apply Z.leb_gt; lia).
  rewrite andb_false_r. reflexivity.
Qed.

Lemma length_go_slice {A} (s : list A) lo hi r :
  go_slice s lo hi = Ok r -> Z.of_nat (length r) = hi - lo.
Proof.
  unfold go_slice. destruct ((0 <=? lo) && (lo <=? hi) && (hi <=? Z.of_nat (length s))) eqn:E;
    [|discriminate]. intros [= <-].
  repeat rewrite andb_true_iff in E. rewrite !Z.leb_le in E.
  rewrite length_take, length_drop. lia.
Qed.

Lemma uint_w_range w z : 0 <= w -> 0 <= uint_w w z < 2 ^ w.
Proof. intros. unfold uint_w. apply Z.mod_pos_bound. apply Z.pow_pos_nonneg; lia. Qed.

Lemma uint_w_small w z : 0 <= z < 2 ^ w -> uint_w w z = z.
Proof. intros. unfold uint_w. apply Z.mod_small. lia. Qed.

Lemma int_w_range w z : 1 <= w -> - 2 ^ (w - 1) <= int_w w z < 2 ^ (w - 1).
Proof.
  intros Hw. unfold int_w.
  assert (E : 2 ^ w = 2 * 2 ^ (w - 1)) by (rewrite <- Z.pow_succ_r by lia; f_equal; lia).
  pose proof (Z.mod_pos_bound z (2 ^ w) ltac:(lia)).
  destruct (Z.ltb_spec (z mod 2 ^ w) (2 ^ (w - 1))); lia.
Qed.

#[export] Hint Resolve bval_range le_value_bound be_value_bound uint_w_range : mdf.

(** Replace every Go conversion and byte value in the goal by a fresh
    integer together with its range. *)
Ltac go_ranges :=
  repeat match goal with
  | |- context [int_w ?w ?z] =>
      let H := fresh "Hr" in
      pose proof (int_w_range w z ltac:(lia)) as H; revert H; generalize (int_w w z); intros
  | |- context [uint_w ?w ?z] =>
      let H := fresh "Hr" in
      pose proof (uint_w_range w z ltac:(lia)) as H; revert H; generalize (uint_w w z); intros
  | |- context [bval ?b] =>
      let H := fresh "Hr" in
      pose proof (bval_range b) as H; revert H; generalize (bval b); intros
  end.
