(* ===== verification/Decode.v ===== *)
(** * The bit-level value decoder of [src/channel.go]

    [parseSignalMeasure] turns the byte window of one field into a typed
    value; [reverseBytes] puts a little-endian window in the big-endian
    order the bit array addresses; [loadDataType] of [src/mf4.go] picks the
    Go type a channel decodes to.  The bit array of the library
    [go-bitarray] ([NewBufferFromByteSlice], [BitArrayAt], [ToUint64]) is
    modelled from its documented behaviour: bit 0 is the most significant
    bit of the first byte, [BitArrayAt] panics on a range outside the
    buffer, and [ToUint64] reads the bits as an unsigned integer (the low
    64 bits when there are more). *)

From Stdlib Require Import ZArith String Ascii Lia.
From coqutil Require Import Z.bitblast.
From S2P Require Import Prelude.

Local Open Scope string_scope.
Open Scope Z_scope.

Module Decode.

(** ** Data *)

(** [binary.ByteOrder]: the two values the code compares against. *)
Inductive byte_order : Type := LittleEndian | BigEndian.

(** The dynamic type held by the [interface{}] [DataType]: the cases of
    the type switches of [parseSignalMeasure], and [TNil] for the [nil]
    interface [loadDataType] returns when no case matches. *)
Inductive dtype : Type :=
  | TString | TBytes | TInt8 | TUint8
  | TInt16 | TUint16 | TInt32 | TUint32 | TInt64 | TUint64
  | TFloat32 | TFloat64 | TNil.

(** The decoded values.  A float is kept as its IEEE-754 bit pattern:
    [math.Float32frombits] and [math.Float64frombits] reinterpret bits and
    do not change them. *)
Inductive value : Type :=
  | VString (s : list Byte.byte)
  | VHex (s : string)
  | VInt8 (z : Z) | VUint8 (z : Z)
  | VInt16 (z : Z) | VUint16 (z : Z)
  | VInt32 (z : Z) | VUint32 (z : Z)
  | VInt64 (z : Z) | VUint64 (z : Z)
  | VFloat32 (bits : Z) | VFloat64 (bits : Z).

#[export] Instance dtype_eq_dec : EqDecision dtype.
Proof. solve_decision. Qed.
#[export] Instance byte_order_eq_dec : EqDecision byte_order.
Proof. solve_decision. Qed.

(** ** Operations *)

(** [reverseBytes]: [reversed[i] = data[n-i-1]] for [i] in [0, n). *)
Definition reverseBytes (data : list Byte.byte) : list Byte.byte :=
  let n := length data in
  map (fun i => nth (n - i - 1) data Byte.x00) (seq 0 n).

(** [hex.EncodeToString]: two lowercase hexadecimal digits per byte. *)
Definition hex_digit (n : Z) : ascii :=
  match String.get (Z.to_nat n) "0123456789abcdef" with
  | Some c => c
  | None => "0"%char
  end.
Definition hexEncodeToString (data : list Byte.byte) : string :=
  fold_right (fun b s => String (hex_digit (bval b / 16)) (String (hex_digit (bval b mod 16)) s))
    EmptyString data.

(** [bitarray.NewBufferFromByteSlice(data).BitArrayAt(off, n).ToUint64()]:
    the [n] bits starting at bit [off], bit 0 being the most significant
    bit of [data[0]]. *)
Definition bitArrayAtUint64 (data : list Byte.byte) (off n : Z) : result Z :=
  if (off <? 0) || (n <? 0) || (8 * Z.of_nat (length data) <? off + n)
  then panic "bitarray: out of range"
  else Ok (uint_w 64 (Z.land (Z.shiftr (be_value data) (8 * Z.of_nat (length data) - off - n))
                             (Z.ones n))).

(** The second type switch of [parseSignalMeasure]: width check, then
    the conversion of the extracted [uint64]. *)
Definition convertWide (dt : dtype) (len value : Z) : result Decode.value :=
  let need (w : Z) (ty : string) (v : Decode.value) :=
    if len <? w then Err (ENotEnoughData ty) else Ok v in
  match dt with
  | TInt16 => need 2 "int16" (VInt16 (int_w 16 value))
  | TUint16 => need 2 "uint16" (VUint16 (uint_w 16 value))
  | TInt32 => need 4 "int32" (VInt32 (int_w 32 value))
  | TUint32 => need 4 "uint32" (VUint32 (uint_w 32 value))
  | TInt64 => need 8 "int64" (VInt64 (int_w 64 value))
  | TUint64 => need 8 "uint64" (VUint64 value)
  | TFloat32 => need 4 "float32" (VFloat32 (uint_w 32 value))
  | TFloat64 => need 8 "float64" (VFloat64 value)
  | _ => Err EUnsupportedType
  end.

(** [parseSignalMeasure(data, byteOrder, dataType, offset, bitcount)]. *)
Definition parseSignalMeasure (data : list Byte.byte) (bo : byte_order) (dt : dtype)
    (offset bitcount : Z) : result value :=
  match dt with
  | TString => Ok (VString data)
  | TBytes => Ok (VHex (hexEncodeToString data))
  | TInt8 => let* b := go_index data 0 in Ok (VInt8 (int_w 8 (bval b)))
  | TUint8 => let* b := go_index data 0 in Ok (VUint8 (bval b))
  | _ =>
      let data := if bo is LittleEndian then reverseBytes data else data in
      let off := 8 * Z.of_nat (length data) - offset - bitcount in
      let* v := bitArrayAtUint64 data off bitcount in
      convertWide dt (Z.of_nat (length data)) v
  end.

(** [loadDataType(dataType, lenSize)] of [src/mf4.go]: the MDF data type
    code (0/1 unsigned, 2/3 signed, 4/5 float, each in LE/BE) and the byte
    size pick the Go type; anything else leaves the interface [nil]. *)
Definition loadDataType (dataType : Z) (lenSize : Z) : dtype :=
  if (dataType =? 0) || (dataType =? 1) then
    if lenSize =? 1 then TUint8 else if lenSize =? 2 then TUint16
    else if lenSize =? 4 then TUint32 else if lenSize =? 8 then TUint64 else TNil
  else if (dataType =? 2) || (dataType =? 3) then
    if lenSize =? 1 then TInt8 else if lenSize =? 2 then TInt16
    else if lenSize =? 4 then TInt32 else if lenSize =? 8 then TInt64 else TNil
  else if (dataType =? 4) || (dataType =? 5) then
    if lenSize =? 4 then TFloat32 else if lenSize =? 8 then TFloat64 else TNil
  else TNil.

(** ** Reference definitions used by the theorems *)

(** The [n]-bit field at bit [offset] of an integer, counted from its
    least significant bit. *)
Definition field (w offset n : Z) : Z := Z.land (Z.shiftr w offset) (Z.ones n).

(** The integer a window denotes in a byte order. *)
Definition window_value (bo : byte_order) (data : list Byte.byte) : Z :=
  if bo is LittleEndian then le_value data else be_value data.

(** The byte width of a wide type. *)
Definition width (dt : dtype) : Z :=
  match dt with
  | TInt16 | TUint16 => 2
  | TInt32 | TUint32 | TFloat32 => 4
  | TInt64 | TUint64 | TFloat64 => 8
  | _ => 1
  end.

(** The number kinds of the MDF data type codes and of the Go types. *)
Inductive num_kind : Type := KUnsigned | KSigned | KFloat.

(** The kind of an MDF integer or float data type code (ASAM MDF 4:
    0/1 unsigned, 2/3 signed, 4/5 IEEE 754, each in LE/BE). *)
Definition kind_of_code (code : Z) : option num_kind :=
  if (code =? 0) || (code =? 1) then Some KUnsigned
  else if (code =? 2) || (code =? 3) then Some KSigned
  else if (code =? 4) || (code =? 5) then Some KFloat
  else None.

(** The byte sizes Go has a type of each kind for. *)
Definition size_ok (k : num_kind) (size : Z) : bool :=
  match k with
  | KFloat => (size =? 4) || (size =? 8)
  | _ => (size =? 1) || (size =? 2) || (size =? 4) || (size =? 8)
  end.

(** The kind of a Go numeric type. *)
Definition dtype_kind (dt : dtype) : option num_kind :=
  match dt with
  | TUint8 | TUint16 | TUint32 | TUint64 => Some KUnsigned
  | TInt8 | TInt16 | TInt32 | TInt64 => Some KSigned
  | TFloat32 | TFloat64 => Some KFloat
  | _ => None
  end.

(** The type name in the "not enough data to read ..." messages. *)
Definition dtype_name (dt : dtype) : string :=
  match dt with
  | TInt16 => "int16" | TUint16 => "uint16" | TInt32 => "int32" | TUint32 => "uint32"
  | TInt64 => "int64" | TUint64 => "uint64" | TFloat32 => "float32" | TFloat64 => "float64"
  | _ => EmptyString
  end.

Definition is_wide (dt : dtype) : bool :=
  match dt with
  | TInt16 | TUint16 | TInt32 | TUint32 | TInt64 | TUint64 | TFloat32 | TFloat64 => true
  | _ => false
  end.

(** Little-endian serialisation of the low [n] bytes of an integer, the
    inverse of [le_value] (as in a test that builds a record). *)
Fixpoint le_split (n : nat) (z : Z) : list Byte.byte :=
  match n with
  | O => []
  | S n' => byte_of_Z z :: le_split n' (Z.shiftr z 8)
  end.

(** A window of [len] bytes in byte order [bo] that holds [v] in the
    [n]-bit field at bit [offset] and the bits of [w] elsewhere. *)
Definition put_field (bo : byte_order) (len : nat) (w offset n v : Z) : list Byte.byte :=
  let z := Z.lor (Z.ldiff w (Z.shiftl (Z.ones n) offset)) (Z.shiftl (Z.land v (Z.ones n)) offset) in
  if bo is LittleEndian then le_split len z else rev (le_split len z).

(** The value the [Ok] branch of [convertWide] builds from the extracted
    bits. *)
Definition wide_value (dt : dtype) (v : Z) : value :=
  match dt with
  | TInt16 => VInt16 (int_w 16 v)
  | TUint16 => VUint16 (uint_w 16 v)
  | TInt32 => VInt32 (int_w 32 v)
  | TUint32 => VUint32 (uint_w 32 v)
  | TInt64 => VInt64 (int_w 64 v)
  | TFloat32 => VFloat32 (uint_w 32 v)
  | TFloat64 => VFloat64 v
  | _ => VUint64 v
  end.

(** The descriptors that go through the bit array: all but the
    byte-granular ones. *)
Definition is_bitwise (dt : dtype) : bool :=
  match dt with
  | TString | TBytes | TInt8 | TUint8 => false
  | _ => true
  end.

Definition in_range (lo z hi : Z) : bool := (lo <=? z) && (z <? hi).

(** A value has the Go type of the descriptor: the constructor matches
    and the integer lies in the range of the type. *)
Definition value_typed (dt : dtype) (v : value) : bool :=
  match dt, v with
  | TString, VString _ | TBytes, VHex _ => true
  | TInt8, VInt8 z => in_range (-2^7) z (2^7)
  | TUint8, VUint8 z => in_range 0 z (2^8)
  | TInt16, VInt16 z => in_range (-2^15) z (2^15)
  | TUint16, VUint16 z => in_range 0 z (2^16)
  | TInt32, VInt32 z => in_range (-2^31) z (2^31)
  | TUint32, VUint32 z | TFloat32, VFloat32 z => in_range 0 z (2^32)
  | TInt64, VInt64 z => in_range (-2^63) z (2^63)
  | TUint64, VUint64 z | TFloat64, VFloat64 z => in_range 0 z (2^64)
  | _, _ => false
  end.

(** ** Lemmas *)

Lemma reverseBytes_rev l : reverseBytes l = rev l.
Proof.
  unfold reverseBytes. apply nth_ext with (d := Byte.x00) (d' := Byte.x00).
  - rewrite length_map, length_seq, length_rev. reflexivity.
  - intros i Hi. rewrite length_map, length_seq in Hi.
    set (f := fun i => nth (length l - i - 1) l Byte.x00).
    rewrite nth_indep with (d' := f 0%nat) by (rewrite length_map, length_seq; lia).
    rewrite (map_nth f), seq_nth, rev_nth by lia. unfold f. f_equal. lia.
Qed.

Lemma window_be_value bo data :
  be_value (if bo is LittleEndian then reverseBytes data else data) = window_value bo data.
Proof. destruct bo; cbn; [rewrite reverseBytes_rev; apply be_value_rev | reflexivity]. Qed.

Lemma length_window bo (data : list Byte.byte) :
  length (if bo is LittleEndian then reverseBytes data else data) = length data.
Proof. destruct bo; [rewrite reverseBytes_rev, length_rev|]; reflexivity. Qed.

Lemma field_range w o n : 0 <= n -> 0 <= field w o n < 2 ^ n.
Proof. intros. unfold field. rewrite Z.land_ones by lia. apply Z.mod_pos_bound, Z.pow_pos_nonneg; lia. Qed.

Lemma bitArrayAtUint64_field d o n :
  0 <= o -> 0 <= n <= 64 -> o + n <= 8 * Z.of_nat (length d) ->
  bitArrayAtUint64 d (8 * Z.of_nat (length d) - o - n) n = Ok (field (be_value d) o n).
Proof.
  intros. unfold bitArrayAtUint64. zcase; try lia.
  f_equal. replace (8 * Z.of_nat (length d) - (8 * Z.of_nat (length d) - o - n) - n) with o by lia.
  apply uint_w_small. pose proof (field_range (be_value d) o n).
  pose proof (Z.pow_le_mono_r 2 n 64). unfold field in *. lia.
Qed.

Lemma bitArrayAtUint64_range d off n v :
  bitArrayAtUint64 d off n = Ok v -> 0 <= v < 2 ^ 64.
Proof.
  unfold bitArrayAtUint64. destruct (_ || _); [discriminate|].
  intros [= <-]. apply uint_w_range. lia.
Qed.

Lemma convertWide_ok dt len v :
  is_wide dt = true -> width dt <= len -> convertWide dt len v = Ok (wide_value dt v).
Proof. intros Hw Hl. destruct dt; try discriminate; cbn in *; zcase; (reflexivity || lia). Qed.

Lemma parseSignalMeasure_wide_eq data bo dt o n :
  is_bitwise dt = true ->
  parseSignalMeasure data bo dt o n =
    let* v := bitArrayAtUint64 (if bo is LittleEndian then reverseBytes data else data)
                (8 * Z.of_nat (length data) - o - n) n in
    convertWide dt (Z.of_nat (length data)) v.
Proof.
  intros Hw. rewrite <- (length_window bo data).
  destruct dt; try discriminate; reflexivity.
Qed.

Lemma is_wide_bitwise dt : is_wide dt = true -> is_bitwise dt = true.
Proof. destruct dt; easy.
Qed.

Lemma le_value_le_split n z : le_value (le_split n z) = z mod 2 ^ (8 * Z.of_nat n).
Proof.
  revert z. induction n as [|n IH]; intros z; cbn [le_split le_value].
  - rewrite Z.mod_1_r. reflexivity.
  - rewrite IH, bval_byte_of_Z, Z.shiftr_div_pow2 by lia.
    replace (2 ^ (8 * Z.of_nat (S n))) with (256 * 2 ^ (8 * Z.of_nat n))
      by (rewrite Nat2Z.inj_succ, Z.mul_succ_r, Z.pow_add_r by lia; lia).
    rewrite Z.rem_mul_r by (try lia; apply Z.pow_pos_nonneg; lia).
    change (2 ^ 8) with 256. lia.
Qed.

Lemma length_le_split n z : length (le_split n z) = n.
Proof. revert z. induction n; intros; cbn; auto. Qed.

Lemma window_value_put_field bo len w o n v :
  window_value bo (put_field bo len w o n v) =
  Z.land (Z.lor (Z.ldiff w (Z.shiftl (Z.ones n) o)) (Z.shiftl (Z.land v (Z.ones n)) o))
         (Z.ones (8 * Z.of_nat len)).
Proof.
  rewrite Z.land_ones by lia.
  destruct bo; cbn [window_value put_field]; [|rewrite be_value_rev]; apply le_value_le_split.
Qed.

Lemma length_put_field bo len w o n v : length (put_field bo len w o n v) = len.
Proof. destruct bo; cbn; rewrite ?length_rev; apply length_le_split. Qed.

#[export] Hint Rewrite reverseBytes_rev window_be_value length_window length_le_split
  length_put_field : mdf.

(** ** Theorems *)

(** C1 (functional).  On every wide numeric type, when the field lies
    inside the window and the window is as wide as the type,
    [parseSignalMeasure] returns the [bitcount]-bit field at bit [offset]
    of the integer the window denotes in its byte order, converted to the
    type: the reversal of little-endian windows and the offset
    [len*8 - offset - bitcount] counted from the most significant bit
    select exactly that field. *)
Theorem parseSignalMeasure_wide data bo dt offset n :
  is_wide dt = true -> 0 <= offset -> 0 <= n <= 64 ->
  offset + n <= 8 * Z.of_nat (length data) -> width dt <= Z.of_nat (length data) ->
  parseSignalMeasure data bo dt offset n = Ok (wide_value dt (field (window_value bo data) offset n)).
Proof.
  intros Hw ? ? Hf Hl. rewrite parseSignalMeasure_wide_eq by (apply is_wide_bitwise; exact Hw).
  rewrite <- (length_window bo data) in Hf |- * at 1.
  rewrite bitArrayAtUint64_field by lia. cbn [rbind].
  rewrite window_be_value. apply convertWide_ok; [exact Hw | lia].
Qed.

(** C2 (roundtrip).  Writing a value of [bitcount] bits at bit [offset]
    of a window of [len] bytes, in either byte order and whatever the
    other bits, and decoding the window with the same geometry gives the
    value back (converted to the target type; for an unsigned type at
    least as wide as the field this is the value itself). *)
Theorem parseSignalMeasure_put_field bo dt len w offset n v :
  is_wide dt = true -> 0 <= offset -> 0 <= n <= 64 -> offset + n <= 8 * Z.of_nat len ->
  width dt <= Z.of_nat len -> 0 <= v < 2 ^ n ->
  parseSignalMeasure (put_field bo len w offset n v) bo dt offset n = Ok (wide_value dt v).
Proof.
  intros Hw ? ? ? ? Hv.
  rewrite parseSignalMeasure_wide; rewrite ?length_put_field; try assumption.
  f_equal. f_equal. rewrite window_value_put_field.
  transitivity (Z.land v (Z.ones n)).
  - unfold field. Z.bitblast.
  - rewrite Z.land_ones by lia. apply Z.mod_small. lia.
Qed.


Lemma convertWide_typed dt len u v :
  0 <= u < 2 ^ 64 -> convertWide dt len u = Ok v -> value_typed dt v = true.
Proof.
  intros Hu H.
  destruct dt; cbn in H; zcase; try discriminate; injection H as <-; cbn; unfold in_range;
    go_ranges; zcase; (reflexivity || lia).
Qed.

(** C10 (type invariant).  Whatever the window and the geometry, a value
    [parseSignalMeasure] returns has the Go type of the descriptor and
    lies in that type's range. *)
Theorem parseSignalMeasure_typed data bo dt offset n v :
  parseSignalMeasure data bo dt offset n = Ok v -> value_typed dt v = true.
Proof.
  intros H. destruct (is_bitwise dt) eqn:Hw.
  - rewrite parseSignalMeasure_wide_eq in H by exact Hw.
    apply rbind_Ok_inv in H as (u & Hu & Hc).
    exact (convertWide_typed _ _ _ _ (bitArrayAtUint64_range _ _ _ _ Hu) Hc).
  - destruct dt; try discriminate; cbn in H |- *; try (injection H as <-; reflexivity);
      apply rbind_Ok_inv in H as (b & _ & [= <-]); cbn; unfold in_range;
      go_ranges; zcase; (reflexivity || lia).
Qed.

(** C11 (error).  A field that does not fit in the window (bit offset
    plus bit count beyond [8 * len]) makes the bit array panic on every
    wide type and on the [nil] descriptor: the width check of the type
    switch, which comes after the extraction, is never reached. *)
Theorem parseSignalMeasure_out_of_window data bo dt offset n :
  is_bitwise dt = true -> 0 <= offset -> 0 <= n ->
  8 * Z.of_nat (length data) < offset + n ->
  parseSignalMeasure data bo dt offset n = panic "bitarray: out of range".
Proof.
  intros Hw ???. rewrite parseSignalMeasure_wide_eq by exact Hw.
  unfold bitArrayAtUint64. rewrite length_window. zcase; (reflexivity || lia).
Qed.

(** C12 (error).  When the field fits in the window but the window is
    narrower than the type, the decoder fails with the "not enough data"
    error of the type; on the [nil] descriptor it fails with
    "unsupported data type". *)
Theorem parseSignalMeasure_short_or_nil data bo dt offset n :
  is_bitwise dt = true -> 0 <= offset -> 0 <= n <= 64 ->
  offset + n <= 8 * Z.of_nat (length data) -> Z.of_nat (length data) < width dt \/ dt = TNil ->
  parseSignalMeasure data bo dt offset n =
    if is_wide dt then Err (ENotEnoughData (dtype_name dt)) else Err EUnsupportedType.
Proof.
  intros Hw ?? Hf Hl. rewrite parseSignalMeasure_wide_eq by exact Hw.
  rewrite <- (length_window bo data) in Hf |- * at 1.
  rewrite bitArrayAtUint64_field by lia. cbn [rbind].
  destruct dt; try discriminate; destruct Hl as [Hl | Hl]; try discriminate;
    cbn in Hl |- *; zcase; (reflexivity || lia).
Qed.

(** C20 (functional).  [loadDataType] of mf4.go picks, for an integer
    or float code and a byte size Go has a type of that kind for, the
    type of that kind exactly as wide as the size; for any other code or
    size it leaves the interface [nil]. *)
Theorem loadDataType_spec code size :
  match kind_of_code code with
  | Some k =>
      if size_ok k size
      then dtype_kind (loadDataType code size) = Some k /\ width (loadDataType code size) = size
      else loadDataType code size = TNil
  | None => loadDataType code size = TNil
  end.
Proof.
  unfold kind_of_code, loadDataType, size_ok.
  repeat match goal with |- context [?x =? ?y] => destruct (Z.eqb_spec x y) end;
    subst; cbn; auto; lia.
Qed.

(** [loadDataType] picks a type exactly as wide as the byte size, or
    [nil]. *)
Lemma loadDataType_width code size :
  loadDataType code size = TNil \/ width (loadDataType code size) = size.
Proof.
  unfold loadDataType. zcase; subst; cbn; auto.
Qed.

(** ** Witnesses *)

Definition bytes_of (l : list Z) : list Byte.byte := map byte_of_Z l.

Lemma parseSignalMeasure_wide_witness :
  parseSignalMeasure (bytes_of [1; 0]) LittleEndian TUint16 0 16 =
    Ok (wide_value TUint16 (field (window_value LittleEndian (bytes_of [1; 0])) 0 16)).
Proof. apply parseSignalMeasure_wide; cbn; (reflexivity || lia). Defined.

Lemma parseSignalMeasure_put_field_witness :
  parseSignalMeasure (put_field BigEndian 3 255 5 12 2748) BigEndian TUint32 5 12 =
    Err (ENotEnoughData "uint32") /\
  parseSignalMeasure (put_field BigEndian 4 255 5 12 2748) BigEndian TUint32 5 12 =
    Ok (wide_value TUint32 2748).
Proof.
  split; [vm_compute; reflexivity|].
  apply parseSignalMeasure_put_field; cbn; (reflexivity || lia).
Defined.

Lemma parseSignalMeasure_typed_witness :
  parseSignalMeasure (bytes_of [255; 255]) LittleEndian TInt16 0 16 = Ok (VInt16 (-1)) /\
  value_typed TInt16 (VInt16 (-1)) = true.
Proof.
  split; [reflexivity|]. apply (parseSignalMeasure_typed (bytes_of [255; 255]) LittleEndian TInt16 0 16).
  reflexivity.
Defined.

Lemma parseSignalMeasure_out_of_window_witness :
  parseSignalMeasure (bytes_of [255; 255]) LittleEndian TInt32 0 32 = panic "bitarray: out of range".
Proof. apply parseSignalMeasure_out_of_window; cbn; (reflexivity || lia). Defined.

Lemma parseSignalMeasure_short_or_nil_witness :
  parseSignalMeasure (bytes_of [255; 255]) LittleEndian TInt32 0 16 =
    Err (ENotEnoughData "int32").
Proof. apply (parseSignalMeasure_short_or_nil _ _ TInt32); cbn; (reflexivity || lia). Defined.

End Decode.
