(* ===== verification/Records.v ===== *)
(** * The fixed-length record reader of [src/channel.go]

    The [ChannelReader] struct, [readDatablock] (one field window of a
    row) and the row loop of [readDT], which decodes up to [CycleCount]
    rows of a block buffer and, when it runs past the end of the buffer,
    carries the misalignment of the last row over to the next block
    through [StartOffset].  The file access of [readDT] (the data group
    cache test and [readBlockToMemory]) is in [Dispatch]; here the buffer
    is already in the reader. *)

From Stdlib Require Import ZArith String Lia.
From S2P Require Import Prelude Decode.
Import Decode.

Open Scope Z_scope.

Module Records.

(** ** Data *)

(** [ChannelReader]. *)
Record reader : Type := mkReader {
  ByteOrder : byte_order;
  SizeMeasureRow : Z;
  DataType : dtype;
  DataAddress : Z;
  NextDataAddress : Z;
  MeasureBuffer : list Byte.byte;
  RowSize : Z;
  BitCount : Z;
  BitOffset : Z;
  StartOffset : Z;
  MeasureSpare : list Byte.byte
}.

(** Field assignments [cn.F = x]. *)
Definition set_StartOffset (r : reader) (x : Z) : reader :=
  mkReader (ByteOrder r) (SizeMeasureRow r) (DataType r) (DataAddress r) (NextDataAddress r)
    (MeasureBuffer r) (RowSize r) (BitCount r) (BitOffset r) x (MeasureSpare r).
(** [cn.MeasureBuffer = s]: the slice with its capacity. *)
Definition set_MeasureSlice (r : reader) (s : byte_slice) : reader :=
  mkReader (ByteOrder r) (SizeMeasureRow r) (DataType r) (DataAddress r) (NextDataAddress r)
    (sl_elems s) (RowSize r) (BitCount r) (BitOffset r) (StartOffset r) (sl_spare s).
(** The elements of [cn.MeasureBuffer] written in place, as
    [io.ReadFull(f, buf)] does: the length and the spare capacity stay. *)
Definition set_MeasureBuffer (r : reader) (x : list Byte.byte) : reader :=
  mkReader (ByteOrder r) (SizeMeasureRow r) (DataType r) (DataAddress r) (NextDataAddress r)
    x (RowSize r) (BitCount r) (BitOffset r) (StartOffset r) (MeasureSpare r).
Definition set_DataAddress (r : reader) (x : Z) : reader :=
  mkReader (ByteOrder r) (SizeMeasureRow r) (DataType r) x (NextDataAddress r)
    (MeasureBuffer r) (RowSize r) (BitCount r) (BitOffset r) (StartOffset r) (MeasureSpare r).
Definition set_NextDataAddress (r : reader) (x : Z) : reader :=
  mkReader (ByteOrder r) (SizeMeasureRow r) (DataType r) (DataAddress r) x
    (MeasureBuffer r) (RowSize r) (BitCount r) (BitOffset r) (StartOffset r) (MeasureSpare r).

(** ** Operations *)

(** The underlying array of [cn.MeasureBuffer] up to its capacity. *)
Definition measure_cap (r : reader) : list Byte.byte := MeasureBuffer r ++ MeasureSpare r.

(** [readDatablock(pos)]: the window [MeasureBuffer[pos:pos+SizeMeasureRow]]
    decoded with the reader's geometry; the window may reach into the
    spare capacity. *)
Definition readDatablock (r : reader) (pos : Z) : result value :=
  let* w := go_slice (measure_cap r) pos (pos + SizeMeasureRow r) in
  parseSignalMeasure w (ByteOrder r) (DataType r) (BitOffset r) (BitCount r).

(** The [for i < CycleCount] loop of [readDT], [k] being the number of
    iterations left.  The measure slice is the accumulator. *)
Fixpoint readDT_rows (k : nat) (r : reader) (pos : Z) (measure : list value)
    : result (reader * list value) :=
  match k with
  | O => Ok (r, measure)
  | S k' =>
      let len := Z.of_nat (length (MeasureBuffer r)) in
      if len <=? pos then
        let* remaining := go_rem len (RowSize r) in
        if 0 <? remaining then
          let shift := if negb (remaining =? 0) then RowSize r - remaining else 0 in
          let* so := go_rem (StartOffset r + shift) (RowSize r) in
          Ok (set_StartOffset r so, measure)
        else Ok (r, measure)
      else
        let* v := readDatablock r pos in
        readDT_rows k' r (pos + RowSize r) (measure ++ [v])
  end.

(** The loop as [readDT] starts it: [pos := StartOffset]. *)
Definition readDT_loop (cycleCount : Z) (r : reader) (measure : list value)
    : result (reader * list value) :=
  readDT_rows (Z.to_nat cycleCount) r (StartOffset r) measure.

(** ** Reference definitions *)

(** The field positions of [m] consecutive rows from [pos]. *)
Fixpoint positions (pos R : Z) (m : nat) : list Z :=
  match m with
  | O => []
  | S m' => pos :: positions (pos + R) R m'
  end.

(** The number of rows whose field starts inside a buffer of [len]
    bytes, the first at [pos], rows [R] bytes apart. *)
Definition rows_avail (len pos R : Z) : nat :=
  if len <=? pos then O else Z.to_nat ((len - pos + R - 1) / R).

(** Decode a list of positions, stopping at the first error. *)
Fixpoint decode_all (r : reader) (ps : list Z) : result (list value) :=
  match ps with
  | [] => Ok []
  | p :: ps' => let* v := readDatablock r p in
                let* vs := decode_all r ps' in Ok (v :: vs)
  end.

(** The reader after the loop ran past the end of its buffer. *)
Definition carry (r : reader) : reader :=
  let len := Z.of_nat (length (MeasureBuffer r)) in
  if 0 <? Z.rem len (RowSize r)
  then set_StartOffset r (Z.rem (StartOffset r + (RowSize r - Z.rem len (RowSize r))) (RowSize r))
  else r.

(** The measure a read leaves, forgetting the reader. *)
Definition measure_of (x : result (reader * list value)) : result (list value) :=
  let* '(_, m) := x in Ok m.

(** ** Lemmas *)

Lemma rows_avail_step L pos R :
  0 < R -> pos < L -> rows_avail L pos R = S (rows_avail L (pos + R) R).
Proof.
  intros HR Hp. unfold rows_avail. zcase; try lia.
  - assert ((L - pos + R - 1) / R = 1) as ->.
    { symmetry. apply Z.div_unique with (r := L - pos - 1); lia. }
    reflexivity.
  - replace (L - pos + R - 1) with ((L - (pos + R) + R - 1) + 1 * R) by lia.
    rewrite Z.div_add by lia.
    assert (0 <= (L - (pos + R) + R - 1) / R) by (apply Z.div_pos; lia).
    lia.
Qed.

Lemma rows_avail_end L pos R : L <= pos -> rows_avail L pos R = O.
Proof. intros. unfold rows_avail. zcase; [reflexivity | lia]. Qed.

Lemma rows_avail_translate L pos R d :
  rows_avail (d + L) (d + pos) R = rows_avail L pos R.
Proof. unfold rows_avail. zcase; try lia; do 2 f_equal; lia. Qed.

(** The first row position at or after the end of a buffer, measured
    from that end. *)
Lemma rows_avail_next L s R :
  0 < R -> 0 <= s < R -> 0 <= L ->
  s + Z.of_nat (rows_avail L s R) * R = L + (s - L) mod R.
Proof.
  intros HR Hs HL. unfold rows_avail. zcase.
  - rewrite Z.mod_small by lia. lia.
  - rewrite Z2Nat.id by (apply Z.div_pos; lia).
    pose proof (Z.div_mod (L - s + R - 1) R ltac:(lia)).
    pose proof (Z.mod_pos_bound (L - s + R - 1) R HR).
    assert (Hm : (s - L) mod R = s + (L - s + R - 1) / R * R - L).
    { symmetry. apply Z.mod_unique with (q := - ((L - s + R - 1) / R)); lia. }
    lia.
Qed.

Lemma rows_avail_exact cc R s :
  0 < R -> 0 <= s < R -> 0 <= cc -> rows_avail (cc * R) s R = Z.to_nat cc.
Proof.
  intros. unfold rows_avail. zcase.
  - assert (cc = 0) by nia. subst. reflexivity.
  - f_equal. symmetry. apply Z.div_unique with (r := R - 1 - s); nia.
Qed.

Lemma positions_app pos R a b :
  positions pos R (a + b) = positions pos R a ++ positions (pos + Z.of_nat a * R) R b.
Proof.
  revert pos. induction a as [|a IH]; intros pos; cbn [positions Nat.add app].
  - f_equal. lia.
  - rewrite IH. do 3 f_equal. lia.
Qed.

Lemma in_positions pos R m p :
  In p (positions pos R m) -> exists k, (k < m)%nat /\ p = pos + Z.of_nat k * R.
Proof.
  revert pos. induction m as [|m IH]; intros pos; cbn; [tauto|].
  intros [<- | H].
  - exists O. split; [lia | ring].
  - destruct (IH _ H) as (k & Hk & ->). exists (S k). split; [lia | rewrite Nat2Z.inj_succ; ring].
Qed.

Lemma decode_all_app r ps1 ps2 :
  decode_all r (ps1 ++ ps2) =
    let* v1 := decode_all r ps1 in let* v2 := decode_all r ps2 in Ok (v1 ++ v2).
Proof.
  induction ps1 as [|p ps IH]; cbn.
  - destruct (decode_all r ps2); reflexivity.
  - destruct (readDatablock r p); cbn; [|reflexivity].
    rewrite IH. destruct (decode_all r ps); cbn; [|reflexivity].
    destruct (decode_all r ps2); reflexivity.
Qed.

Lemma decode_all_ext r r' ps :
  (forall p, In p ps -> readDatablock r p = readDatablock r' p) ->
  decode_all r ps = decode_all r' ps.
Proof.
  induction ps as [|p ps IH]; intros H; cbn; [reflexivity|].
  rewrite H by (left; reflexivity). rewrite IH by (intros; apply H; right; assumption).
  reflexivity.
Qed.

Lemma decode_all_map r f ps :
  (forall p, In p ps -> readDatablock r p = Ok (f p)) -> decode_all r ps = Ok (map f ps).
Proof.
  induction ps as [|p ps IH]; intros H; cbn; [reflexivity|].
  rewrite H by (left; reflexivity). rewrite IH by (intros; apply H; right; assumption).
  reflexivity.
Qed.

Lemma go_slice_app_l {A} (l1 l2 : list A) lo hi :
  0 <= lo <= hi -> hi <= Z.of_nat (length l1) -> go_slice (l1 ++ l2) lo hi = go_slice l1 lo hi.
Proof.
  intros. rewrite !go_slice_ok by (rewrite ?length_app; lia).
  rewrite drop_app_le by lia. rewrite take_app_le; [reflexivity|].
  rewrite length_drop. lia.
Qed.

Lemma go_slice_app_r {A} (l1 l2 : list A) q hi :
  0 <= q -> go_slice (l1 ++ l2) (Z.of_nat (length l1) + q) (Z.of_nat (length l1) + hi) =
           go_slice l2 q hi.
Proof.
  intros Hq. unfold go_slice. rewrite length_app.
  replace (Z.of_nat (length l1) + hi - (Z.of_nat (length l1) + q)) with (hi - q) by lia.
  replace (Z.to_nat (Z.of_nat (length l1) + q)) with (length l1 + Z.to_nat q)%nat by lia.
  rewrite drop_app_add. zcase; try lia; reflexivity.
Qed.

Lemma carry_StartOffset r :
  0 < RowSize r -> 0 <= StartOffset r < RowSize r ->
  StartOffset (carry r) = (StartOffset r - Z.of_nat (length (MeasureBuffer r))) mod RowSize r.
Proof.
  intros HR Hs. unfold carry. set (L := Z.of_nat (length (MeasureBuffer r))).
  assert (0 <= L) by lia.
  rewrite Z.rem_mod_nonneg by lia.
  pose proof (Z.mod_pos_bound L (RowSize r) HR).
  pose proof (Z.div_mod L (RowSize r) ltac:(lia)).
  zcase; cbn.
  - rewrite Z.rem_mod_nonneg by lia.
    replace (StartOffset r + (RowSize r - L mod RowSize r))
      with ((StartOffset r - L) + (1 + L / RowSize r) * RowSize r) by lia.
    apply Z.mod_add. lia.
  - replace (StartOffset r - L) with (StartOffset r + (- (L / RowSize r)) * RowSize r) by lia.
    rewrite Z.mod_add, Z.mod_small; lia.
Qed.

Lemma carry_geometry r :
  RowSize (carry r) = RowSize r /\ MeasureBuffer (carry r) = MeasureBuffer r /\
  ByteOrder (carry r) = ByteOrder r /\ SizeMeasureRow (carry r) = SizeMeasureRow r /\
  DataType (carry r) = DataType r /\ BitCount (carry r) = BitCount r /\
  BitOffset (carry r) = BitOffset r.
Proof. unfold carry. destruct (0 <? _); repeat split. Qed.

(** On a buffer without spare capacity, a fresh slice holding [x] and
    [x] written in place are the same reader. *)
Lemma set_MeasureSlice_no_spare r x :
  MeasureSpare r = [] -> set_MeasureSlice r (slice_of x) = set_MeasureBuffer r x.
Proof. destruct r; cbn. intros ->. reflexivity. Qed.

Lemma carry_MeasureSpare r : MeasureSpare (carry r) = MeasureSpare r.
Proof. unfold carry. destruct (0 <? _); reflexivity. Qed.

(** The row loop is the decoding of the field positions of the rows the
    buffer holds, at most [k] of them, followed by the carry-over when the
    buffer ran out before the count. *)
Lemma readDT_rows_spec n r pos m :
  0 < RowSize r ->
  let a := rows_avail (Z.of_nat (length (MeasureBuffer r))) pos (RowSize r) in
  readDT_rows n r pos m =
    let* vs := decode_all r (positions pos (RowSize r) (Nat.min n a)) in
    Ok (if (n <=? a)%nat then r else carry r, m ++ vs).
Proof.
  intros HR. revert pos m. induction n as [|n IH]; intros pos m a; cbn [readDT_rows].
  - cbn. rewrite app_nil_r. reflexivity.
  - subst a. zcase.
    + rewrite rows_avail_end by lia. unfold go_rem, carry. zcase; try lia; cbn; zcase; try lia;
        rewrite app_nil_r; reflexivity.
    + rewrite rows_avail_step by lia. cbn [Nat.min positions decode_all Nat.leb].
      destruct (readDatablock r pos) as [v|e]; cbn [rbind]; [|reflexivity].
      rewrite IH. destruct (decode_all _ _); cbn; [|reflexivity].
      rewrite <- app_assoc. reflexivity.
Qed.

Lemma rows_avail_split L1 L s R :
  0 < R -> L1 <= L ->
  rows_avail L s R =
    (rows_avail L1 s R + rows_avail L (s + Z.of_nat (rows_avail L1 s R) * R) R)%nat.
Proof.
  intros HR HL. remember (rows_avail L1 s R) as a eqn:Ha. revert s Ha.
  induction a as [|a IH]; intros s Ha.
  - cbn. f_equal. lia.
  - destruct (Z.lt_ge_cases s L1) as [Hs | Hs];
      [|rewrite rows_avail_end in Ha by lia; discriminate].
    rewrite rows_avail_step in Ha by lia. injection Ha as Ha.
    rewrite rows_avail_step by lia. rewrite (IH (s + R) Ha).
    cbn [Nat.add]. do 3 f_equal. lia.
Qed.

(** When the buffer runs out before the count, the loop decodes every row
    of the buffer and carries over. *)
Lemma readDT_rows_past n r pos m :
  0 < RowSize r ->
  (rows_avail (Z.of_nat (length (MeasureBuffer r))) pos (RowSize r) < n)%nat ->
  readDT_rows n r pos m =
    let* vs := decode_all r (positions pos (RowSize r)
                 (rows_avail (Z.of_nat (length (MeasureBuffer r))) pos (RowSize r))) in
    Ok (carry r, m ++ vs).
Proof.
  intros HR Hn. rewrite readDT_rows_spec by exact HR. cbn zeta.
  rewrite Nat.min_r by lia. replace (n <=? _)%nat with false by (symmetry; apply Nat.leb_gt; lia).
  reflexivity.
Qed.

(** When the count does not exceed the rows of the buffer, the measure is
    the decoding of the rows up to the count. *)
Lemma readDT_rows_measure n r pos m :
  0 < RowSize r ->
  (rows_avail (Z.of_nat (length (MeasureBuffer r))) pos (RowSize r) <= n)%nat ->
  measure_of (readDT_rows n r pos m) =
    let* vs := decode_all r (positions pos (RowSize r)
                 (rows_avail (Z.of_nat (length (MeasureBuffer r))) pos (RowSize r))) in
    Ok (m ++ vs).
Proof.
  intros HR Hn. rewrite readDT_rows_spec by exact HR. cbn zeta.
  rewrite Nat.min_r by lia. destruct (decode_all _ _); reflexivity.
Qed.

Lemma readDatablock_app_l r b1 b2 p :
  0 <= p -> 0 <= SizeMeasureRow r -> p + SizeMeasureRow r <= Z.of_nat (length b1) ->
  readDatablock (set_MeasureBuffer r (b1 ++ b2)) p = readDatablock (set_MeasureBuffer r b1) p.
Proof.
  intros. unfold readDatablock, measure_cap. cbn. rewrite <- app_assoc, !go_slice_app_l by lia.
  reflexivity.
Qed.

Lemma decode_all_shift r r' (b1 : list Byte.byte) k :
  0 < RowSize r ->
  (forall q, 0 <= q -> readDatablock r (Z.of_nat (length b1) + q) = readDatablock r' q) ->
  forall q0, 0 <= q0 ->
  decode_all r (positions (Z.of_nat (length b1) + q0) (RowSize r) k) =
  decode_all r' (positions q0 (RowSize r) k).
Proof.
  intros HR H. induction k as [|k IH]; intros q0 Hq; cbn [positions decode_all]; [reflexivity|].
  rewrite H by lia. rewrite <- Z.add_assoc, IH by lia. reflexivity.
Qed.

(** The row loop does not read the block addresses of the reader. *)
Lemma readDT_rows_addresses n r a b p m :
  readDT_rows n (set_NextDataAddress (set_DataAddress r a) b) p m =
  let* '(r', m') := readDT_rows n r p m in Ok (set_NextDataAddress (set_DataAddress r' a) b, m').
Proof.
  revert p m. induction n as [|n IH]; intros p m; [reflexivity|].
  cbn [readDT_rows].
  change (MeasureBuffer (set_NextDataAddress (set_DataAddress r a) b)) with (MeasureBuffer r).
  change (RowSize (set_NextDataAddress (set_DataAddress r a) b)) with (RowSize r).
  change (StartOffset (set_NextDataAddress (set_DataAddress r a) b)) with (StartOffset r).
  change (readDatablock (set_NextDataAddress (set_DataAddress r a) b) p) with (readDatablock r p).
  destruct (_ <=? _).
  - destruct (go_rem _ _) as [x|]; cbn [rbind]; [|reflexivity].
    destruct (0 <? x); [|reflexivity]. destruct (go_rem _ _); reflexivity.
  - destruct (readDatablock r p); cbn [rbind]; [apply IH | reflexivity].
Qed.

(** The row loop keeps the reader's buffer and geometry. *)
Lemma readDT_rows_reader n r p m r' m' :
  readDT_rows n r p m = Ok (r', m') ->
  MeasureBuffer r' = MeasureBuffer r /\ RowSize r' = RowSize r /\ ByteOrder r' = ByteOrder r /\
  SizeMeasureRow r' = SizeMeasureRow r /\ DataType r' = DataType r /\
  BitCount r' = BitCount r /\ BitOffset r' = BitOffset r /\ DataAddress r' = DataAddress r /\
  NextDataAddress r' = NextDataAddress r.
Proof.
  revert p m. induction n as [|n IH]; intros p m H; cbn [readDT_rows] in H.
  - injection H as <- _. repeat split.
  - destruct (_ <=? _).
    + destruct (go_rem _ _) as [x|]; cbn in H; [|discriminate].
      destruct (0 <? x); [destruct (go_rem _ _); cbn in H; [|discriminate]|];
        injection H as <- _; repeat split.
    + destruct (readDatablock r p); cbn in H; [|discriminate]. eapply IH. exact H.
Qed.

(** The row loop only moves [StartOffset]: the spare capacity of the
    buffer stays. *)
Lemma readDT_rows_spare n r p m r' m' :
  readDT_rows n r p m = Ok (r', m') -> MeasureSpare r' = MeasureSpare r.
Proof.
  revert p m. induction n as [|n IH]; intros p m H; cbn [readDT_rows] in H.
  - injection H as <- _. reflexivity.
  - destruct (_ <=? _).
    + destruct (go_rem _ _) as [x|]; cbn in H; [|discriminate].
      destruct (0 <? x); [destruct (go_rem _ _); cbn in H; [|discriminate]|];
        injection H as <- _; reflexivity.
    + destruct (readDatablock r p); cbn in H; [|discriminate]. eapply IH. exact H.
Qed.

Lemma readDT_loop_spare n r m r' m' :
  readDT_loop n r m = Ok (r', m') -> MeasureSpare r' = MeasureSpare r.
Proof. apply readDT_rows_spare. Qed.

(** Every field of the rows that start in the buffer ends in it. *)
Definition fields_fit (r : reader) : Prop :=
  forall k, (k < rows_avail (Z.of_nat (length (MeasureBuffer r))) (StartOffset r) (RowSize r))%nat ->
  StartOffset r + Z.of_nat k * RowSize r + SizeMeasureRow r <= Z.of_nat (length (MeasureBuffer r)).

(** When every field fits, the spare capacity of the buffer is never
    read: the samples do not depend on it. *)
Lemma readDT_loop_spare_irrelevant n r sp m :
  0 < RowSize r -> 0 <= StartOffset r -> 0 <= SizeMeasureRow r -> fields_fit r ->
  measure_of (readDT_loop n (set_MeasureSlice r (mkSlice (MeasureBuffer r) sp)) m) =
  measure_of (readDT_loop n r m).
Proof.
  intros HR Hs Hz Hf. unfold readDT_loop. cbn [StartOffset set_MeasureSlice sl_elems].
  rewrite !readDT_rows_spec by assumption. cbn [MeasureBuffer RowSize set_MeasureSlice sl_elems].
  rewrite (decode_all_ext _ r); [destruct (decode_all r _); reflexivity|].
  intros p Hp. apply in_positions in Hp as (k & Hk & ->).
  assert (Hk' : (k < rows_avail (Z.of_nat (length (MeasureBuffer r))) (StartOffset r) (RowSize r))%nat)
    by (eapply Nat.lt_le_trans; [exact Hk|apply Nat.le_min_r]).
  pose proof (Hf k Hk'). unfold readDatablock, measure_cap. cbn.
  rewrite !go_slice_app_l by nia. reflexivity.
Qed.

(** A reader with its block addresses cleared: what the row loop sees. *)
Definition norm_addr (r : reader) : reader := set_NextDataAddress (set_DataAddress r 0) 0.

Definition map_norm (x : result (reader * list value)) : result (reader * list value) :=
  let* '(r, m) := x in Ok (norm_addr r, m).

Lemma norm_addr_set_MeasureBuffer r b :
  norm_addr (set_MeasureBuffer r b) = set_MeasureBuffer (norm_addr r) b.
Proof. reflexivity. Qed.

Lemma norm_addr_addresses r a b : norm_addr (set_NextDataAddress (set_DataAddress r a) b) = norm_addr r.
Proof. reflexivity. Qed.

Lemma norm_addr_DataAddress r a : norm_addr (set_DataAddress r a) = norm_addr r.
Proof. reflexivity. Qed.

(** Two readers that differ only in their block addresses give the same
    rows and leave readers that differ only in their addresses. *)
Lemma readDT_loop_norm n r r' m :
  norm_addr r = norm_addr r' -> map_norm (readDT_loop n r m) = map_norm (readDT_loop n r' m).
Proof.
  intros E. unfold readDT_loop.
  assert (StartOffset r = StartOffset r') as <- by (apply (f_equal StartOffset) in E; exact E).
  transitivity (readDT_rows (Z.to_nat n) (norm_addr r) (StartOffset r) m).
  - unfold norm_addr. rewrite readDT_rows_addresses. destruct (readDT_rows _ r _ _) as [[]|]; reflexivity.
  - rewrite E. unfold norm_addr at 1. rewrite readDT_rows_addresses.
    destruct (readDT_rows _ r' _ _) as [[]|]; reflexivity.
Qed.

(** The rows of two consecutive buffers: those of the first, then those of
    the second from the first row that starts in it. *)
Lemma rows_avail_app L1 L2 s R :
  0 < R -> 0 <= s < R -> 0 <= L1 -> 0 <= L2 ->
  rows_avail (L1 + L2) s R = (rows_avail L1 s R + rows_avail L2 ((s - L1) mod R) R)%nat.
Proof.
  intros HR Hs H1 H2. rewrite (rows_avail_split L1) by lia.
  rewrite rows_avail_next, rows_avail_translate by lia. reflexivity.
Qed.

(** The rows of a concatenation decode as the rows of the first buffer
    followed by the rows of the second read by the carried reader, when
    no field of the first buffer straddles its end. *)
Lemma decode_concat r b1 b2 :
  0 < RowSize r -> 0 <= StartOffset r < RowSize r -> 0 <= SizeMeasureRow r ->
  (forall p, In p (positions (StartOffset r) (RowSize r)
                    (rows_avail (Z.of_nat (length b1)) (StartOffset r) (RowSize r))) ->
             p + SizeMeasureRow r <= Z.of_nat (length b1)) ->
  let s' := (StartOffset r - Z.of_nat (length b1)) mod RowSize r in
  decode_all (set_MeasureBuffer r (b1 ++ b2))
    (positions (StartOffset r) (RowSize r) (rows_avail (Z.of_nat (length (b1 ++ b2))) (StartOffset r) (RowSize r))) =
  let* vs1 := decode_all (set_MeasureBuffer r b1)
                (positions (StartOffset r) (RowSize r) (rows_avail (Z.of_nat (length b1)) (StartOffset r) (RowSize r))) in
  let* vs2 := decode_all (set_MeasureBuffer (carry (set_MeasureBuffer r b1)) b2)
                (positions s' (RowSize r) (rows_avail (Z.of_nat (length b2)) s' (RowSize r))) in
  Ok (vs1 ++ vs2).
Proof.
  intros HR Hs Hsz Hfit s'. set (s := StartOffset r) in *. set (R := RowSize r) in *.
  set (L1 := Z.of_nat (length b1)) in *.
  rewrite length_app, Nat2Z.inj_add, rows_avail_app by lia. fold L1.
  rewrite positions_app, rows_avail_next by lia. fold s'. rewrite decode_all_app.
  set (rb1 := set_MeasureBuffer r b1). set (rF := set_MeasureBuffer r (b1 ++ b2)).
  rewrite (decode_all_ext rF rb1).
  2:{ intros p Hp. pose proof (Hfit p Hp). apply in_positions in Hp as (k & _ & ->).
      apply readDatablock_app_l; lia. }
  destruct (decode_all rb1 _) as [vs1|e]; cbn [rbind]; [|reflexivity].
  pose proof (carry_geometry rb1) as (G1 & G2 & G3 & G4 & G5 & G6 & G7).
  set (r2 := set_MeasureBuffer (carry rb1) b2).
  rewrite (decode_all_shift rF r2 b1) by
    (first [ exact HR
           | pose proof (Z.mod_pos_bound (s - L1) R HR); lia
           | intros q Hq; unfold readDatablock, measure_cap;
             change (MeasureBuffer rF) with (b1 ++ b2); change (MeasureBuffer r2) with b2;
             change (MeasureSpare r2) with (MeasureSpare (carry rb1));
             rewrite carry_MeasureSpare, <- app_assoc;
             change (SizeMeasureRow r2) with (SizeMeasureRow (carry rb1));
             change (ByteOrder r2) with (ByteOrder (carry rb1));
             change (DataType r2) with (DataType (carry rb1));
             change (BitOffset r2) with (BitOffset (carry rb1));
             change (BitCount r2) with (BitCount (carry rb1));
             rewrite G3, G4, G5, G6, G7, <- Z.add_assoc, go_slice_app_r by lia; reflexivity ]).
  reflexivity.
Qed.

(** ** Theorems *)

(** The value of the field of the row at [p], as the decoder computes it
    when the geometry fits (theorem [Decode.parseSignalMeasure_wide]). *)
Definition field_at (r : reader) (p : Z) : value :=
  wide_value (DataType r)
    (field (window_value (ByteOrder r)
              (take (Z.to_nat (SizeMeasureRow r)) (drop (Z.to_nat p) (MeasureBuffer r))))
           (BitOffset r) (BitCount r)).

(** C3 (functional).  Row stride exactness: on a buffer of exactly
    [cycleCount * RowSize] bytes, with a field inside the row and a
    geometry the decoder accepts, the loop neither panics nor carries over:
    it returns one value per row, the field of row [k] at byte
    [StartOffset + k * RowSize], and leaves the reader unchanged. *)
Theorem readDT_loop_exact cc r m :
  0 < RowSize r -> 0 <= StartOffset r -> StartOffset r + SizeMeasureRow r <= RowSize r ->
  0 <= cc -> Z.of_nat (length (MeasureBuffer r)) = cc * RowSize r ->
  is_wide (DataType r) = true -> 0 <= BitOffset r -> 0 <= BitCount r <= 64 ->
  BitOffset r + BitCount r <= 8 * SizeMeasureRow r -> width (DataType r) <= SizeMeasureRow r ->
  readDT_loop cc r m =
    Ok (r, m ++ map (field_at r) (positions (StartOffset r) (RowSize r) (Z.to_nat cc))).
Proof.
  intros HR Hs Hrow Hcc HL Hw Ho Hn Hf Hwd.
  assert (1 <= width (DataType r)) by (destruct (DataType r); cbn; lia).
  unfold readDT_loop. rewrite readDT_rows_spec by exact HR. cbn zeta.
  rewrite HL, rows_avail_exact by lia. rewrite Nat.min_id, Nat.leb_refl.
  rewrite (decode_all_map r (field_at r)); [reflexivity|].
  intros p Hp. apply in_positions in Hp as (k & Hk & ->).
  assert (Z.of_nat k * RowSize r + RowSize r <= cc * RowSize r) by nia.
  unfold readDatablock, measure_cap. rewrite go_slice_app_l, go_slice_ok by lia. cbn [rbind].
  rewrite parseSignalMeasure_wide by (first [exact Hw | rewrite ?length_take, ?length_drop; lia]).
  f_equal. unfold field_at. do 5 f_equal. lia.
Qed.

(** Two consecutive blocks of a record stream read with the carried
    reader give the same samples as their concatenation: the carry-over of
    [StartOffset] makes the second block resume at the first row that
    starts in it.  The hypotheses: the cycle count covers all rows, the
    first block alone does not exhaust it (so the loop reaches the block
    end and carries over), and no field straddles the block boundary. *)
Lemma readDT_two_blocks n r b1 b2 m :
  0 < RowSize r -> 0 <= StartOffset r < RowSize r -> 0 <= SizeMeasureRow r ->
  (rows_avail (Z.of_nat (length b1)) (StartOffset r) (RowSize r) < Z.to_nat n)%nat ->
  (rows_avail (Z.of_nat (length (b1 ++ b2))) (StartOffset r) (RowSize r) <= Z.to_nat n)%nat ->
  (forall p, In p (positions (StartOffset r) (RowSize r)
                    (rows_avail (Z.of_nat (length b1)) (StartOffset r) (RowSize r))) ->
             p + SizeMeasureRow r <= Z.of_nat (length b1)) ->
  measure_of (let* '(r1, m1) := readDT_loop n (set_MeasureBuffer r b1) m in
              readDT_loop n (set_MeasureBuffer r1 b2) m1) =
  measure_of (readDT_loop n (set_MeasureBuffer r (b1 ++ b2)) m).
Proof.
  intros HR Hs Hsz H1 H12 Hfit. unfold readDT_loop.
  rewrite (readDT_rows_past _ (set_MeasureBuffer r b1)) by first [exact HR | exact H1].
  rewrite (readDT_rows_measure _ (set_MeasureBuffer r (b1 ++ b2))) by first [exact HR | exact H12].
  cbn [MeasureBuffer RowSize StartOffset set_MeasureBuffer]. rewrite decode_concat by assumption.
  destruct (decode_all _ _) as [vs1|e]; cbn [rbind]; [|reflexivity].
  pose proof (carry_geometry (set_MeasureBuffer r b1)) as (G1 & _).
  rewrite (readDT_rows_measure _ (set_MeasureBuffer (carry _) b2)).
  2:{ change (RowSize (set_MeasureBuffer (carry (set_MeasureBuffer r b1)) b2))
        with (RowSize (carry (set_MeasureBuffer r b1))). rewrite G1. exact HR. }
  2:{ cbn [MeasureBuffer RowSize StartOffset set_MeasureBuffer]. rewrite G1, carry_StartOffset by assumption.
      rewrite length_app, Nat2Z.inj_add, rows_avail_app in H12 by lia. cbn in H12 |- *. lia. }
  cbn [MeasureBuffer RowSize StartOffset set_MeasureBuffer]. rewrite G1, carry_StartOffset by assumption.
  cbn [MeasureBuffer set_MeasureBuffer].
  destruct (decode_all _ _); cbn; [rewrite app_assoc|]; reflexivity.
Qed.

(** C4 (functional).  Boundary remainder: when the loop runs past the
    end of a buffer of [L] bytes before the cycle count, the carried
    [StartOffset] is [(StartOffset - L) mod RowSize] (for a start at 0:
    [RowSize - L mod RowSize], or 0 when the buffer ends on a row
    boundary); it lies inside a row, and the first row after the buffer
    starts exactly [StartOffset'] bytes into the next buffer. *)
Theorem readDT_loop_carry n r m r' m' :
  0 < RowSize r -> 0 <= StartOffset r < RowSize r ->
  (rows_avail (Z.of_nat (length (MeasureBuffer r))) (StartOffset r) (RowSize r) < Z.to_nat n)%nat ->
  readDT_loop n r m = Ok (r', m') ->
  StartOffset r' = (StartOffset r - Z.of_nat (length (MeasureBuffer r))) mod RowSize r /\
  0 <= StartOffset r' < RowSize r /\
  StartOffset r + Z.of_nat (rows_avail (Z.of_nat (length (MeasureBuffer r))) (StartOffset r) (RowSize r))
                  * RowSize r = Z.of_nat (length (MeasureBuffer r)) + StartOffset r'.
Proof.
  intros HR Hs Hn H. unfold readDT_loop in H. rewrite readDT_rows_past in H by assumption.
  apply rbind_Ok_inv in H as (vs & _ & [= <- _]).
  rewrite carry_StartOffset by assumption.
  split; [reflexivity | split; [apply Z.mod_pos_bound; lia | apply rows_avail_next; lia]].
Qed.

(** The reader of a [uint16] little-endian channel at byte 0 of 4-byte
    rows, on a buffer. *)
Definition u16_reader (buf : list Byte.byte) : reader :=
  mkReader LittleEndian 2 TUint16 0 0 buf 4 16 0 0 [].

(** The scenario of the specification: a [uint16]
    little-endian channel at bit offset 0 with 16 bits, rows of 4 bytes,
    cycle count 3, over [01 00 AA AA 02 00 BB BB 03 00 CC CC], decodes to
    [1, 2, 3]. *)
Theorem readDT_loop_scenario :
  measure_of (readDT_loop 3 (u16_reader (bytes_of [1; 0; 170; 170; 2; 0; 187; 187; 3; 0; 204; 204])) []) =
  Ok [VUint16 1; VUint16 2; VUint16 3].
Proof. vm_compute. reflexivity. Qed.

Lemma decode_all_length r ps vs : decode_all r ps = Ok vs -> length vs = length ps.
Proof.
  revert vs. induction ps as [|p ps IH]; intros vs; cbn; [intros [= <-]; reflexivity|].
  destruct (readDatablock r p); cbn; [|discriminate].
  destruct (decode_all r ps) as [vs'|] eqn:E; cbn; [|discriminate].
  intros [= <-]. cbn. f_equal. apply IH. reflexivity.
Qed.

Lemma length_positions pos R k : length (positions pos R k) = k.
Proof. revert pos. induction k as [|k IH]; intros pos; cbn; [reflexivity|f_equal; apply IH]. Qed.

(** C9 (safety, a defect).  The cycle count bounds each block's loop,
    not the channel: when at least [cycleCount] rows start in the
    buffer, the loop stops on the count, appends exactly [cycleCount]
    samples and returns the reader as it was, without carrying over,
    even when the buffer ends inside a row.  A DL list whose block ends
    that way is read on from the stale [StartOffset], and the next block
    yields samples beyond the count. *)
Theorem readDT_loop_stops_on_count n r m r' m' :
  0 < RowSize r ->
  (Z.to_nat n <= rows_avail (Z.of_nat (length (MeasureBuffer r))) (StartOffset r) (RowSize r))%nat ->
  readDT_loop n r m = Ok (r', m') ->
  r' = r /\ exists vs, m' = m ++ vs /\ length vs = Z.to_nat n.
Proof.
  intros HR Hn. unfold readDT_loop. rewrite readDT_rows_spec by exact HR. cbn zeta.
  rewrite (proj2 (Nat.leb_le _ _) Hn), Nat.min_l by exact Hn.
  destruct (decode_all _ _) as [vs|] eqn:E; cbn; [|discriminate].
  intros [= <- <-]. split; [reflexivity|]. exists vs. split; [reflexivity|].
  rewrite (decode_all_length _ _ _ E). apply length_positions.
Qed.

(** An example: two rows split as 6 + 2 bytes give three samples for a
    cycle count of 2 (the third decoded from the tail bytes [09 09]),
    while the concatenated stream gives the two rows. *)
Lemma readDT_stale_offset_extra_sample :
  measure_of (let* '(r1, m1) := readDT_loop 2 (u16_reader (bytes_of [1; 0; 170; 170; 2; 0])) [] in
              readDT_loop 2 (set_MeasureBuffer r1 (bytes_of [9; 9])) m1) =
    Ok [VUint16 1; VUint16 2; VUint16 2313] /\
  measure_of (readDT_loop 2 (u16_reader (bytes_of [1; 0; 170; 170; 2; 0; 9; 9])) []) =
    Ok [VUint16 1; VUint16 2].
Proof. split; vm_compute; reflexivity. Qed.

(** ** Witnesses *)

Lemma readDT_loop_exact_witness :
  readDT_loop 3 (u16_reader (bytes_of [1; 0; 170; 170; 2; 0; 187; 187; 3; 0; 204; 204])) [] =
  Ok (u16_reader (bytes_of [1; 0; 170; 170; 2; 0; 187; 187; 3; 0; 204; 204]),
      [] ++ map (field_at (u16_reader (bytes_of [1; 0; 170; 170; 2; 0; 187; 187; 3; 0; 204; 204])))
                (positions 0 4 3)).
Proof. apply readDT_loop_exact; cbn; (reflexivity || lia). Defined.

Lemma readDT_loop_stops_on_count_witness :
  match readDT_loop 2 (u16_reader (bytes_of [1; 0; 170; 170; 2; 0])) [] with
  | Ok (r', m') => r' = u16_reader (bytes_of [1; 0; 170; 170; 2; 0]) /\
                   exists vs, m' = [] ++ vs /\ length vs = Z.to_nat 2
  | Err _ => False
  end.
Proof.
  destruct (readDT_loop 2 _ []) as [[r' m']|e] eqn:E; [|vm_compute in E; discriminate].
  apply (readDT_loop_stops_on_count 2 (u16_reader (bytes_of [1; 0; 170; 170; 2; 0])) [] r' m');
    [cbn; lia | vm_compute; lia | exact E].
Defined.

Lemma readDT_loop_carry_witness :
  match readDT_loop 3 (u16_reader (bytes_of [1; 0; 170; 170; 2; 0])) [] with
  | Ok (r', _) => (StartOffset r' = (0 - 6) mod 4 /\ 0 <= StartOffset r' < 4 /\
                  0 + Z.of_nat 2 * 4 = 6 + StartOffset r')
  | Err _ => False
  end.
Proof.
  destruct (readDT_loop 3 _ []) as [[r' m']|e] eqn:E; [|vm_compute in E; discriminate].
  apply (readDT_loop_carry 3 (u16_reader (bytes_of [1; 0; 170; 170; 2; 0])) [] r' m');
    [cbn; lia | cbn; lia | vm_compute; lia | exact E].
Defined.

End Records.
