(* ===== verification/Blocks.v ===== *)
(** * What the engine needs from the file: the [blocks] packages

    [src/channel.go] reads the file through the packages [blocks],
    [blocks/DL], [blocks/DZ] and [blocks/HL], which are not part of the
    sources: [GetHeaderID] (the 4-byte tag of the block at an address),
    [GetLength] (the length of its data section), the positioned read of
    [readBlockFromFile], and the parsers [DL.New], [DZ.New], [HL.New].
    This file states them as an interface, the class [BlockSource], which
    the dispatcher of [Dispatch] is written against, and gives one
    implementation, [BlockMap], a file as a finite map from addresses to
    blocks in the MDF4 layout (tag, links, data section), which the
    witnesses evaluate.  [src/blocks/DZ/flate.go] is modelled from its
    code: [Deflate], the struct [Flate] and its method [Decompress], over
    the class [Decompressor] that stands for the two calls into Go's
    [compress/zlib] and [io] it makes. *)

From Stdlib Require Import ZArith String Lia.
From stdpp Require Import gmap.
From S2P Require Import Prelude Decode.

Open Scope Z_scope.

Module Blocks.

(** ** The block tags of the [blocks] package *)

Definition DtID : string := "##DT".
Definition DvID : string := "##DV".
Definition DlID : string := "##DL".
Definition DzID : string := "##DZ".
Definition HlID : string := "##HL".
Definition SdID : string := "##SD".
Definition CgID : string := "##CG".

(** [blocks.HeaderSize]: tag (4), reserved (4), length (8), link count (8). *)
Definition HeaderSize : Z := 24.

(** ** Parsed blocks *)

(** A DL block: [dtl.Next()], [dtl.Link.Data], [dtl.Data.Count]. *)
Record dl_block : Type := mkDL { dl_next : Z; dl_data : list Z; dl_count : Z }.

(** A DZ block: the tag of the block it replaces ([BlockTypeModified])
    and the compressed payload [dz.Read] inflates. *)
Record dz_block : Type := mkDZ { dz_modified : string; dz_payload : list Byte.byte }.

(** ** The interface *)

Class BlockSource (F : Type) : Type := {
  GetHeaderID : F -> Z -> result string;
  GetLength : F -> Z -> result Z;
  (** [io.ReadFull] of [n] bytes at [addr + HeaderSize]. *)
  ReadData : F -> Z -> Z -> result (list Byte.byte);
  DL_New : F -> Z -> result dl_block;
  DZ_New : F -> Z -> result dz_block;
  (** [hl.Link.DlFirst]. *)
  HL_New : F -> Z -> result Z
}.

(** [readBlockFromFile(f, dataAddress, buf)]: [f.Seek(dataAddress +
    HeaderSize, io.SeekStart)], then [io.ReadFull(f, buf)], which fills the
    [len(buf)] bytes of the buffer or fails. *)
Definition readBlockFromFile {F} `{BlockSource F} (f : F) (dataAddress : Z) (buf : list Byte.byte)
    : result (list Byte.byte) :=
  ReadData f dataAddress (Z.of_nat (length buf)).

(** The library [compress/zlib] that [src/blocks/DZ/flate.go] calls:
    [zlib.NewReader] checks the stream header ([None] when it is valid,
    the error otherwise), and [io.ReadAll] of the reader gives the slice
    of the bytes inflated before it stopped, with the spare capacity its
    growth left, and the error that stopped it ([None] at the end of a
    well-formed stream). *)
Class Decompressor : Type := {
  zlib_NewReader : list Byte.byte -> option err;
  zlib_ReadAll : list Byte.byte -> byte_slice * option err
}.

(** Go's result pair [([]byte, error)]: the slice ([None] is [nil]) and
    the error ([None] is [nil]). *)
Definition go_bytes_err : Type := option byte_slice * option err.

(** [Deflate(data)] of flate.go: [nil] and the wrapped error when the
    header is invalid, otherwise what [io.ReadAll] returns, the bytes
    read so far together with its error. *)
Definition Deflate `{Decompressor} (data : list Byte.byte) : go_bytes_err :=
  match zlib_NewReader data with
  | Some _ => (None, Some (EDecompress "failed to create reader"))
  | None => let '(b, e) := zlib_ReadAll data in (Some b, e)
  end.

(** [Flate] of flate.go: the integers at their Go widths ([uint8],
    [uint64]), the pointer [Datablock] to a slice as an option ([None] is
    [nil]). *)
Record Flate : Type := mkFlate {
  DecompressedID : string;
  CompressType : Z;
  DecompressedLength : Z;
  CompressedLength : Z;
  Datablock : option (list Byte.byte)
}.

(** The method [Decompress] of [Flate]: [*f.Datablock] panics on a nil
    pointer. *)
Definition Decompress `{Decompressor} (f : Flate) : result go_bytes_err :=
  match Datablock f with
  | None => Err (EPanic "nil pointer dereference")
  | Some b => Ok (Deflate b)
  end.

(** ** A file as a map of blocks *)

(** A block as it lies in the file: its tag, its links and its data
    section. *)
Record blk : Type := mkBlk { blk_id : string; blk_links : list Z; blk_data : list Byte.byte }.

Definition block_map := gmap Z blk.

Definition find_block (f : block_map) (addr : Z) : result blk :=
  match f !! addr with
  | Some b => Ok b
  | None => Err (EIO "EOF")
  end.

(** The DL data section: flags (1), reserved (3), [dl_count] (4, little
    endian).  The links: [dl_dl_next], then the data blocks. *)
Definition parse_dl (b : blk) : result dl_block :=
  match blk_links b with
  | next :: data => Ok (mkDL next data (le_value (take 4 (drop 4 (blk_data b)))))
  | [] => Err (EParse "DL")
  end.

(** The DZ data section: original tag (2 characters), zip type (1),
    reserved (1), zip parameter (4), original length (8), compressed
    length (8), then the compressed bytes. *)
Definition parse_dz (b : blk) : result dz_block :=
  match take 2 (blk_data b) with
  | [c1; c2] =>
      let n := le_value (take 8 (drop 16 (blk_data b))) in
      Ok (mkDZ (String.append "##" (string_of_list_byte [c1; c2]))
               (take (Z.to_nat n) (drop 24 (blk_data b))))
  | _ => Err (EParse "DZ")
  end.

Definition parse_hl (b : blk) : result Z :=
  match blk_links b with
  | first :: _ => Ok first
  | [] => Err (EParse "HL")
  end.

#[export] Instance BlockMap : BlockSource block_map := {
  GetHeaderID f a := let* b := find_block f a in Ok (blk_id b);
  GetLength f a := let* b := find_block f a in Ok (Z.of_nat (length (blk_data b)));
  ReadData f a n :=
    let* b := find_block f a in
    if n <=? Z.of_nat (length (blk_data b)) then Ok (take (Z.to_nat n) (blk_data b))
    else Err (EIO "unexpected EOF");
  DL_New f a := let* b := find_block f a in parse_dl b;
  DZ_New f a := let* b := find_block f a in parse_dz b;
  HL_New f a := let* b := find_block f a in parse_hl b
}.

(** A decompressor for payloads stored verbatim (the zlib "stored"
    case without its framing): the witnesses use it where the inflated
    bytes must be known. *)
Definition stored : Decompressor :=
  {| zlib_NewReader _ := None; zlib_ReadAll b := (slice_of b, None) |}.

(** The same, its slice carrying the spare capacity [sp]. *)
Definition stored_spare (sp : list Byte.byte) : Decompressor :=
  {| zlib_NewReader _ := None; zlib_ReadAll b := (mkSlice b sp, None) |}.

(** ** Building files for the witnesses *)

Definition dt_blk (data : list Byte.byte) : blk := mkBlk DtID [] data.
Definition sd_blk (data : list Byte.byte) : blk := mkBlk SdID [] data.
Definition dl_blk (next : Z) (children : list Z) : blk :=
  mkBlk DlID (next :: children)
        ([Byte.x00; Byte.x00; Byte.x00; Byte.x00] ++ Decode.le_split 4 (Z.of_nat (length children))).
Definition hl_blk (first : Z) : blk := mkBlk HlID [first] (repeat Byte.x00 8).
(** A DZ block replacing a block of tag [##xy] with a compressed payload
    whose inflated length is [orig]. *)
Definition dz_blk (xy : string) (orig : Z) (payload : list Byte.byte) : blk :=
  mkBlk DzID []
        (take 2 (list_byte_of_string xy) ++ repeat Byte.x00 6 ++ Decode.le_split 8 orig ++
         Decode.le_split 8 (Z.of_nat (length payload)) ++ payload).

End Blocks.
