(* ===== verification/State.v ===== *)
(** * The mutable state of [src/channel.go] and the monad that threads it

    The Go code keeps its state in mutable objects: the [Channel] (its
    [channelReader] pointer and its [compressedHL] flag), the
    [ChannelReader] objects the channel points to, the data group's
    [CachedDataGroup] buffer shared by all channels of the group, and the
    measure slice a read appends to.  This file gives that state as
    records, a state-and-error monad [M] over it, its primitive
    operations, and the equations the handler proofs of [Dispatch]
    rewrite with:
    - [chan_var] holds the fields of the [Channel] the dispatcher rebinds;
    - [heap] holds the reader objects by address, so that two holders of
      the same [*ChannelReader] see each other's writes, and the data
      group's cache;
    - the measure is the slice behind the [*[]interface{}] pointer. *)

From Stdlib Require Import ZArith String Lia.
From stdpp Require Import gmap.
From S2P Require Import Prelude Decode Records.
Import Decode Records.

Open Scope Z_scope.

Module State.

(** ** Data *)

(** The fields of [Channel] the dispatcher assigns: the address of the
    object [c.channelReader] points to, and [c.compressedHL]. *)
Record chan_var : Type := mkVar { cv_reader : nat; cv_compressedHL : bool }.

(** The objects behind pointers: the [ChannelReader]s by address, the
    next free address, and [DataGroup.CachedDataGroup] ([None] is [nil]). *)
Record heap : Type := mkHeap {
  h_readers : gmap nat reader;
  h_next : nat;
  h_cache : option byte_slice
}.

Record st : Type := mkSt { s_var : chan_var; s_heap : heap; s_measure : list value }.

(** The reader objects by address, kept folded in the proofs. *)
Definition rd_get (m : gmap nat reader) (k : nat) : option reader := m !! k.
Definition rd_set (k : nat) (r : reader) (m : gmap nat reader) : gmap nat reader := <[k := r]> m.

(** [*c.channelReader], and the state after the write [*c.channelReader = r]. *)
Definition cur (s : st) : option reader := rd_get (h_readers (s_heap s)) (cv_reader (s_var s)).
Definition set_cur (s : st) (r : reader) : st :=
  let h := s_heap s in
  mkSt (s_var s) (mkHeap (rd_set (cv_reader (s_var s)) r (h_readers h)) (h_next h) (h_cache h))
       (s_measure s).
(** The state after [c.channelReader = &ChannelReader{...}]: the object
    at a fresh address, the channel pointing to it. *)
Definition alloc_st (s : st) (r : reader) : st :=
  let h := s_heap s in
  mkSt (mkVar (h_next h) (cv_compressedHL (s_var s)))
       (mkHeap (rd_set (h_next h) r (h_readers h)) (S (h_next h)) (h_cache h))
       (s_measure s).
(** The state after [c.compressedHL = b]. *)
Definition set_hl (s : st) (b : bool) : st :=
  mkSt (mkVar (cv_reader (s_var s)) b) (s_heap s) (s_measure s).
Definition set_measure (s : st) (m : list value) : st := mkSt (s_var s) (s_heap s) m.
Definition set_cache (s : st) (c : option byte_slice) : st :=
  let h := s_heap s in mkSt (s_var s) (mkHeap (h_readers h) (h_next h) c) (s_measure s).

(** ** The state-and-error monad *)

Definition M (A : Type) : Type := st -> result (A * st).

Definition mret {A} (a : A) : M A := fun s => Ok (a, s).
Definition mbind {A B} (c : M A) (k : A -> M B) : M B :=
  fun s => let* '(a, s') := c s in k a s'.
Definition mfail {A} (e : err) : M A := fun _ => Err e.
Definition lift {A} (r : result A) : M A := fun s => let* a := r in Ok (a, s).

Declare Scope dispatch_scope.
Delimit Scope dispatch_scope with dispatch.
Notation "'do' x <- c ; k" := (mbind c (fun x => k))
  (at level 100, x name, c at next level, k at level 200) : dispatch_scope.
Notation "'do' ' p <- c ; k" := (mbind c (fun x => match x with p => k end))
  (at level 100, p pattern, c at next level, k at level 200) : dispatch_scope.
Notation "c ;; k" := (mbind c (fun _ => k))
  (at level 100, k at level 200, right associativity) : dispatch_scope.
Open Scope dispatch_scope.

(** ** Primitive operations *)

Definition get_var : M chan_var := fun s => Ok (s_var s, s).
Definition put_var (v : chan_var) : M unit :=
  fun s => Ok (tt, mkSt v (s_heap s) (s_measure s)).
Definition get_cache : M (option byte_slice) := fun s => Ok (h_cache (s_heap s), s).
Definition put_cache (c : option byte_slice) : M unit := fun s => Ok (tt, set_cache s c).
Definition get_measure : M (list value) := fun s => Ok (s_measure s, s).
Definition put_measure (m : list value) : M unit := fun s => Ok (tt, set_measure s m).

(** [c.channelReader] dereferenced: a nil pointer panics. *)
Definition get_reader : M reader :=
  fun s => match cur s with
           | Some r => Ok (r, s)
           | None => Err (EPanic "nil pointer dereference")
           end.
(** A write through [c.channelReader]. *)
Definition put_reader (r : reader) : M unit := fun s => Ok (tt, set_cur s r).
(** [c.channelReader = &ChannelReader{...}]: a fresh object. *)
Definition alloc_reader (r : reader) : M unit := fun s => Ok (tt, alloc_st s r).

(** A call on a copy of the channel (a value receiver): the channel's own
    fields come back unchanged, the objects behind pointers and the
    measure keep the writes. *)
Definition with_copy (c : M unit) : M unit :=
  fun s => let* '(_, s') := c s in Ok (tt, mkSt (s_var s) (s_heap s') (s_measure s')).

(** ** The laws of the monad *)

Lemma bind_ok {A B} (c : M A) (k : A -> M B) s a s' :
  c s = Ok (a, s') -> mbind c k s = k a s'.
Proof. intros E. unfold mbind. rewrite E. reflexivity. Qed.

Lemma bind_err {A B} (c : M A) (k : A -> M B) s e :
  c s = Err e -> mbind c k s = Err e.
Proof. intros E. unfold mbind. rewrite E. reflexivity. Qed.

Lemma bind_assoc {A B C} (c : M A) (k : A -> M B) (k' : B -> M C) s :
  mbind (mbind c k) k' s = mbind c (fun a => mbind (k a) k') s.
Proof. unfold mbind. destruct (c s) as [[a s']|e]; reflexivity. Qed.

(** ** The heap of readers *)

Lemma rd_get_set_eq m k r : rd_get (rd_set k r m) k = Some r.
Proof. apply lookup_insert_eq. Qed.
Lemma rd_get_set_ne m k k' r : k <> k' -> rd_get (rd_set k r m) k' = rd_get m k'.
Proof. intros Hk. apply lookup_insert_ne. exact Hk. Qed.
Lemma rd_set_set_eq m k r r' : rd_set k r (rd_set k r' m) = rd_set k r m.
Proof. apply insert_insert_eq. Qed.

Lemma cur_set_cur s r : cur (set_cur s r) = Some r.
Proof. apply rd_get_set_eq. Qed.
Lemma set_cur_set_cur s r r' : set_cur (set_cur s r) r' = set_cur s r'.
Proof. unfold set_cur; cbn. rewrite rd_set_set_eq. reflexivity. Qed.

(** What each state update leaves alone. *)
Lemma cur_alloc_st s r : cur (alloc_st s r) = Some r.
Proof. apply rd_get_set_eq. Qed.
Lemma cur_set_measure s m : cur (set_measure s m) = cur s.
Proof. reflexivity. Qed.
Lemma cur_set_cache s c : cur (set_cache s c) = cur s.
Proof. reflexivity. Qed.
Lemma cur_set_hl s b : cur (set_hl s b) = cur s.
Proof. reflexivity. Qed.
Lemma compressedHL_set_hl s b : cv_compressedHL (s_var (set_hl s b)) = b.
Proof. reflexivity. Qed.
Lemma s_measure_set_hl s b : s_measure (set_hl s b) = s_measure s.
Proof. reflexivity. Qed.
Lemma cache_set_hl s b : h_cache (s_heap (set_hl s b)) = h_cache (s_heap s).
Proof. reflexivity. Qed.
Lemma set_cur_set_hl s b r : set_cur (set_hl s b) r = set_hl (set_cur s r) b.
Proof. reflexivity. Qed.
Lemma s_var_set_cur s r : s_var (set_cur s r) = s_var s.
Proof. reflexivity. Qed.
Lemma s_var_set_measure s m : s_var (set_measure s m) = s_var s.
Proof. reflexivity. Qed.
Lemma s_var_set_cache s c : s_var (set_cache s c) = s_var s.
Proof. reflexivity. Qed.
Lemma compressedHL_alloc_st s r : cv_compressedHL (s_var (alloc_st s r)) = cv_compressedHL (s_var s).
Proof. reflexivity. Qed.
Lemma s_measure_set_cur s r : s_measure (set_cur s r) = s_measure s.
Proof. reflexivity. Qed.
Lemma s_measure_set_measure s m : s_measure (set_measure s m) = m.
Proof. reflexivity. Qed.
Lemma s_measure_set_cache s c : s_measure (set_cache s c) = s_measure s.
Proof. reflexivity. Qed.
Lemma s_measure_alloc_st s r : s_measure (alloc_st s r) = s_measure s.
Proof. reflexivity. Qed.
Lemma cache_set_cur s r : h_cache (s_heap (set_cur s r)) = h_cache (s_heap s).
Proof. reflexivity. Qed.
Lemma cache_set_measure s m : h_cache (s_heap (set_measure s m)) = h_cache (s_heap s).
Proof. reflexivity. Qed.
Lemma cache_set_cache s c : h_cache (s_heap (set_cache s c)) = c.
Proof. reflexivity. Qed.
Lemma cache_alloc_st s r : h_cache (s_heap (alloc_st s r)) = h_cache (s_heap s).
Proof. reflexivity. Qed.
(** Writing the measure or the cache commutes with writing the reader. *)
Lemma set_cur_set_measure s m r : set_cur (set_measure s m) r = set_measure (set_cur s r) m.
Proof. reflexivity. Qed.
Lemma set_cur_set_cache s c r : set_cur (set_cache s c) r = set_cache (set_cur s r) c.
Proof. reflexivity. Qed.
Lemma set_measure_set_measure s m m' : set_measure (set_measure s m) m' = set_measure s m'.
Proof. reflexivity. Qed.

(** The copy taken by a value receiver is invisible when the callee
    leaves the channel's own fields alone. *)
Lemma with_copy_same_var (c : M unit) s s' :
  c s = Ok (tt, s') -> s_var s' = s_var s -> with_copy c s = Ok (tt, s').
Proof. intros E Hv. unfold with_copy. rewrite E. cbn. rewrite <- Hv. destruct s'; reflexivity. Qed.

(** The measure a call on a copy leaves is the callee's. *)
Lemma with_copy_measure (c : M unit) s :
  (let* '(_, s') := with_copy c s in Ok (s_measure s')) = (let* '(_, s') := c s in Ok (s_measure s')).
Proof. unfold with_copy. destruct (c s) as [[[] s']|e]; reflexivity. Qed.

Lemma get_reader_ok s r : cur s = Some r -> get_reader s = Ok (r, s).
Proof. intros E. unfold get_reader. rewrite E. reflexivity. Qed.

#[global] Opaque rd_get rd_set cur set_cur alloc_st set_hl set_measure set_cache.

Create HintDb mstate.
Create Rewrite HintDb mstate.
#[export] Hint Rewrite cur_set_cur set_cur_set_cur cur_alloc_st cur_set_measure cur_set_cache
  s_var_set_cur s_var_set_measure s_var_set_cache compressedHL_alloc_st
  s_measure_set_cur s_measure_set_measure s_measure_set_cache s_measure_alloc_st
  cache_set_cur cache_set_measure cache_set_cache cache_alloc_st
  set_cur_set_measure set_cur_set_cache set_measure_set_measure
  cur_set_hl compressedHL_set_hl s_measure_set_hl cache_set_hl set_cur_set_hl : mstate.

End State.
