(* ===== verification/Dispatch.v ===== *)
(** * The block dispatcher and the sample orchestrator of [src/channel.go]

    The handlers of [channel.go] ([readDT], [readSdBlock],
    [readDataZipped], [readHeaderList], [readDataList], [readVLSDSample],
    [readFixedLenghtSample], [extractSample]), [RawSample] and [Sample],
    written in the monad of [State] against the [BlockSource] and
    [Decompressor] interfaces of [Blocks].  [readFixedLenghtSample] has a
    value receiver ([func (c Channel)]): it runs on a copy of the channel,
    so the rebindings it makes to [channelReader] and [compressedHL] are
    dropped on return, while the writes through the shared pointers
    persist; [with_copy] models that copy.  The recursion through DL, DZ
    and HL blocks is bounded by fuel; running out of fuel is the model's
    [EFuel], distinct from every error of the program.  The second half of
    the file gives each handler its equation, the lemmas the theorems of
    [Chains] are proved with. *)

From Stdlib Require Import ZArith String Lia.
From stdpp Require Import gmap.
From S2P Require Import Prelude Decode Records Blocks State.
Import Decode Records Blocks State.

Open Scope Z_scope.
Open Scope dispatch_scope.

Module Dispatch.

(** ** Data *)

(** What the bootstrap layer supplies about a channel: from its CN block
    ([IsVLSD], [ByteOrder], [SignalBytesRange], [LoadDataType],
    [Data.ByteOffset], [Data.BitCount], [Data.BitOffset], [Link.Data]),
    its CG block ([Data.DataBytes], [Data.CycleCount]) and its DG block
    ([RecordIDSize], [DataAddress]). *)
Record channel_desc : Type := mkDesc {
  cn_IsVLSD : bool;
  cn_ByteOrder : byte_order;
  cn_SignalBytesRange : Z;
  cn_DataType : dtype;
  cn_ByteOffset : Z;
  cn_BitCount : Z;
  cn_BitOffset : Z;
  cn_LinkData : Z;
  cg_DataBytes : Z;
  cg_CycleCount : Z;
  dg_RecordIDSize : Z;
  dg_DataAddress : Z
}.

(** The [ChannelReader] literal of [loadChannelReader], with the buffer
    it is given. *)
Definition reader0 (d : channel_desc) (addr : Z) (buf : byte_slice) : reader :=
  mkReader (cn_ByteOrder d) (cn_SignalBytesRange d) (cn_DataType d) addr 0 (sl_elems buf)
    (cg_DataBytes d) (cn_BitCount d) (cn_BitOffset d) (cn_ByteOffset d + dg_RecordIDSize d)
    (sl_spare buf).

Section Engine.

Context {F : Type} `{BlockSource F} `{Decompressor}.
Variable file : F.
Variable d : channel_desc.

(** ** Readers and buffers *)

(** [loadChannelReader(addr)]. *)
Definition loadChannelReader (addr : Z) : M reader :=
  do cache <- get_cache;
  mret (reader0 d addr (default nil_slice cache)).

(** [c.channelReader = c.newChannelReader(addr)]. *)
Definition newChannelReader (addr : Z) : M unit :=
  do r <- loadChannelReader addr; alloc_reader r.

(** [loadBuffer]: a fresh zeroed buffer when the block length differs
    from the current buffer's. *)
Definition loadBuffer : M unit :=
  do r <- get_reader;
  do length <- lift (GetLength file (DataAddress r));
  if length =? Z.of_nat (List.length (MeasureBuffer r)) then mret tt
  else put_reader (set_MeasureSlice r (slice_of (repeat Byte.x00 (Z.to_nat length)))).

(** [readBlockToMemory]: [loadBuffer], then [readBlockFromFile], the
    [io.ReadFull] of the buffer's length at [DataAddress + HeaderSize]. *)
Definition readBlockToMemory : M unit :=
  loadBuffer;;
  do r <- get_reader;
  do data <- lift (readBlockFromFile file (DataAddress r) (MeasureBuffer r));
  put_reader (set_MeasureBuffer r data).

(** ** Terminal handlers *)

(** [readDT]: read the block unless the data group has a cached buffer,
    then the row loop. *)
Definition readDT : M unit :=
  do cache <- get_cache;
  (if cache is None then readBlockToMemory else mret tt);;
  do r <- get_reader;
  do m <- get_measure;
  do '(r', m') <- lift (readDT_loop (cg_CycleCount d) r m);
  put_reader r';;
  put_measure m'.

(** [readSdBlock]: one length-prefixed record. *)
Definition readSdBlock : M unit :=
  do cache <- get_cache;
  (if cache is None then readBlockToMemory else mret tt);;
  do r <- get_reader;
  do pre <- lift (go_slice (measure_cap r) 0 4);
  let length := le_value pre in
  do w <- lift (go_slice (measure_cap r) 4 (4 + length));
  do v <- lift (parseSignalMeasure w (ByteOrder r) (DataType r) (BitOffset r) (BitCount r));
  do m <- get_measure;
  put_measure (m ++ [v]).

(** ** Recursive handlers, given the dispatcher [rec] one level down *)

Section Handlers.
Variable rec : string -> M unit.

(** [readDataZipped]: inflate into the data group's cache and dispatch
    the inflated buffer under the tag the DZ block replaces.  The Go
    assignment [c.DataGroup.CachedDataGroup, err = dz.Read()] stores the
    slice before the error is checked; [dz.Read] is [Deflate] of the
    payload. *)
Definition readDataZipped : M unit :=
  do r <- get_reader;
  do dz <- lift (DZ_New file (DataAddress r));
  let '(data, e) := Deflate (dz_payload dz) in
  put_cache data;;
  (if e is Some e then mfail e else mret tt);;
  do r <- get_reader;
  put_reader (set_MeasureSlice r (default nil_slice data));;
  rec (dz_modified dz).

(** [readHeaderList]: a fresh reader on the first DL block, the HL flag
    set, and the dispatch as a DL. *)
Definition readHeaderList : M unit :=
  do r <- get_reader;
  do first <- lift (HL_New file (DataAddress r));
  newChannelReader first;;
  do v <- get_var;
  put_var (mkVar (cv_reader v) true);;
  rec DlID.

(** The [for i < target] loop of [readDataList], [k] bounding the
    number of children visited; the index [i] is the Go [int] counter,
    which stays in [0, target]. *)
Fixpoint dl_loop (k : nat) (dtl : dl_block) (i : nat) (id : string) : M unit :=
  let target := List.length (dl_data dtl) in
  if (i <? target)%nat then
    match k with
    | O => mfail EFuel
    | S k' =>
        do link <- lift (go_index_n (dl_data dtl) i);
        do r <- get_reader;
        put_reader (set_DataAddress r link);;
        (if Z.of_nat (S i) <? dl_count dtl then
           do nxt <- lift (go_index_n (dl_data dtl) (S i));
           do r <- get_reader;
           put_reader (set_NextDataAddress r nxt)
         else mret tt);;
        do v <- get_var;
        do id' <- (if cv_compressedHL v then lift (GetHeaderID file link) else mret id);
        rec id';;
        if (S i =? target)%nat && negb (dl_next dtl =? 0) then
          do dtl' <- lift (DL_New file (dl_next dtl));
          dl_loop k' dtl' 0 id'
        else dl_loop k' dtl (S i) id'
    end
  else mret tt.

(** [readDataList]: the tag of the first child, a fresh reader on it,
    then the loop over the children of the chain. *)
Definition readDataList (k : nat) : M unit :=
  do r <- get_reader;
  do dtl <- lift (DL_New file (DataAddress r));
  do start <- lift (go_index_n (dl_data dtl) 0);
  do id <- lift (GetHeaderID file start);
  newChannelReader start;;
  dl_loop k dtl 0 id.

(** [readVLSDSample]. *)
Definition readVLSDSample (k : nat) (id : string) : M unit :=
  if String.eqb id DtID then mret tt
  else if String.eqb id SdID then readSdBlock
  else if String.eqb id DlID then readDataList k
  else if String.eqb id DzID then readDataZipped
  else if String.eqb id HlID then readHeaderList
  else if String.eqb id CgID then mret tt
  else mfail ENotReady.

(** [readFixedLenghtSample]. *)
Definition readFixedLenghtSample (k : nat) (id : string) : M unit :=
  if String.eqb id DtID || String.eqb id DvID then readDT
  else if String.eqb id DlID then readDataList k
  else if String.eqb id DzID then readDataZipped
  else if String.eqb id HlID then readHeaderList
  else mfail ENotReady.

End Handlers.

(** [extractSample]: the variable-length path on the channel itself, the
    fixed-length path on a copy of it. *)
Fixpoint extractSample (fuel : nat) (id : string) : M unit :=
  match fuel with
  | O => mfail EFuel
  | S f =>
      if cn_IsVLSD d then readVLSDSample (extractSample f) f id
      else with_copy (readFixedLenghtSample (extractSample f) f id)
  end.

(** [loadDataAdress]. *)
Definition loadDataAdress : Z :=
  if negb (cn_LinkData d =? 0) then cn_LinkData d else dg_DataAddress d.

(** [RawSample]. *)
Definition RawSample (fuel : nat) : M (list value) :=
  let start := loadDataAdress in
  do id <- lift (GetHeaderID file start);
  do r <- loadChannelReader start;
  alloc_reader r;;
  put_measure [];;
  extractSample fuel id;;
  get_measure.

End Engine.

(** ** Inputs of the witnesses *)

(** A [uint8] channel, little endian, one byte per record, 100 records,
    its data at address 100. *)
Definition d_u8 : channel_desc := mkDesc false LittleEndian 1 TUint8 0 8 0 0 1 100 0 100.

(** A channel that has not read anything: no reader, no cache. *)
Definition st0 : st := mkSt (mkVar 0 false) (mkHeap ∅ 0 None) [].

(** ** Proof automation *)

(** Run the monad one layer: unfold its primitive operations and reduce,
    keeping the handlers, the row loop and the state updates folded. *)
Ltac mstep :=
  unfold mbind, mret, lift, mfail, get_var, put_var, get_cache, put_cache, get_measure,
    put_measure, get_reader, put_reader, alloc_reader, readBlockFromFile;
  cbn -[readDT_loop readBlockToMemory loadBuffer readDT readSdBlock readDataZipped
        readHeaderList readDataList dl_loop readVLSDSample readFixedLenghtSample
        extractSample with_copy];
  autorewrite with mstate in *.

(** Run the monad as far as the hypotheses about the file allow. *)
Ltac mrun :=
  repeat progress (
    mstep;
    repeat match goal with H : ?x = _ |- context [?x] => rewrite H end;
    zcase; try (exfalso; lia)).

(** Select the branch of a tag switch. *)
Ltac tag_case :=
  unfold readFixedLenghtSample, readVLSDSample;
  cbn [String.eqb Ascii.eqb Bool.eqb DtID DvID DlID DzID HlID SdID CgID andb orb].

(** ** The equations of the handlers *)

Section Equations.
Context {F : Type} `{BlockSource F} `{Decompressor}.
Variables (file : F) (d : channel_desc).

(** The row loop of [readDT] run on reader [r] from state [s]: the reader
    and the measure it leaves. *)
Definition rows_post (s : st) (r : reader) : result (unit * st) :=
  let* '(r', m') := readDT_loop (cg_CycleCount d) r (s_measure s) in
  Ok (tt, set_measure (set_cur s r') m').

(** Close a goal whose two sides run the same row loop. *)
Ltac rows_done :=
  unfold rows_post; mrun;
  match goal with |- context [readDT_loop ?a ?b ?c] => generalize (readDT_loop a b c) end;
  intros [[? ?]|?];
  mrun; reflexivity.


Lemma with_copy_rows (c : M unit) s s0 r :
  c s = rows_post s0 r -> s_var s0 = s_var s -> with_copy c s = rows_post s0 r.
Proof.
  intros E Hv. unfold with_copy. rewrite E. unfold rows_post.
  destruct readDT_loop as [[r' m']|e]; cbn; [|reflexivity].
  autorewrite with mstate. rewrite <- Hv. reflexivity.
Qed.

(** [loadBuffer] then [readBlockFromFile]: a buffer without spare
    capacity holds the block's data section, whatever its length was
    before. *)
Lemma readBlockToMemory_ok s r n buf :
  cur s = Some r -> MeasureSpare r = [] -> GetLength file (DataAddress r) = Ok n -> 0 <= n ->
  ReadData file (DataAddress r) n = Ok buf ->
  readBlockToMemory file s = Ok (tt, set_cur s (set_MeasureBuffer r buf)).
Proof.
  intros Hc Hsp Hl Hn Hr. unfold readBlockToMemory, loadBuffer. mrun.
  - rewrite <- e, Hr. mrun. reflexivity.
  - cbn [sl_elems slice_of]. rewrite repeat_length, Z2Nat.id, Hr by lia. mrun.
    rewrite <- (set_MeasureSlice_no_spare r buf Hsp). reflexivity.
Qed.

Lemma readDT_nocache s r n buf :
  h_cache (s_heap s) = None -> cur s = Some r -> MeasureSpare r = [] ->
  GetLength file (DataAddress r) = Ok n -> 0 <= n -> ReadData file (DataAddress r) n = Ok buf ->
  readDT file d s = rows_post s (set_MeasureBuffer r buf).
Proof.
  intros Hc Hr Hsp Hl Hn Hd. unfold readDT. mrun.
  rewrite (readBlockToMemory_ok s r n buf) by assumption. rows_done.
Qed.

Lemma readDT_cached s r c :
  h_cache (s_heap s) = Some c -> cur s = Some r -> readDT file d s = rows_post s r.
Proof. intros Hc Hr. unfold readDT. mrun. rows_done. Qed.

Lemma rows_post_set_cur s r0 r : rows_post (set_cur s r0) r = rows_post s r.
Proof. rows_done. Qed.

Lemma extractSample_fixed f id s :
  cn_IsVLSD d = false ->
  extractSample file d (S f) id s = with_copy (readFixedLenghtSample file d (extractSample file d f) f id) s.
Proof. intros Hv. cbn [extractSample]. rewrite Hv. reflexivity. Qed.

Lemma extractSample_DT_nocache f s r n buf :
  cn_IsVLSD d = false -> h_cache (s_heap s) = None -> cur s = Some r -> MeasureSpare r = [] ->
  GetLength file (DataAddress r) = Ok n -> 0 <= n -> ReadData file (DataAddress r) n = Ok buf ->
  extractSample file d (S f) DtID s = rows_post s (set_MeasureBuffer r buf).
Proof.
  intros Hv Hc Hr Hsp Hl Hn Hd. rewrite extractSample_fixed by exact Hv.
  apply with_copy_rows; [apply (readDT_nocache s r n buf); assumption | reflexivity].
Qed.

Lemma extractSample_DT_cached f s r c :
  cn_IsVLSD d = false -> h_cache (s_heap s) = Some c -> cur s = Some r ->
  extractSample file d (S f) DtID s = rows_post s r.
Proof.
  intros Hv Hc Hr. rewrite extractSample_fixed by exact Hv.
  apply with_copy_rows; [apply (readDT_cached s r c); assumption | reflexivity].
Qed.

(** [readDataZipped]: the inflated buffer becomes the data group's cache
    and the reader's buffer, then the dispatch on the original tag. *)
Lemma readDataZipped_ok rec s r dz data :
  cur s = Some r -> DZ_New file (DataAddress r) = Ok dz -> Deflate (dz_payload dz) = (Some data, None) ->
  readDataZipped file rec s = rec (dz_modified dz) (set_cur (set_cache s (Some data)) (set_MeasureSlice r data)).
Proof. intros Hr Hz Hd. unfold readDataZipped. mrun. reflexivity. Qed.

(** A DZ block replacing a DT block: the rows of the inflated buffer. *)
Lemma extractSample_DZ_DT f s r dz data :
  cn_IsVLSD d = false -> cur s = Some r ->
  DZ_New file (DataAddress r) = Ok dz -> dz_modified dz = DtID -> Deflate (dz_payload dz) = (Some data, None) ->
  extractSample file d (S (S f)) DzID s = rows_post (set_cache s (Some data)) (set_MeasureSlice r data).
Proof.
  intros Hv Hr Hz Hm Hd. rewrite extractSample_fixed by exact Hv.
  apply with_copy_rows; [|autorewrite with mstate; reflexivity].
  tag_case.
  rewrite (readDataZipped_ok _ s r dz data), Hm by assumption.
  rewrite (extractSample_DT_cached f _ (set_MeasureSlice r data) data) by (autorewrite with mstate; auto).
  apply rows_post_set_cur.
Qed.

(** [readHeaderList]: a fresh reader on the first DL block, the flag
    [compressedHL] set, and the dispatch as a DL. *)
Lemma readHeaderList_ok rec s r first :
  cur s = Some r -> HL_New file (DataAddress r) = Ok first ->
  readHeaderList file d rec s =
  rec DlID (set_hl (alloc_st s (reader0 d first (default nil_slice (h_cache (s_heap s))))) true).
Proof. intros Hr Hh. unfold readHeaderList, newChannelReader, loadChannelReader. mrun. reflexivity. Qed.

(** [readDataList]: the tag of the first child and a fresh reader on it
    before the loop. *)
Lemma readDataList_ok rec k s r dtl a0 rest id :
  cur s = Some r -> DL_New file (DataAddress r) = Ok dtl -> dl_data dtl = a0 :: rest ->
  GetHeaderID file a0 = Ok id ->
  readDataList file d rec k s =
  dl_loop file rec k dtl 0 id (alloc_st s (reader0 d a0 (default nil_slice (h_cache (s_heap s))))).
Proof.
  intros Hr Hl Hd Hi. unfold readDataList, newChannelReader, loadChannelReader. mrun.
  reflexivity.
Qed.

Lemma extractSample_vlsd f id s :
  cn_IsVLSD d = true ->
  extractSample file d (S f) id s = readVLSDSample file d (extractSample file d f) f id s.
Proof. intros Hv. cbn [extractSample]. rewrite Hv. reflexivity. Qed.

End Equations.

(** Refute every case of a tag switch that names a tag outside a list. *)
Ltac tag_absent Hn :=
  repeat match goal with
  | |- context [String.eqb ?id ?t] =>
      destruct (String.eqb_spec id t) as [->|?]; [exfalso; apply Hn; cbn; tauto|]
  end.

Section Errors.
Context {F : Type} `{BlockSource F} `{Decompressor}.
Variables (file : F) (d : channel_desc).

(** C13: On the fixed-length path a tag other than DT, DV, DL, DZ and HL
    fails, before anything is read or written, with the one error
    "package not ready to read this file", whatever the tag: the error
    does not say which tag was met. *)
Theorem extractSample_fixed_unsupported f id s :
  cn_IsVLSD d = false -> ~ In id [DtID; DvID; DlID; DzID; HlID] ->
  extractSample file d (S f) id s = Err ENotReady.
Proof.
  intros Hv Hn. rewrite extractSample_fixed by exact Hv.
  unfold with_copy, readFixedLenghtSample. tag_absent Hn. reflexivity.
Qed.

(** C14: On the variable-length path a tag other than DT, SD, DL, DZ, HL
    and CG fails with the same error "package not ready to read this
    file", whatever the tag. *)
Theorem extractSample_vlsd_unsupported f id s :
  cn_IsVLSD d = true -> ~ In id [DtID; SdID; DlID; DzID; HlID; CgID] ->
  extractSample file d (S f) id s = Err ENotReady.
Proof.
  intros Hv Hn. rewrite extractSample_vlsd by exact Hv.
  unfold readVLSDSample. tag_absent Hn. reflexivity.
Qed.

(** C15: A variable-length channel whose data is a bare DT block reads
    nothing and reports success: the state, the measure included, is
    unchanged. *)
Theorem extractSample_vlsd_DT_silent f s :
  cn_IsVLSD d = true -> extractSample file d (S f) DtID s = Ok (tt, s).
Proof. intros Hv. rewrite extractSample_vlsd by exact Hv. reflexivity. Qed.

(** C16: [readSdBlock] decodes the first length-prefixed record of the
    SD block and appends exactly that one value, whatever records
    follow it in the block.  The reader's buffer has no spare capacity,
    as every buffer of the path without a cache ([make] or [nil]). *)
Theorem readSdBlock_first_record s r w rest v :
  h_cache (s_heap s) = None -> cur s = Some r -> MeasureSpare r = [] ->
  Z.of_nat (length w) < 2 ^ 32 ->
  let buf := Decode.le_split 4 (Z.of_nat (length w)) ++ w ++ rest in
  GetLength file (DataAddress r) = Ok (Z.of_nat (length buf)) ->
  ReadData file (DataAddress r) (Z.of_nat (length buf)) = Ok buf ->
  parseSignalMeasure w (ByteOrder r) (DataType r) (BitOffset r) (BitCount r) = Ok v ->
  readSdBlock file s = Ok (tt, set_measure (set_cur s (set_MeasureBuffer r buf)) (s_measure s ++ [v])).
Proof.
  intros Hc Hr Hsp Hw buf Hl Hd Hp.
  set (p := Decode.le_split 4 (Z.of_nat (length w))) in *.
  assert (Hp4 : Z.of_nat (length p) = 4) by (subst p; rewrite Decode.length_le_split; reflexivity).
  assert (Hpv : le_value p = Z.of_nat (length w))
    by (subst p; rewrite Decode.le_value_le_split; apply Z.mod_small; lia).
  clearbody p. unfold readSdBlock. mrun.
  rewrite (readBlockToMemory_ok file s r (Z.of_nat (length buf)) buf) by (auto; lia). mrun.
  unfold measure_cap. cbn [MeasureBuffer MeasureSpare set_MeasureBuffer]. rewrite ?Hsp, ?app_nil_r.
  subst buf. rewrite <- Hp4, go_slice_app_l, go_slice_whole by lia. mrun.
  rewrite <- Hp4. rewrite <- (Z.add_0_r (Z.of_nat (length p))) at 1.
  rewrite go_slice_app_r, go_slice_app_l, go_slice_whole by lia. mrun. reflexivity.
Qed.

End Errors.

(** ** Witnesses *)

Definition d_vlsd : channel_desc := mkDesc true LittleEndian 1 TUint8 0 8 0 0 1 100 0 100.

Lemma extractSample_fixed_unsupported_witness :
  extractSample (H0 := stored) (∅ : block_map) d_u8 1 "##XX" st0 = Err ENotReady.
Proof. apply extractSample_fixed_unsupported; [reflexivity|cbn; intuition discriminate]. Defined.

Lemma extractSample_vlsd_unsupported_witness :
  extractSample (H0 := stored) (∅ : block_map) d_vlsd 1 "##XX" st0 = Err ENotReady.
Proof. apply extractSample_vlsd_unsupported; [reflexivity|cbn; intuition discriminate]. Defined.

Lemma extractSample_vlsd_DT_silent_witness :
  extractSample (H0 := stored) (∅ : block_map) d_vlsd 1 DtID st0 = Ok (tt, st0).
Proof. apply extractSample_vlsd_DT_silent. reflexivity. Defined.

(** An SD block of two records, [05] and [06]: only [05] is read. *)
Definition sd_data : list Byte.byte :=
  Decode.le_split 4 1 ++ [Byte.x05] ++ (Decode.le_split 4 1 ++ [Byte.x06]).
Definition file_sd : block_map := <[100 := sd_blk sd_data]> ∅.
Definition st_sd : st := alloc_st st0 (reader0 d_vlsd 100 nil_slice).

Lemma readSdBlock_first_record_witness :
  readSdBlock file_sd st_sd =
  Ok (tt, set_measure (set_cur st_sd (set_MeasureBuffer (reader0 d_vlsd 100 nil_slice) sd_data)) [VUint8 5]).
Proof.
  apply (readSdBlock_first_record file_sd st_sd (reader0 d_vlsd 100 nil_slice) [Byte.x05]
           (Decode.le_split 4 1 ++ [Byte.x06]) (VUint8 5)); vm_compute; reflexivity.
Defined.

End Dispatch.
