(* ===== verification/Chains.v ===== *)
(** * Chains of data blocks: what [RawSample] reads from a file

    The theorems of this file run the dispatcher of [Dispatch] on whole
    block structures and relate the measure [RawSample] returns to the row
    loop of [Records]: a single DT block, a DZ block replacing one, a DL
    list of DT blocks, and an HL list of DZ blocks.  The reference for a
    list of blocks is [read_chunks]: the row loop run on each block's
    buffer in turn, the reader carried from one block to the next; it
    reads any number of blocks as the row loop on their concatenation
    ([read_chunks_concat], by merging the first two blocks).  The DL
    loop of [readDataList] is proved against it by a simulation
    ([dl_loop_sim]) whose per-child step is a hypothesis of a Section, so
    that both kinds of child share one induction. *)

From Stdlib Require Import ZArith String Lia.
From stdpp Require Import gmap.
From S2P Require Import Prelude Decode Records Blocks State Dispatch.
Import Decode Records Blocks State Dispatch.

Open Scope Z_scope.
Open Scope dispatch_scope.

Module Chains.

(** ** The reference: the blocks of a list read one after the other *)

Fixpoint read_chunks (cc : Z) (r : reader) (bufs : list (list Byte.byte)) (m : list value)
    : result (reader * list value) :=
  match bufs with
  | [] => Ok (r, m)
  | b :: bs => let* '(r', m') := readDT_loop cc (set_MeasureBuffer r b) m in read_chunks cc r' bs m'
  end.

(** ** The reference against the concatenated stream *)

Lemma carry_addresses r : DataAddress (carry r) = DataAddress r /\ NextDataAddress (carry r) = NextDataAddress r.
Proof. unfold carry. destruct (0 <? _); split; reflexivity. Qed.

(** The fields of a reader the carry-over leaves alone. *)
Definition geom (r : reader) :=
  (ByteOrder r, SizeMeasureRow r, DataType r, DataAddress r, NextDataAddress r, RowSize r, BitCount r,
   BitOffset r, MeasureSpare r).

Lemma geom_carry r : geom (carry r) = geom r.
Proof. unfold carry. destruct (0 <? _); reflexivity. Qed.

Lemma geom_set_MeasureBuffer r b : geom (set_MeasureBuffer r b) = geom r.
Proof. reflexivity. Qed.

Lemma RowSize_geom r r' : geom r = geom r' -> RowSize r = RowSize r'.
Proof. intros E. injection E. intros. assumption. Qed.

Lemma reader_ext r r' :
  geom r = geom r' -> MeasureBuffer r = MeasureBuffer r' -> StartOffset r = StartOffset r' -> r = r'.
Proof. destruct r, r'. unfold geom. cbn. intros E ? ?. injection E. intros. subst. reflexivity. Qed.

Lemma measure_of_ret (x : result (reader * list value)) :
  measure_of (let* '(r', m') := x in Ok (r', m')) = measure_of x.
Proof. destruct x as [[]|]; reflexivity. Qed.

Section Flat.
Variables (n : Z) (r : reader).
Hypotheses (HR : 0 < RowSize r) (Hs : 0 <= StartOffset r < RowSize r) (Hsz : 0 <= SizeMeasureRow r).

(** Carrying over twice, through [b1] then [b2], is carrying over once
    through [b1 ++ b2]. *)
Lemma carry_twice b1 b2 b3 :
  set_MeasureBuffer (carry (set_MeasureBuffer (carry (set_MeasureBuffer r b1)) b2)) b3 =
  set_MeasureBuffer (carry (set_MeasureBuffer r (b1 ++ b2))) b3.
Proof.
  set (r1 := set_MeasureBuffer (carry (set_MeasureBuffer r b1)) b2).
  assert (G1 : geom r1 = geom r) by (unfold r1; rewrite geom_set_MeasureBuffer, geom_carry; reflexivity).
  assert (HR1 : RowSize r1 = RowSize r) by (apply RowSize_geom, G1).
  assert (Hs1 : StartOffset r1 = (StartOffset r - Z.of_nat (length b1)) mod RowSize r)
    by exact (carry_StartOffset (set_MeasureBuffer r b1) HR Hs).
  assert (HB1 : MeasureBuffer r1 = b2) by reflexivity.
  clearbody r1. apply reader_ext; [rewrite !geom_set_MeasureBuffer, !geom_carry, G1; reflexivity|reflexivity|].
  cbn [StartOffset set_MeasureBuffer].
  rewrite !carry_StartOffset; cbn [StartOffset RowSize MeasureBuffer set_MeasureBuffer]; rewrite ?HR1, ?Hs1, ?HB1;
    try (apply Z.mod_pos_bound; lia); try lia.
  rewrite Zminus_mod_idemp_l, length_app, Nat2Z.inj_add. f_equal. lia.
Qed.

(** Two blocks followed by more read as their concatenation followed by
    the same blocks, when the loop runs past the end of both. *)
Lemma read_chunks_merge b1 b2 b3 bs m :
  (rows_avail (Z.of_nat (length b1)) (StartOffset r) (RowSize r) < Z.to_nat n)%nat ->
  (rows_avail (Z.of_nat (length (b1 ++ b2))) (StartOffset r) (RowSize r) < Z.to_nat n)%nat ->
  (forall p, In p (positions (StartOffset r) (RowSize r)
                    (rows_avail (Z.of_nat (length b1)) (StartOffset r) (RowSize r))) ->
             p + SizeMeasureRow r <= Z.of_nat (length b1)) ->
  read_chunks n r (b1 :: b2 :: b3 :: bs) m = read_chunks n r ((b1 ++ b2) :: b3 :: bs) m.
Proof.
  intros H1 H12 Hfit. cbn [read_chunks]. unfold readDT_loop.
  rewrite (readDT_rows_past _ (set_MeasureBuffer r b1)) by first [exact HR | exact H1].
  rewrite (readDT_rows_past _ (set_MeasureBuffer r (b1 ++ b2))) by first [exact HR | exact H12].
  cbn [MeasureBuffer RowSize StartOffset set_MeasureBuffer]. rewrite decode_concat by assumption.
  destruct (decode_all _ _) as [vs1|e]; cbn [rbind]; [|reflexivity].
  pose proof (carry_geometry (set_MeasureBuffer r b1)) as (G1 & _).
  assert (Hso := carry_StartOffset (set_MeasureBuffer r b1) HR Hs). cbn [MeasureBuffer StartOffset RowSize set_MeasureBuffer] in Hso.
  rewrite (readDT_rows_past _ (set_MeasureBuffer (carry _) b2)).
  2:{ change (RowSize (set_MeasureBuffer (carry (set_MeasureBuffer r b1)) b2))
        with (RowSize (carry (set_MeasureBuffer r b1))). rewrite G1. exact HR. }
  2:{ cbn [MeasureBuffer RowSize StartOffset set_MeasureBuffer]. rewrite G1, Hso.
      rewrite length_app, Nat2Z.inj_add, rows_avail_app in H12 by lia. cbn in H12 |- *. lia. }
  cbn [MeasureBuffer RowSize StartOffset set_MeasureBuffer]. rewrite G1, Hso.
  destruct (decode_all _ _) as [vs2|e]; cbn [rbind]; [|reflexivity].
  pose proof (f_equal StartOffset (carry_twice b1 b2 b3)) as Es. cbn [StartOffset set_MeasureBuffer] in Es.
  cbn [StartOffset set_MeasureBuffer]. rewrite carry_twice, Es, app_assoc. reflexivity.
Qed.

(** The loop runs past the end of every block but the last. *)
Definition pass_all (bufs : list (list Byte.byte)) : Prop :=
  forall j, (0 < j < length bufs)%nat ->
  (rows_avail (Z.of_nat (length (concat (take j bufs)))) (StartOffset r) (RowSize r) < Z.to_nat n)%nat.

(** No field straddles the end of a block but the last. *)
Definition fit_all (bufs : list (list Byte.byte)) : Prop :=
  forall j, (0 < j < length bufs)%nat ->
  let L := Z.of_nat (length (concat (take j bufs))) in
  forall p, In p (positions (StartOffset r) (RowSize r) (rows_avail L (StartOffset r) (RowSize r))) ->
  p + SizeMeasureRow r <= L.

Lemma concat_take_merge {A} (b1 b2 : list A) bs j :
  concat (take (S j) ((b1 ++ b2) :: bs)) = concat (take (S (S j)) (b1 :: b2 :: bs)).
Proof. cbn. rewrite app_assoc. reflexivity. Qed.

Lemma concat_merge {A} (b1 b2 : list A) bs : concat ((b1 ++ b2) :: bs) = concat (b1 :: b2 :: bs).
Proof. cbn. rewrite app_assoc. reflexivity. Qed.

Lemma pass_all_merge b1 b2 bs : pass_all (b1 :: b2 :: bs) -> pass_all ((b1 ++ b2) :: bs).
Proof.
  intros Hp [|j] Hj; [lia|]. rewrite concat_take_merge. apply Hp. cbn in *. lia.
Qed.

Lemma fit_all_merge b1 b2 bs : fit_all (b1 :: b2 :: bs) -> fit_all ((b1 ++ b2) :: bs).
Proof.
  intros Hf [|j] Hj; [lia|]. cbn zeta. rewrite concat_take_merge. apply Hf. cbn in *. lia.
Qed.

Lemma concat_take_one (b : list Byte.byte) bs : concat (take 1 (b :: bs)) = b.
Proof. cbn. apply app_nil_r. Qed.

Lemma concat_take_two (b1 b2 : list Byte.byte) bs : concat (take 2 (b1 :: b2 :: bs)) = b1 ++ b2.
Proof. cbn. rewrite app_nil_r. reflexivity. Qed.

Lemma measure_of_bind_ret (x : result (reader * list value)) k :
  measure_of (let* '(r1, m1) := x in let* '(r', m') := k r1 m1 in Ok (r', m')) =
  measure_of (let* '(r1, m1) := x in k r1 m1).
Proof. destruct x as [[r1 m1]|]; cbn; [apply measure_of_ret|reflexivity]. Qed.

Lemma readDT_loop_empty m : measure_of (readDT_loop n (set_MeasureBuffer r []) m) = Ok m.
Proof.
  unfold readDT_loop. rewrite readDT_rows_measure; cbn [MeasureBuffer RowSize StartOffset set_MeasureBuffer length];
    rewrite ?rows_avail_end by (cbn; lia); cbn; [rewrite app_nil_r; reflexivity|exact HR|lia].
Qed.

(** C5: Reading the blocks of a record stream one after the other, the
    reader carried from each block to the next (the reference
    [read_chunks] of the DL loop), gives the samples of the row loop on
    the concatenated stream, for any number of blocks: the carry-over of
    [StartOffset] resumes each block at the first row that starts in it.
    The hypotheses: the cycle count covers all rows of the stream, the
    loop runs past the end of every block but the last (so it carries
    over), and no field straddles the end of a block. *)
Theorem read_chunks_concat bufs m :
  pass_all bufs -> fit_all bufs ->
  (rows_avail (Z.of_nat (length (concat bufs))) (StartOffset r) (RowSize r) <= Z.to_nat n)%nat ->
  measure_of (read_chunks n r bufs m) = measure_of (readDT_loop n (set_MeasureBuffer r (concat bufs)) m).
Proof.
  intros Hp Hf Ht. destruct bufs as [|b bs]; [symmetry; apply readDT_loop_empty|].
  revert b Hp Hf Ht. induction bs as [|b2 bs IH]; intros b Hp Hf Ht.
  - cbn [read_chunks concat]. rewrite measure_of_ret, app_nil_r. reflexivity.
  - pose proof (Hp 1%nat ltac:(cbn; lia)) as H1. pose proof (Hf 1%nat ltac:(cbn; lia)) as F1.
    cbn zeta in F1. rewrite concat_take_one in H1, F1.
    destruct bs as [|b3 bs].
    + cbn [read_chunks concat] in *. rewrite app_nil_r in *.
      rewrite (measure_of_bind_ret _ (fun r1 m1 => readDT_loop n (set_MeasureBuffer r1 b2) m1)).
      apply readDT_two_blocks; assumption.
    + pose proof (Hp 2%nat ltac:(cbn; lia)) as H2. rewrite concat_take_two in H2.
      rewrite read_chunks_merge, <- concat_merge by assumption.
      apply IH; [apply pass_all_merge, Hp|apply fit_all_merge, Hf|rewrite concat_merge; exact Ht].
Qed.

End Flat.

(** ** The DL loop against the reference *)

(** The reference for any kind of child buffer: [setb] puts a child's
    buffer into the reader, the row loop reads it, and the reader goes
    on to the next child.  [read_chunks] is the case of blocks read in
    place ([set_MeasureBuffer]), [read_slices] that of slices assigned
    with their capacity ([set_MeasureSlice]). *)
Fixpoint read_bufs {B} (setb : reader -> B -> reader) (cc : Z) (r : reader) (bufs : list B)
    (m : list value) : result (reader * list value) :=
  match bufs with
  | [] => Ok (r, m)
  | b :: bs => let* '(r', m') := readDT_loop cc (setb r b) m in read_bufs setb cc r' bs m'
  end.

Definition read_slices : Z -> reader -> list byte_slice -> list value -> result (reader * list value) :=
  read_bufs set_MeasureSlice.

Lemma read_chunks_bufs cc r bufs m : read_chunks cc r bufs m = read_bufs set_MeasureBuffer cc r bufs m.
Proof.
  revert r m. induction bufs as [|b bs IH]; intros r m; cbn; [reflexivity|].
  destruct readDT_loop as [[]|]; cbn; [apply IH|reflexivity].
Qed.

Section DLSim.
Context {F : Type} `{BlockSource F} `{Decompressor}.
Variables (file : F) (d : channel_desc) (rec : string -> M unit) (P : st -> Prop).
Variables (B : Type) (setb : reader -> B -> reader) (Q : reader -> Prop).
Variables (dtl : dl_block) (id0 : string) (bufs tail : list B).

(** What the dispatch of one child must do: the row loop on its buffer,
    the channel's own fields unchanged, [P] kept. *)
Definition child_post (x : result (unit * st)) (s : st) (r : reader) : Prop :=
  match readDT_loop (cg_CycleCount d) r (s_measure s) with
  | Ok (r', m') => exists s', x = Ok (tt, s') /\ P s' /\ cur s' = Some r' /\ s_measure s' = m' /\
                             s_var s' = s_var s
  | Err e => x = Err e
  end.

(** The simulation: the same error, or a state whose reader is the
    reference reader up to its block addresses and whose measure is the
    reference measure. *)
Definition sim (x : result (unit * st)) (y : result (reader * list value)) (v : chan_var) : Prop :=
  match x, y with
  | Ok (_, s'), Ok (r', m') =>
      exists r'', P s' /\ cur s' = Some r'' /\ norm_addr r'' = norm_addr r' /\ s_measure s' = m' /\
                  s_var s' = v
  | Err e, Err e' => e = e'
  | _, _ => False
  end.

Hypothesis Hcount : dl_count dtl = Z.of_nat (length (dl_data dtl)).
Hypothesis Hlen : length bufs = length (dl_data dtl).
Hypothesis HP : forall s r, P s -> P (set_cur s r).
(** [setb] ignores the block addresses; [Q], a property of the reader
    the children need, survives the address writes and the row loop. *)
Hypothesis Hnorm : forall r b, norm_addr (setb r b) = setb (norm_addr r) b.
Hypothesis HQa : forall r a, Q r -> Q (set_DataAddress r a).
Hypothesis HQn : forall r a, Q r -> Q (set_NextDataAddress r a).
Hypothesis HQloop : forall r b m r' m',
  Q r -> readDT_loop (cg_CycleCount d) (setb r b) m = Ok (r', m') -> Q r'.
Hypothesis Hrec : forall j a b s r,
  nth_error (dl_data dtl) j = Some a -> nth_error bufs j = Some b ->
  P s -> cur s = Some r -> Q r -> DataAddress r = a ->
  exists id', (if cv_compressedHL (s_var s) then GetHeaderID file a else Ok id0) = Ok id' /\
              child_post (rec id' s) s (setb r b).

(** What follows the list in the chain: nothing when [dtl.Next()] is 0,
    otherwise a DL block whose loop meets the reference on [tail]. *)
Hypothesis Hend : dl_next dtl = 0 -> tail = [].
Hypothesis Hcont : dl_next dtl <> 0 ->
  exists dtl', DL_New file (dl_next dtl) = Ok dtl' /\
  forall k id s r rref, (length tail <= k)%nat ->
    (cv_compressedHL (s_var s) = false -> id = id0) ->
    P s -> cur s = Some r -> Q r -> norm_addr r = norm_addr rref ->
    sim (dl_loop file rec k dtl' 0 id s) (read_bufs setb (cg_CycleCount d) rref tail (s_measure s))
        (s_var s).

Lemma dl_loop_done k i id s :
  (length (dl_data dtl) <= i)%nat -> dl_loop file rec k dtl i id s = Ok (tt, s).
Proof.
  intros Hi. destruct k; cbn [dl_loop]; rewrite (proj2 (Nat.ltb_ge _ _) Hi); reflexivity.
Qed.

Lemma dl_loop_sim k i id s r rref :
  (length (dl_data dtl) - i + length tail <= k)%nat ->
  ((length (dl_data dtl) <= i)%nat -> tail = []) ->
  (cv_compressedHL (s_var s) = false -> id = id0) ->
  P s -> cur s = Some r -> Q r -> norm_addr r = norm_addr rref ->
  sim (dl_loop file rec k dtl i id s)
      (read_bufs setb (cg_CycleCount d) rref (drop i bufs ++ tail) (s_measure s)) (s_var s).
Proof.
  revert i id s r rref. induction k as [|k IH]; intros i id s r rref Hk Ht Hid HPs Hc HQ Hn;
    destruct (Nat.lt_ge_cases i (length (dl_data dtl))) as [Hlt|Hge]; try lia.
  all: try (rewrite dl_loop_done, drop_ge, Ht by lia; cbn; exists r; auto; fail).
  destruct (nth_error (dl_data dtl) i) as [a|] eqn:Ea; [|apply nth_error_None in Ea; lia].
  destruct (nth_error bufs i) as [b|] eqn:Eb; [|apply nth_error_None in Eb; lia].
  rewrite (drop_nth_error bufs i b Eb). cbn [dl_loop read_bufs app].
  rewrite (proj2 (Nat.ltb_lt _ _) Hlt), Hcount.
  destruct (Nat.lt_ge_cases (S i) (length (dl_data dtl))) as [HS|HS].
  1: destruct (nth_error (dl_data dtl) (S i)) as [a'|] eqn:Ea'; [|apply nth_error_None in Ea'; lia];
     rewrite (go_index_n_some _ _ _ Ea'), (proj2 (Nat.eqb_neq (S i) _)) by lia.
  2: rewrite (proj2 (Nat.eqb_eq (S i) _)) by lia.
  all: rewrite (go_index_n_some _ _ _ Ea); mrun.
  all: match goal with |- context [set_cur ?s0 ?r1] =>
         assert (HQ1 : Q r1) by (repeat (apply HQa || apply HQn); exact HQ);
         destruct (Hrec i a b (set_cur s0 r1) r1 Ea Eb (HP _ _ HPs) (cur_set_cur _ _) HQ1 eq_refl)
           as (id' & Hid' & Hpost);
         assert (N : norm_addr (setb r1 b) = norm_addr (setb rref b))
           by (rewrite !Hnorm, <- Hn; reflexivity)
       end.
  all: apply (readDT_loop_norm (cg_CycleCount d) _ _ (s_measure s)) in N.
  all: autorewrite with mstate in Hid'; unfold child_post in Hpost; autorewrite with mstate in Hpost.
  all: destruct (cv_compressedHL (s_var s)) eqn:Ehl;
       [|injection Hid' as <-; rewrite Hid by reflexivity]; mrun.
  all: destruct (readDT_loop _ (setb rref b) _) as [[rr mm]|ee'];
       destruct (readDT_loop _ (setb _ b) (s_measure s)) as [[r' m']|ee] eqn:Eloop;
       cbn in N; try discriminate.
  all: try (rewrite Hpost; cbn; congruence).
  all: destruct Hpost as (s' & -> & HPs' & Hc' & Hm' & Hv'); apply Ok_pair_inj in N as [N <-].
  all: pose proof (HQloop _ _ _ _ _ HQ1 Eloop) as HQ'; rewrite <- Hv', <- Hm'.
  all: try (apply (IH (S i) _ s' r'); [lia|lia|rewrite Hv'; autorewrite with mstate; congruence|
                                       assumption..]; fail).
  all: assert (Hd : drop (S i) bufs = []) by (apply drop_ge; lia); rewrite Hd; cbn [app].
  all: try (rewrite <- (app_nil_l tail), <- Hd;
            apply (IH (S i) _ s' r'); [lia|intros _; apply Hend; assumption|
                        rewrite Hv'; autorewrite with mstate; congruence|assumption..]).
  all: match goal with Hne : dl_next dtl <> 0 |- _ => destruct (Hcont Hne) as (dtl' & Hdl' & Hsim) end.
  all: rewrite Hdl'; cbn [rbind].
  all: apply (Hsim _ _ _ r'); [lia|rewrite Hv'; autorewrite with mstate; congruence|assumption..].
Qed.

End DLSim.

(** ** Chains of DL blocks *)

Section DLChain.
Context {F : Type} `{BlockSource F} `{Decompressor}.
Variables (file : F) (d : channel_desc) (rec : string -> M unit) (P : st -> Prop) (id0 : string).
Variables (B : Type) (setb : reader -> B -> reader) (Q : reader -> Prop).

(** The contract of one child block at address [a] whose rows are in [b]. *)
Definition child_ok (a : Z) (b : B) : Prop :=
  forall s r, P s -> cur s = Some r -> Q r -> DataAddress r = a ->
  exists id', (if cv_compressedHL (s_var s) then GetHeaderID file a else Ok id0) = Ok id' /\
              child_post d P (rec id' s) s (setb r b).

(** A DL block of the chain: children, [Data.Count] their number, each
    child meeting [R] with its buffer. *)
Definition dl_node {A} (R : Z -> A -> Prop) (n : dl_block) (bs : list A) : Prop :=
  dl_data n <> [] /\ dl_count n = Z.of_nat (length (dl_data n)) /\ Forall2 R (dl_data n) bs.

(** [n] is followed through [dtl.Next()] by the blocks [rest], the last
    one's [Next()] being 0. *)
Fixpoint dl_chain (n : dl_block) (rest : list dl_block) : Prop :=
  match rest with
  | [] => dl_next n = 0
  | n' :: rest' => dl_next n <> 0 /\ DL_New file (dl_next n) = Ok n' /\ dl_chain n' rest'
  end.

Hypothesis HP : forall s r, P s -> P (set_cur s r).
Hypothesis Hnorm : forall r b, norm_addr (setb r b) = setb (norm_addr r) b.
Hypothesis HQa : forall r a, Q r -> Q (set_DataAddress r a).
Hypothesis HQn : forall r a, Q r -> Q (set_NextDataAddress r a).
Hypothesis HQloop : forall r b m r' m',
  Q r -> readDT_loop (cg_CycleCount d) (setb r b) m = Ok (r', m') -> Q r'.

Lemma dl_chain_sim nodes : forall n bs bufss k id s r rref,
  dl_chain n nodes -> Forall2 (dl_node child_ok) (n :: nodes) (bs :: bufss) ->
  (length (concat (bs :: bufss)) <= k)%nat ->
  (cv_compressedHL (s_var s) = false -> id = id0) ->
  P s -> cur s = Some r -> Q r -> norm_addr r = norm_addr rref ->
  sim P (dl_loop file rec k n 0 id s)
      (read_bufs setb (cg_CycleCount d) rref (concat (bs :: bufss)) (s_measure s)) (s_var s).
Proof.
  induction nodes as [|n' nodes IH]; intros n bs bufss k id s r rref Hch HF Hk Hid HPs Hc HQ Hn;
    inversion HF as [|? ? ? ? (Hne & Hcnt & HFc) HF']; subst;
    inversion HF' as [|? bs' ? bufss' Hn' HF'']; subst;
    pose proof (Forall2_length_eq _ _ _ HFc) as Hlen; cbn [concat] in *;
    rewrite <- (drop_0 bs); apply (dl_loop_sim file d rec P B setb Q n id0) with (r := r); auto;
    try (intros j a b s1 r1 Ea Eb; apply (Forall2_nth_error _ _ _ j a b HFc Ea Eb)).
  all: try (destruct (dl_data n); cbn in *; [congruence|lia]).
  all: cbn [dl_chain] in Hch; try (rewrite app_nil_r; auto; fail).
  all: rewrite ?app_nil_r, ?length_app in *; cbn [length] in *; try lia.
  destruct Hch as (Hnz & Hdl & Hch). intros _. exists n'. split; [exact Hdl|].
  intros. eapply IH; eauto. cbn [concat]. rewrite ?length_app in *. lia.
Qed.

End DLChain.

(** ** Shared steps of the theorems *)

Lemma sim_measure P (x : result (unit * st)) y v :
  sim P x y v -> (let* '(_, s') := x in Ok (s_measure s')) = measure_of y.
Proof.
  destruct x as [[[] s']|e], y as [[r' m']|e']; cbn; try contradiction.
  - intros (r'' & _ & _ & _ & -> & _). reflexivity.
  - intros ->. reflexivity.
Qed.

Lemma read_chunks_buffer cc r b0 bufs m :
  bufs <> [] -> read_chunks cc (set_MeasureBuffer r b0) bufs m = read_chunks cc r bufs m.
Proof. destruct bufs as [|b bs]; [congruence|reflexivity]. Qed.

Lemma read_slices_buffer cc r b0 bufs m :
  bufs <> [] -> read_slices cc (set_MeasureSlice r b0) bufs m = read_slices cc r bufs m.
Proof. destruct bufs as [|b bs]; [congruence|reflexivity]. Qed.

Section Top.
Context {F : Type} `{BlockSource F} `{Decompressor}.
Variables (file : F) (d : channel_desc).

(** A child dispatched to the row loop on its buffer meets [child_post]
    when the state it runs from differs from the loop's only in what [P]
    and the row loop ignore. *)
Lemma child_post_rows (P : st -> Prop) s0 s r :
  (forall s r m, P s -> P (set_measure (set_cur s r) m)) -> P s0 ->
  s_measure s0 = s_measure s -> s_var s0 = s_var s ->
  child_post d P (rows_post d s0 r) s r.
Proof.
  intros HP HP0 Hm Hv. unfold child_post, rows_post. rewrite Hm.
  destruct readDT_loop as [[r' m']|e]; cbn; [|reflexivity].
  exists (set_measure (set_cur s0 r') m'). autorewrite with mstate. auto.
Qed.

(** [RawSample] up to the dispatch of the first block: a fresh reader
    on the start address, an empty measure. *)
Lemma RawSample_start fuel s id :
  GetHeaderID file (loadDataAdress d) = Ok id ->
  res_fst (RawSample file d fuel s) =
  let* '(_, s') := extractSample file d fuel id
     (set_measure (alloc_st s (reader0 d (loadDataAdress d) (default nil_slice (h_cache (s_heap s))))) []) in
  Ok (s_measure s').
Proof.
  intros Hid. unfold RawSample, loadChannelReader. mrun.
  destruct extractSample as [[[] s']|e]; reflexivity.
Qed.

Lemma rows_post_measure s r :
  (let* '(_, s') := rows_post d s r in Ok (s_measure s')) =
  measure_of (readDT_loop (cg_CycleCount d) r (s_measure s)).
Proof. unfold rows_post. destruct readDT_loop as [[r' m']|e]; cbn; autorewrite with mstate; reflexivity. Qed.

(** A single DT block: the row loop on its data section, in a buffer
    without spare capacity. *)
Lemma RawSample_DT_eq fuel s n buf :
  cn_IsVLSD d = false -> h_cache (s_heap s) = None ->
  GetHeaderID file (loadDataAdress d) = Ok DtID ->
  GetLength file (loadDataAdress d) = Ok n -> 0 <= n -> ReadData file (loadDataAdress d) n = Ok buf ->
  res_fst (RawSample file d (S fuel) s) =
  measure_of (readDT_loop (cg_CycleCount d) (reader0 d (loadDataAdress d) (slice_of buf)) []).
Proof.
  intros Hv Hc Hid Hl Hn Hr. rewrite (RawSample_start _ _ _ Hid).
  rewrite (extractSample_DT_nocache file d fuel _ (reader0 d (loadDataAdress d) (default nil_slice (h_cache (s_heap s)))) n buf)
    by (autorewrite with mstate; rewrite ?Hc; auto).
  rewrite rows_post_measure. autorewrite with mstate. rewrite Hc. reflexivity.
Qed.

(** A DT block when the data group has a cached slice: the row loop on
    the cache, the block itself never read. *)
Lemma RawSample_DT_cached fuel s c :
  cn_IsVLSD d = false -> h_cache (s_heap s) = Some c ->
  GetHeaderID file (loadDataAdress d) = Ok DtID ->
  res_fst (RawSample file d (S fuel) s) =
  measure_of (readDT_loop (cg_CycleCount d) (reader0 d (loadDataAdress d) c) []).
Proof.
  intros Hv Hc Hid. rewrite (RawSample_start _ _ _ Hid).
  rewrite (extractSample_DT_cached file d fuel _ (reader0 d (loadDataAdress d) (default nil_slice (h_cache (s_heap s)))) c)
    by (autorewrite with mstate; auto).
  rewrite rows_post_measure. autorewrite with mstate. rewrite Hc. reflexivity.
Qed.

(** A DZ block replacing a DT block: the row loop on the inflated
    slice, its spare capacity included. *)
Lemma RawSample_DZ_eq fuel s dz buf :
  cn_IsVLSD d = false ->
  GetHeaderID file (loadDataAdress d) = Ok DzID ->
  DZ_New file (loadDataAdress d) = Ok dz -> dz_modified dz = DtID ->
  Deflate (dz_payload dz) = (Some buf, None) ->
  res_fst (RawSample file d (S (S fuel)) s) =
  measure_of (readDT_loop (cg_CycleCount d) (reader0 d (loadDataAdress d) buf) []).
Proof.
  intros Hv Hid Hz Hm Hd. rewrite (RawSample_start _ _ _ Hid).
  rewrite (extractSample_DZ_DT file d fuel _ (reader0 d (loadDataAdress d) (default nil_slice (h_cache (s_heap s)))) dz buf)
    by (autorewrite with mstate; auto).
  rewrite rows_post_measure. autorewrite with mstate. reflexivity.
Qed.

(** The invariant of a plain DL list: no cache, no HL flag. *)
Definition plain (s : st) : Prop := h_cache (s_heap s) = None /\ cv_compressedHL (s_var s) = false.

(** The invariant of an HL list: the HL flag set. *)
Definition under_hl (s : st) : Prop := cv_compressedHL (s_var s) = true.

(** The reader of a plain DL list: a buffer without spare capacity. *)
Definition no_spare (r : reader) : Prop := MeasureSpare r = [].

Lemma dl_node_mono {A} (R R' : Z -> A -> Prop) n bs :
  (forall a b, R a b -> R' a b) -> dl_node R n bs -> dl_node R' n bs.
Proof. intros HR (Hne & Hc & HF). repeat split; auto. eapply Forall2_mono; eauto. Qed.

(** A DT child: its data section is [b]. *)
Definition dt_child (a : Z) (b : list Byte.byte) : Prop :=
  GetLength file a = Ok (Z.of_nat (length b)) /\ ReadData file a (Z.of_nat (length b)) = Ok b.

(** A DZ child replacing a DT block: its payload inflates to the slice
    [b]. *)
Definition dz_child (a : Z) (b : byte_slice) : Prop :=
  GetHeaderID file a = Ok DzID /\
  match DZ_New file a with
  | Ok dz => dz_modified dz = DtID /\ Deflate (dz_payload dz) = (Some b, None)
  | Err _ => False
  end.

Lemma dt_child_ok f a b :
  cn_IsVLSD d = false -> dt_child a b ->
  child_ok file d (extractSample file d (S f)) plain DtID _ set_MeasureBuffer no_spare a b.
Proof.
  intros Hv [Hl Hr] s1 r1 [Hc1 Hv1] Hr1 HQ Ha. rewrite Hv1. exists DtID. split; [reflexivity|]. subst a.
  rewrite (extractSample_DT_nocache file d f s1 r1 (Z.of_nat (length b)) b) by (auto; lia).
  apply child_post_rows; [|split|..]; auto.
Qed.

Lemma dz_child_ok f a b id :
  cn_IsVLSD d = false -> dz_child a b ->
  child_ok file d (extractSample file d (S (S f))) under_hl id _ set_MeasureSlice (fun _ => True) a b.
Proof.
  intros Hv (Hz & Hdz) s1 r1 Hv1 Hr1 _ Ha. unfold under_hl in *. rewrite Hv1. subst a.
  destruct (DZ_New file (DataAddress r1)) as [dz|e] eqn:Edz; [destruct Hdz as [Hm Hdf]|contradiction].
  exists DzID. split; [exact Hz|].
  rewrite (extractSample_DZ_DT file d f s1 r1 dz b) by auto.
  apply child_post_rows; unfold under_hl; autorewrite with mstate; auto.
Qed.

Lemma no_spare_loop r b m r' m' :
  no_spare r -> readDT_loop (cg_CycleCount d) (set_MeasureBuffer r b) m = Ok (r', m') -> no_spare r'.
Proof. unfold no_spare. intros Hs E. rewrite (readDT_loop_spare _ _ _ _ _ E). exact Hs. Qed.

(** C6: A channel whose data is a chain of DL blocks (linked through
    [Next], the last one's [Next] 0) listing DT blocks reads, with fuel
    one more than the number of DT blocks, the rows of the DT blocks'
    data sections read one after the other, the misalignment of each
    block carried to the next: [read_chunks] over the concatenation of
    the chain's children. *)
Theorem RawSample_DL_chain f s n0 nodes bs bufss a0 :
  cn_IsVLSD d = false -> h_cache (s_heap s) = None -> cv_compressedHL (s_var s) = false ->
  GetHeaderID file (loadDataAdress d) = Ok DlID -> DL_New file (loadDataAdress d) = Ok n0 ->
  dl_chain file n0 nodes -> Forall2 (dl_node dt_child) (n0 :: nodes) (bs :: bufss) ->
  hd_error (dl_data n0) = Some a0 -> GetHeaderID file a0 = Ok DtID ->
  (length (concat (bs :: bufss)) <= S f)%nat ->
  res_fst (RawSample file d (S (S f)) s) =
  measure_of (read_chunks (cg_CycleCount d) (reader0 d a0 nil_slice) (concat (bs :: bufss)) []).
Proof.
  intros Hv Hc Hhl Hid Hdl Hch HF Ha0 Hid0 Hk.
  destruct (dl_data n0) as [|a0' rest] eqn:Hd; cbn in Ha0; [discriminate|injection Ha0 as <-].
  rewrite (RawSample_start _ _ _ Hid), extractSample_fixed, with_copy_measure by exact Hv. tag_case.
  rewrite (readDataList_ok _ _ _ _ _ (reader0 d (loadDataAdress d) (default nil_slice (h_cache (s_heap s))))
             n0 a0' rest DtID) by (autorewrite with mstate; auto).
  rewrite read_chunks_bufs.
  eapply sim_measure, (dl_chain_sim file d _ plain DtID _ set_MeasureBuffer no_spare);
    autorewrite with mstate; eauto using no_spare_loop.
  - eapply Forall2_mono; [|exact HF]. intros n bs1. apply dl_node_mono. intros a b. apply dt_child_ok, Hv.
  - unfold plain. autorewrite with mstate. auto.
  - unfold no_spare. cbn. rewrite Hc. reflexivity.
  - rewrite Hc. reflexivity.
Qed.

(** C8: A channel whose data is an HL block heading a DL chain of DZ
    blocks (each replacing a DT block) reads the rows of the inflated
    slices one after the other: each child's tag is read again, each
    payload inflated, and its slice, with the spare capacity
    [io.ReadAll] left, dispatched as DT ([read_slices]). *)
Theorem RawSample_HL_chain f s first n0 nodes bs bufss a0 :
  cn_IsVLSD d = false ->
  GetHeaderID file (loadDataAdress d) = Ok HlID -> HL_New file (loadDataAdress d) = Ok first ->
  DL_New file first = Ok n0 ->
  dl_chain file n0 nodes -> Forall2 (dl_node dz_child) (n0 :: nodes) (bs :: bufss) ->
  hd_error (dl_data n0) = Some a0 ->
  (length (concat (bs :: bufss)) <= S (S f))%nat ->
  res_fst (RawSample file d (S (S (S (S f)))) s) =
  measure_of (read_slices (cg_CycleCount d) (reader0 d a0 nil_slice) (concat (bs :: bufss)) []).
Proof.
  intros Hv Hid Hhl Hdl Hch HF Ha0 Hk.
  destruct (dl_data n0) as [|a0' rest] eqn:Hd; cbn in Ha0; [discriminate|injection Ha0 as <-].
  inversion HF as [|? ? ? ? (_ & _ & HF0) _]; subst. rewrite Hd in HF0.
  inversion HF0 as [|? b0 ? ? (Hid0 & _) _]; subst.
  set (c := default nil_slice (h_cache (s_heap s))).
  rewrite (RawSample_start _ _ _ Hid), extractSample_fixed, with_copy_measure by exact Hv. tag_case.
  rewrite (readHeaderList_ok file d _ _ (reader0 d (loadDataAdress d) c) first)
    by (autorewrite with mstate; auto).
  rewrite extractSample_fixed, with_copy_measure by exact Hv. tag_case.
  rewrite (readDataList_ok _ _ _ _ _ (reader0 d first c) n0 a0' rest DzID)
    by (autorewrite with mstate; auto).
  rewrite <- (read_slices_buffer _ _ c) by (cbn; congruence).
  eapply sim_measure, (dl_chain_sim file d _ under_hl DzID _ set_MeasureSlice (fun _ => True));
    unfold under_hl; autorewrite with mstate; eauto.
  eapply Forall2_mono; [|exact HF]. intros n bs1. apply dl_node_mono. intros a b. apply dz_child_ok, Hv.
Qed.

End Top.

Section Equiv.
Context {F : Type} `{BlockSource F} `{Decompressor}.
Variable d : channel_desc.

(** C7: A DZ block replacing a DT block is read as the DT block holding
    its inflated payload would be, when every field of the rows that
    start in the payload ends in it: compressing a block then does not
    change the samples.  (A field that straddles the end of the payload
    is read from the spare capacity of the inflated slice on the DZ
    path, where the DT path panics.) *)
Theorem RawSample_DZ_equiv (fdz fdt : F) fuel s dz buf :
  cn_IsVLSD d = false -> h_cache (s_heap s) = None ->
  0 < cg_DataBytes d -> 0 <= cn_ByteOffset d + dg_RecordIDSize d -> 0 <= cn_SignalBytesRange d ->
  GetHeaderID fdz (loadDataAdress d) = Ok DzID -> DZ_New fdz (loadDataAdress d) = Ok dz ->
  dz_modified dz = DtID -> Deflate (dz_payload dz) = (Some buf, None) ->
  fields_fit (reader0 d (loadDataAdress d) (slice_of (sl_elems buf))) ->
  GetHeaderID fdt (loadDataAdress d) = Ok DtID ->
  GetLength fdt (loadDataAdress d) = Ok (Z.of_nat (length (sl_elems buf))) ->
  ReadData fdt (loadDataAdress d) (Z.of_nat (length (sl_elems buf))) = Ok (sl_elems buf) ->
  res_fst (RawSample fdz d (S (S fuel)) s) = res_fst (RawSample fdt d (S (S fuel)) s).
Proof.
  intros Hv Hc HR Hs Hz Hz0 Hdz Hm Hd Hfit Ht Hl Hr.
  rewrite (RawSample_DZ_eq fdz d fuel s dz buf),
    (RawSample_DT_eq fdt d (S fuel) s (Z.of_nat (length (sl_elems buf))) (sl_elems buf)) by (auto; lia).
  rewrite <- (readDT_loop_spare_irrelevant _ (reader0 d (loadDataAdress d) (slice_of (sl_elems buf)))
               (sl_spare buf)) by assumption.
  destruct buf. reflexivity.
Qed.

End Equiv.

(** ** Defects, on concrete files

    Examples of the findings, evaluated on small files. *)

(** A DL list of a DT block and of a DZ block replacing a DT block. *)
Definition dz_child_blk : blk := dz_blk "DT" 2 (bytes_of [7; 8]).
Definition file_mixed : block_map :=
  <[100 := dl_blk 0 [200; 300]]> (<[200 := dt_blk (bytes_of [1; 2])]> (<[300 := dz_child_blk]> ∅)).

(** In a DL list the tag of the first child decides how every child is
    read: a DZ child after a DT child is not inflated, its raw data
    section (the DZ header fields and the compressed bytes) is decoded
    as records, whatever the decompressor.  (The general statement is
    [RawSample_DL_chain], whose children are given by their data
    sections whatever their tags.) *)
Theorem RawSample_DL_mixed_raw (D : Decompressor) :
  res_fst (RawSample (H0 := D) file_mixed d_u8 6 st0) =
  Ok (map (fun b => VUint8 (bval b)) (bytes_of [1; 2] ++ blk_data dz_child_blk)).
Proof. vm_compute. reflexivity. Qed.

(** An HL block heading a DL list of a DZ block and then a DT block. *)
Definition file_hl_mixed : block_map :=
  <[100 := hl_blk 150]> (<[150 := dl_blk 0 [200; 300]]>
    (<[200 := dz_blk "DT" 2 (bytes_of [7; 8])]> (<[300 := dt_blk (bytes_of [1; 2; 3])]> ∅))).

(** Once a DZ block has filled the data group's cache, a later DT block
    of the list is never read: [readDT] sees the cache and decodes the
    inflated buffer of the earlier block again. *)
Theorem RawSample_HL_stale_cache :
  res_fst (RawSample (H0 := stored) file_hl_mixed d_u8 8 st0) =
  Ok [VUint8 7; VUint8 8; VUint8 7; VUint8 8].
Proof. vm_compute. reflexivity. Qed.

(** A [uint16] channel, little endian, 2-byte records. *)
Definition d_u16 : channel_desc := mkDesc false LittleEndian 2 TUint16 0 16 0 0 2 100 0 100.

(** A record straddling the end of an inflated block is read from the
    spare capacity of the slice [io.ReadAll] returned (here the byte
    [05]), while the same bytes stored as a DT block make the read of
    that record panic. *)
Lemma RawSample_DZ_reads_spare :
  res_fst (RawSample (H0 := stored_spare (bytes_of [5]))
             (<[100 := dz_blk "DT" 3 (bytes_of [7; 8; 9])]> ∅) d_u16 3 st0) =
    Ok [VUint16 2055; VUint16 1289] /\
  res_fst (RawSample (H0 := stored_spare (bytes_of [5]))
             (<[100 := dt_blk (bytes_of [7; 8; 9])]> ∅) d_u16 3 st0) =
    Err (EPanic "slice bounds out of range").
Proof. split; vm_compute; reflexivity. Qed.

(** ** Witnesses *)

(** The chain of the specification: two full DL blocks and a partial
    one. *)
Definition file_chain : block_map :=
  <[100 := dl_blk 400 [200; 300]]> (<[400 := dl_blk 700 [500; 600]]> (<[700 := dl_blk 0 [800]]>
  (<[200 := dt_blk (bytes_of [1; 2])]> (<[300 := dt_blk (bytes_of [3])]>
  (<[500 := dt_blk (bytes_of [4; 5])]> (<[600 := dt_blk (bytes_of [6])]>
  (<[800 := dt_blk (bytes_of [7])]> ∅))))))).

Ltac chain_facts :=
  unfold dl_node, dt_child, dz_child;
  repeat (apply Forall2_cons || apply Forall2_nil || split); try discriminate;
  try (vm_compute; repeat split; reflexivity).

Lemma RawSample_DL_chain_witness :
  res_fst (RawSample (H0 := stored) file_chain d_u8 6 st0) =
  measure_of (read_chunks 100 (reader0 d_u8 200 nil_slice)
    [bytes_of [1; 2]; bytes_of [3]; bytes_of [4; 5]; bytes_of [6]; bytes_of [7]] []).
Proof.
  apply (RawSample_DL_chain (H0 := stored) file_chain d_u8 4 st0 (mkDL 400 [200; 300] 2)
           [mkDL 700 [500; 600] 2; mkDL 0 [800] 1] [bytes_of [1; 2]; bytes_of [3]]
           [[bytes_of [4; 5]; bytes_of [6]]; [bytes_of [7]]]); chain_facts.
Defined.

Definition file_hl : block_map :=
  <[100 := hl_blk 150]> (<[150 := dl_blk 0 [200; 300]]>
    (<[200 := dz_blk "DT" 2 (bytes_of [7; 8])]> (<[300 := dz_blk "DT" 1 (bytes_of [9])]> ∅))).

Lemma RawSample_HL_chain_witness :
  res_fst (RawSample (H0 := stored) file_hl d_u8 4 st0) =
  measure_of (read_slices 100 (reader0 d_u8 200 nil_slice)
    [slice_of (bytes_of [7; 8]); slice_of (bytes_of [9])] []).
Proof.
  apply (RawSample_HL_chain (H0 := stored) file_hl d_u8 0 st0 150 (mkDL 0 [200; 300] 2) []
           [slice_of (bytes_of [7; 8]); slice_of (bytes_of [9])] []); chain_facts.
Defined.

Lemma RawSample_DZ_equiv_witness :
  res_fst (RawSample (H0 := stored) (<[100 := dz_blk "DT" 2 (bytes_of [7; 8])]> ∅) d_u8 2 st0) =
  res_fst (RawSample (H0 := stored) (<[100 := dt_blk (bytes_of [7; 8])]> ∅) d_u8 2 st0).
Proof.
  apply (RawSample_DZ_equiv (H0 := stored) d_u8 _ _ 0 st0 (mkDZ DtID (bytes_of [7; 8]))
           (slice_of (bytes_of [7; 8])));
    first [vm_compute; reflexivity | cbn; lia
          | unfold fields_fit; intros k Hk; vm_compute in Hk; cbn; lia].
Defined.

(** The stream of the specification's scenario split into three blocks
    at bytes 3 and 8, neither of them a row boundary. *)
Lemma read_chunks_concat_witness :
  measure_of (read_chunks 3 (u16_reader []) [bytes_of [1; 0; 170]; bytes_of [170; 2; 0; 187; 187];
                                              bytes_of [3; 0; 204; 204]] []) =
  measure_of (readDT_loop 3 (set_MeasureBuffer (u16_reader [])
                (concat [bytes_of [1; 0; 170]; bytes_of [170; 2; 0; 187; 187]; bytes_of [3; 0; 204; 204]])) []).
Proof.
  apply read_chunks_concat; try (cbn; lia); try (vm_compute; lia).
  - intros j Hj. cbn in Hj. destruct j as [|[|[|j]]]; try lia; vm_compute; lia.
  - intros j Hj. cbn in Hj. destruct j as [|[|[|j]]]; try lia; cbn zeta; intros p Hp; vm_compute in Hp;
      repeat destruct Hp as [<-|Hp]; try contradiction; cbn; lia.
Defined.

End Chains.
