(* ===== verification/Orchestrator.v ===== *)
(** * The sample orchestrator of [src/channel.go]

    [Sample] serves the channel's cache when it holds samples (converting
    them first if they were not), and otherwise runs [RawSample] of
    [Dispatch], applies the conversion and caches the result unless the
    file is memory-optimized.  The theorems say what the cache promises:
    a second call returns what the first returned without reading the
    file again, a memory-optimized channel never caches, and an error of
    the read is the error of [Sample], with no partial result. *)

From Stdlib Require Import ZArith String Lia.
From stdpp Require Import gmap.
From S2P Require Import Prelude Decode Records Blocks State Dispatch.
Import Decode Records Blocks State Dispatch.

Open Scope Z_scope.

Module Orchestrator.

(** The fields of [Channel] that [Sample] reads and writes, with the
    dispatcher's state. *)
Record channel_state : Type := mkChan {
  c_st : st;
  c_CachedSamples : option (list value);
  c_isConverted : bool
}.

Section Orchestrator.
(** [c.Conversion] ([nil] or a conversion applied to the whole sample)
    and [c.mf4.IsMemoryOptimized()]. *)
Context {F : Type} `{BlockSource F} `{Decompressor}.
Variables (file : F) (d : channel_desc).
Variable Conversion : option (list value -> list value).
Variable memoryOptimized : bool.

(** [applyConversion(sample)]: the converted sample and [isConverted]. *)
Definition applyConversion (sample : list value) (isConverted : bool) : list value * bool :=
  match Conversion with
  | None => (sample, isConverted)
  | Some apply => (apply sample, true)
  end.

(** [Sample]: the cache when there is one (converted if it was not),
    otherwise [RawSample], the conversion, and the cache unless the file is
    memory-optimized. *)
Definition Sample (fuel : nat) (c : channel_state) : result (list value * channel_state) :=
  match c_CachedSamples c with
  | Some cached =>
      if negb (c_isConverted c) then
        let '(cached', ic) := applyConversion cached (c_isConverted c) in
        Ok (cached', mkChan (c_st c) (Some cached') ic)
      else Ok (cached, c)
  | None =>
      let* '(raw, s') := RawSample file d fuel (c_st c) in
      let '(smp, ic) := applyConversion raw (c_isConverted c) in
      Ok (smp, mkChan s' (if memoryOptimized then c_CachedSamples c else Some smp) ic)
  end.


(** ** Properties *)

(** C17: When the file is not memory-optimized, a second [Sample] returns
    what the first returned and leaves the channel as the first left it:
    the samples are cached, converted once, and the file is not read
    again, whatever the fuel. *)
Theorem Sample_idempotent fuel fuel' c v c' :
  memoryOptimized = false -> Sample fuel c = Ok (v, c') -> Sample fuel' c' = Ok (v, c').
Proof.
  intros Hm. unfold Sample, applyConversion. rewrite Hm.
  destruct (c_CachedSamples c) as [cached|] eqn:Ec.
  - destruct (c_isConverted c) eqn:Ei, Conversion as [f|]; cbn; intros E; injection E as <- <-;
      cbn; rewrite ?Ec, ?Ei; reflexivity.
  - destruct (RawSample file d fuel (c_st c)) as [[raw s']|e]; cbn; [|discriminate].
    destruct Conversion as [f|]; intros E; injection E as <- <-; cbn;
      [|destruct (c_isConverted c)]; reflexivity.
Qed.

(** On a memory-optimized file an uncached channel stays uncached:
    every [Sample] reads the file again. *)
Theorem Sample_memory_optimized fuel c v c' :
  memoryOptimized = true -> c_CachedSamples c = None -> Sample fuel c = Ok (v, c') ->
  c_CachedSamples c' = None.
Proof.
  intros Hm Hc. unfold Sample. rewrite Hm, Hc.
  destruct (RawSample file d fuel (c_st c)) as [[raw s']|e]; cbn; [|discriminate].
  destruct (applyConversion raw (c_isConverted c)). intros E. injection E as _ <-. reflexivity.
Qed.

(** C19: An error of the read is the error of [Sample]: no partial
    sample is returned and nothing is cached. *)
Theorem Sample_error fuel c e :
  c_CachedSamples c = None -> res_fst (RawSample file d fuel (c_st c)) = Err e -> Sample fuel c = Err e.
Proof.
  intros Hc. unfold Sample. rewrite Hc.
  destruct (RawSample file d fuel (c_st c)) as [[raw s']|e']; cbn; congruence.
Qed.

End Orchestrator.

(** ** Witnesses *)

(** One DT block of two records. *)
Definition file_dt : block_map := <[100 := dt_blk (bytes_of [5; 6])]> ∅.

Definition chan0 : channel_state := mkChan st0 None false.

Lemma Sample_idempotent_witness :
  match Sample (H0 := stored) file_dt d_u8 (Some (@rev value)) false 3 chan0 with
  | Ok (v, c') => Sample (H0 := stored) file_dt d_u8 (Some (@rev value)) false 7 c' = Ok (v, c')
  | Err _ => False
  end.
Proof.
  destruct (Sample (H0 := stored) file_dt d_u8 (Some (@rev value)) false 3 chan0) as [[v c']|e] eqn:E.
  - exact (Sample_idempotent file_dt d_u8 _ false 3 7 chan0 v c' eq_refl E).
  - vm_compute in E. discriminate.
Defined.

Lemma Sample_memory_optimized_witness :
  match Sample (H0 := stored) file_dt d_u8 None true 3 chan0 with
  | Ok (_, c') => c_CachedSamples c' = None
  | Err _ => False
  end.
Proof.
  destruct (Sample (H0 := stored) file_dt d_u8 None true 3 chan0) as [[v c']|e] eqn:E.
  - exact (Sample_memory_optimized file_dt d_u8 None true 3 chan0 v c' eq_refl eq_refl E).
  - vm_compute in E. discriminate.
Defined.

(** A channel whose data address holds no block: the tag cannot be
    read. *)
Lemma Sample_error_witness :
  Sample (H0 := stored) file_dt (mkDesc false LittleEndian 1 TUint8 0 8 0 0 1 100 0 999) None false 3 chan0
  = Err (EIO "EOF").
Proof. apply Sample_error; [reflexivity|vm_compute; reflexivity]. Defined.

End Orchestrator.
