(* ===== verification/Legacy.v ===== *)
(** * The legacy reader of [src/mf4.go]: [GetChannelSample] and [seekRead]

    [GetChannelSample] finds a channel by name in the channel groups of
    the file, then reads its [CycleCount] records directly from the file:
    it seeks to each record ([seekRead]), reads a buffer of
    [(BitCount + BitOffset) / 8] bytes, and decodes it with
    [encoding/binary] as the Go type [loadDataType] picks for that size.
    The file is an [*os.File] with a read cursor; [seekRead] prints the
    errors of [Seek] and [Read] and goes on, and the buffer is the same
    slice in every iteration.  The model keeps both: the file is its bytes
    and its cursor, and the buffer is threaded through the loop. *)

From Stdlib Require Import ZArith String Lia.
From stdpp Require Import gmap strings.
From S2P Require Import Prelude Decode Blocks.
Import Decode Blocks.

Open Scope Z_scope.

Module Legacy.

(** ** Data *)

(** An [*os.File]: its bytes and the offset of its cursor. *)
Record file : Type := mkFile { f_bytes : list Byte.byte; f_off : Z }.

(** The fields of a CN block [GetChannelSample] reads. *)
Record cn_block : Type := mkCN {
  cn_DataType : Z;
  cn_ByteOffset : Z;
  cn_BitCount : Z;
  cn_BitOffset : Z
}.

(** [ChannelGroup] of mf4.go: the channels by name ([Channels]), the CG
    fields [DataBytes] and [CycleCount], the DG fields [Link.Data] and
    [RecIDSize]. *)
Record channel_group : Type := mkGroup {
  cg_Channels : gmap string cn_block;
  cg_DataBytes : Z;
  cg_CycleCount : Z;
  dg_LinkData : Z;
  dg_RecIDSize : Z
}.

(** ** Operations *)

(** [file.Seek(addr, 0)]: a negative offset is an error, which the code
    prints; the cursor stays where it was. *)
Definition seek (f : file) (addr : Z) : file :=
  if addr <? 0 then f else mkFile (f_bytes f) addr.

(** [file.Read(data)]: the bytes from the cursor, at most [len(data)] of
    them, overwrite the front of [data]; at the end of the file nothing is
    read (an [io.EOF] the code ignores). *)
Definition read (f : file) (data : list Byte.byte) : file * list Byte.byte :=
  let avail := drop (Z.to_nat (f_off f)) (f_bytes f) in
  let n := Nat.min (length data) (length avail) in
  (mkFile (f_bytes f) (f_off f + Z.of_nat n), take n avail ++ drop n data).

(** [seekRead(file, readAddr, data)]. *)
Definition seekRead (f : file) (readAddr : Z) (data : list Byte.byte) : file * list Byte.byte :=
  read (seek f readAddr) data.

(** The value [binary.Read] decodes from the first [width] bytes. *)
Definition fixed_value (bo : byte_order) (dt : dtype) (b : list Byte.byte) : value :=
  let z := window_value bo b in
  match dt with
  | TUint8 => VUint8 z
  | TInt8 => VInt8 (int_w 8 z)
  | _ => wide_value dt z
  end.

(** [binary.Read(bytes.NewBuffer(data), byteOrder, sliceElem)] on a fixed
    size type: [io.EOF] on an empty buffer, [io.ErrUnexpectedEOF] on a
    buffer shorter than the type, otherwise the value of its first bytes. *)
Definition binary_read (bo : byte_order) (dt : dtype) (data : list Byte.byte) : result value :=
  let w := Z.to_nat (width dt) in
  if (length data =? 0)%nat then Err (EIO "EOF")
  else if (length data <? w)%nat then Err (EIO "unexpected EOF")
  else Ok (fixed_value bo dt (take w data)).

(** The byte order of [GetChannelSample]: little endian for the codes
    0, 2, 4, 8 and 15. *)
Definition legacy_order (dataType : Z) : byte_order :=
  if (dataType =? 0) || (dataType =? 2) || (dataType =? 4) || (dataType =? 8) || (dataType =? 15)
  then LittleEndian else BigEndian.

(** The [for i < CycleCount] loop of [GetChannelSample], [k] iterations
    left; the file and the buffer carry over from one record to the
    next. *)
Fixpoint legacy_rows (k : nat) (f : file) (readAddr : Z) (data : list Byte.byte)
    (bo : byte_order) (dt : dtype) (rowSize : Z) (sample : list value) : result (list value) * file :=
  match k with
  | O => (Ok sample, f)
  | S k' =>
      let '(f', data') := seekRead f readAddr data in
      match binary_read bo dt data' with
      | Err _ => (Err (EParse "parsing channel error"), f')
      | Ok v => legacy_rows k' f' (readAddr + rowSize) data' bo dt rowSize (sample ++ [v])
      end
  end.

(** The body of [GetChannelSample] for the group that has the channel:
    [reflect.New] of the [nil] type [loadDataType] returns for a size it
    does not know panics before the loop. *)
Definition read_channel (g : channel_group) (cn : cn_block) (f : file) : result (list value) * file :=
  let readAddr := HeaderSize + dg_LinkData g + dg_RecIDSize g + cn_ByteOffset cn in
  let size := uint_w 32 (cn_BitCount cn + cn_BitOffset cn) / 8 in
  let data := repeat Byte.x00 (Z.to_nat size) in
  let dt := loadDataType (cn_DataType cn) (Z.of_nat (length data)) in
  if dt is TNil then (Err (EPanic "reflect: New(nil)"), f)
  else legacy_rows (Z.to_nat (cg_CycleCount g)) f readAddr data (legacy_order (cn_DataType cn)) dt
         (cg_DataBytes g) [].

(** [GetChannelSample(channelName)]: the first group, in the order of
    [m.ChannelGroup], whose [Channels] map has the name. *)
Fixpoint GetChannelSample (groups : list channel_group) (name : string) (f : file)
    : result (list value) * file :=
  match groups with
  | [] => (Err EChannelNotFound, f)
  | g :: gs =>
      match cg_Channels g !! name with
      | Some cn => read_channel g cn f
      | None => GetChannelSample gs name f
      end
  end.

(** [ChannelNames()]: the names of every group, group by group.  Go
    visits a map in an unspecified order; [map_to_list] is one such
    order, and the theorems about the names do not depend on it. *)
Definition ChannelNames (groups : list channel_group) : list string :=
  concat (map (fun g => map fst (map_to_list (cg_Channels g))) groups).

(** ** Lemmas *)

Lemma seekRead_full f addr data :
  0 <= addr -> addr + Z.of_nat (length data) <= Z.of_nat (length (f_bytes f)) ->
  seekRead f addr data =
  (mkFile (f_bytes f) (addr + Z.of_nat (length data)),
   take (length data) (drop (Z.to_nat addr) (f_bytes f))).
Proof.
  intros Ha Hl. unfold seekRead, seek, read. zcase; [lia|]. cbn.
  rewrite length_drop, Nat.min_l by lia. rewrite drop_all, app_nil_r. reflexivity.
Qed.

Lemma binary_read_ok bo dt data :
  (1 <= Z.to_nat (width dt) <= length data)%nat ->
  binary_read bo dt data = Ok (fixed_value bo dt (take (Z.to_nat (width dt)) data)).
Proof.
  intros Hw. unfold binary_read.
  rewrite (proj2 (Nat.eqb_neq _ _)), (proj2 (Nat.ltb_ge _ _)) by lia. reflexivity.
Qed.

(** The codes from 6 on have no Go type in [loadDataType]. *)
Lemma loadDataType_high code size : 6 <= code -> loadDataType code size = TNil.
Proof. intros Hc. unfold loadDataType. repeat rewrite (proj2 (Z.eqb_neq code _)) by lia. reflexivity. Qed.

Lemma width_pos dt : 1 <= width dt.
Proof. destruct dt; cbn; lia. Qed.

Lemma legacy_rows_length k f a data bo dt R sample l :
  fst (legacy_rows k f a data bo dt R sample) = Ok l -> length l = (length sample + k)%nat.
Proof.
  revert f a data sample. induction k as [|k IH]; intros f a data sample; cbn [legacy_rows].
  - intros E. injection E as <-. lia.
  - destruct (seekRead f a data) as [f' data'].
    destruct (binary_read bo dt data') as [v|e]; cbn [fst]; intros E; [|discriminate E].
    apply IH in E. rewrite length_app in E. cbn in E. lia.
Qed.

Section Rows.
Variables (bo : byte_order) (dt : dtype) (R : Z).

(** The value of the record at [a] of a file: the first [width] bytes
    there. *)
Definition row_at (bytes : list Byte.byte) (a : Z) : value :=
  fixed_value bo dt (take (Z.to_nat (width dt)) (drop (Z.to_nat a) bytes)).

(** When every record lies in the file and the buffer is as wide as the
    type, the loop returns the value of each record. *)
Lemma legacy_rows_full k f a data sample :
  0 <= a -> 0 <= R -> (Z.to_nat (width dt) <= length data)%nat ->
  (forall i, (i < k)%nat -> a + Z.of_nat i * R + Z.of_nat (length data) <= Z.of_nat (length (f_bytes f))) ->
  fst (legacy_rows k f a data bo dt R sample) =
  Ok (sample ++ map (fun i => row_at (f_bytes f) (a + Z.of_nat i * R)) (seq 0 k)).
Proof.
  pose proof (width_pos dt) as Hw1.
  revert f a data sample. induction k as [|k IH]; intros f a data sample Ha HR Hw Hin.
  - cbn. rewrite app_nil_r. reflexivity.
  - cbn [legacy_rows]. pose proof (Hin 0%nat ltac:(lia)) as H0.
    rewrite seekRead_full by lia.
    assert (Hl : length (take (length data) (drop (Z.to_nat a) (f_bytes f))) = length data)
      by (rewrite length_take, length_drop; lia).
    rewrite binary_read_ok by lia. rewrite IH; cbn [f_bytes]; rewrite ?Hl; try lia.
    + f_equal. rewrite <- app_assoc. f_equal. cbn [app seq map]. f_equal.
      * unfold row_at. rewrite take_take, Nat.min_l by lia. replace (a + Z.of_nat 0 * R) with a by lia. reflexivity.
      * rewrite <- seq_shift, map_map. apply map_ext. intros i. f_equal. lia.
    + intros i Hi. specialize (Hin (S i)). lia.
Qed.

End Rows.

(** ** Properties *)

(** C21: When the first group with the channel has all its records in the
    file and the buffer of [(BitCount + BitOffset) / 8] bytes is as wide
    as the type [loadDataType] picks, [GetChannelSample] returns, for
    each of the [CycleCount] records, the value of the first bytes of the
    record at [HeaderSize + Link.Data + RecIDSize + ByteOffset + i *
    DataBytes]. *)
Theorem GetChannelSample_rows g gs name cn f :
  cg_Channels g !! name = Some cn ->
  let size := uint_w 32 (cn_BitCount cn + cn_BitOffset cn) / 8 in
  let dt := loadDataType (cn_DataType cn) size in
  let a := HeaderSize + dg_LinkData g + dg_RecIDSize g + cn_ByteOffset cn in
  dt <> TNil -> 0 <= a -> 0 <= cg_DataBytes g -> 0 <= cg_CycleCount g ->
  a + (cg_CycleCount g - 1) * cg_DataBytes g + size <= Z.of_nat (length (f_bytes f)) ->
  fst (GetChannelSample (g :: gs) name f) =
  Ok (map (fun i => row_at (legacy_order (cn_DataType cn)) dt (f_bytes f) (a + Z.of_nat i * cg_DataBytes g))
          (seq 0 (Z.to_nat (cg_CycleCount g)))).
Proof.
  intros Hg size dt a Hdt Ha HR Hc Hin. cbn [GetChannelSample]. rewrite Hg. unfold read_channel.
  assert (Hs : 0 <= size)
    by (pose proof (uint_w_range 32 (cn_BitCount cn + cn_BitOffset cn)); apply Z.div_pos; lia).
  assert (Hw : width dt = size)
    by (destruct (loadDataType_width (cn_DataType cn) size) as [E|E]; [exfalso; apply Hdt; exact E|exact E]).
  rewrite repeat_length, Z2Nat.id by lia. fold size dt a. clearbody size dt a.
  assert (Hrows : forall i, (i < Z.to_nat (cg_CycleCount g))%nat ->
            a + Z.of_nat i * cg_DataBytes g + Z.of_nat (Z.to_nat size) <= Z.of_nat (length (f_bytes f)))
    by (intros i Hi; rewrite Z2Nat.id by lia; nia).
  destruct dt; try congruence.
  all: rewrite (legacy_rows_full _ _ _ _ f a) by (rewrite ?repeat_length; lia || exact Hrows).
  all: reflexivity.
Qed.

(** C22: [GetChannelSample] returns either an error or exactly
    [CycleCount] samples of a group that has the channel. *)
Theorem GetChannelSample_count groups name f l :
  fst (GetChannelSample groups name f) = Ok l ->
  exists g cn, In g groups /\ cg_Channels g !! name = Some cn /\ length l = Z.to_nat (cg_CycleCount g).
Proof.
  induction groups as [|g gs IH]; cbn; [discriminate|].
  destruct (cg_Channels g !! name) as [cn|] eqn:Eg.
  - unfold read_channel. destruct loadDataType; cbn; try discriminate.
    all: intros E; apply legacy_rows_length in E; exists g, cn; auto.
  - intros E. destruct (IH E) as (g' & cn & ? & ? & ?). exists g', cn. auto.
Qed.

(** C24: A channel whose data type code is 6 or more (strings, byte
    arrays, and the codes [loadDataType] does not list) makes
    [GetChannelSample] panic in [reflect.New] of the [nil] type, before
    any record is read. *)
Theorem GetChannelSample_nil_type_panics g gs name cn f :
  cg_Channels g !! name = Some cn -> 6 <= cn_DataType cn ->
  GetChannelSample (g :: gs) name f = (Err (EPanic "reflect: New(nil)"), f).
Proof.
  intros Hg Hd. cbn [GetChannelSample]. rewrite Hg. unfold read_channel.
  rewrite loadDataType_high by exact Hd. reflexivity.
Qed.

Lemma legacy_rows_not_found k f a data bo dt R sample :
  fst (legacy_rows k f a data bo dt R sample) <> Err EChannelNotFound.
Proof.
  revert f a data sample. induction k as [|k IH]; intros f a data sample; cbn [legacy_rows fst].
  - discriminate.
  - destruct (seekRead f a data) as [f' data'].
    destruct (binary_read bo dt data'); [apply IH|discriminate].
Qed.

Lemma in_ChannelNames name g gs :
  In name (ChannelNames (g :: gs)) <-> cg_Channels g !! name <> None \/ In name (ChannelNames gs).
Proof.
  unfold ChannelNames. cbn [map concat]. rewrite in_app_iff, in_map_iff.
  split; intros [H1|H1]; auto.
  - left. destruct H1 as ([k c] & <- & Hk). apply list_elem_of_In, elem_of_map_to_list in Hk.
    cbn. rewrite Hk. discriminate.
  - left. destruct (cg_Channels g !! name) as [c|] eqn:Ec; [|congruence].
    exists (name, c). split; [reflexivity|]. apply list_elem_of_In, elem_of_map_to_list. exact Ec.
Qed.

(** C23: [GetChannelSample] reports a missing channel exactly for the
    names [ChannelNames] does not list. *)
Theorem GetChannelSample_not_found_iff groups name f :
  fst (GetChannelSample groups name f) = Err EChannelNotFound <-> ~ In name (ChannelNames groups).
Proof.
  induction groups as [|g gs IH]; cbn [GetChannelSample].
  - cbn. tauto.
  - rewrite in_ChannelNames. destruct (cg_Channels g !! name) as [cn|] eqn:Eg.
    + split; [|intros Hn; exfalso; apply Hn; left; discriminate].
      unfold read_channel. destruct loadDataType; cbn [fst]; try discriminate.
      all: intros E; exfalso; exact (legacy_rows_not_found _ _ _ _ _ _ _ _ E).
    + rewrite IH. intuition congruence.
Qed.

(** C25: Records past the end of the file are not an error: once the
    reading address is at or past the end of the file, [seekRead]
    ignores the [io.EOF] of the read, the buffer keeps the bytes of the
    last record read, and every further record of the loop decodes to
    the value of that buffer again. *)
Theorem legacy_rows_past_eof k f a data bo dt R sample v :
  Z.of_nat (length (f_bytes f)) <= a -> 0 <= R -> binary_read bo dt data = Ok v ->
  fst (legacy_rows k f a data bo dt R sample) = Ok (sample ++ repeat v k).
Proof.
  intros Ha HR Hv. revert f a sample Ha. induction k as [|k IH]; intros f a sample Ha.
  - cbn. rewrite app_nil_r. reflexivity.
  - cbn [legacy_rows]. unfold seekRead, seek, read. zcase; [lia|]. cbn [f_bytes f_off].
    rewrite drop_ge by lia. cbn [length]. rewrite Nat.min_0_r, drop_0. cbn [take app].
    rewrite Hv, IH by (cbn; lia). rewrite <- app_assoc. reflexivity.
Qed.

(** ** Defects, on concrete files *)

(** A group of 2-byte records with one unsigned little-endian channel of
    [bitCount] bits, and a file holding one record. *)
Definition g_u16 (bitCount cycles : Z) : channel_group :=
  mkGroup {[ "speed" := mkCN 0 0 bitCount 0 ]} 2 cycles 0 0.
Definition f_one_row : file := mkFile (repeat Byte.x00 24 ++ bytes_of [52; 18]) 0.

(** An example: a file holding one record of a three-record channel. *)
Lemma GetChannelSample_past_eof_repeats :
  fst (GetChannelSample [g_u16 16 3] "speed" f_one_row) =
  Ok [VUint16 4660; VUint16 4660; VUint16 4660].
Proof. vm_compute. reflexivity. Qed.

(** An example of the rounded-down buffer size [(BitCount + BitOffset) / 8]: a
    12-bit channel gets a 1-byte buffer and the type [uint8], and
    [GetChannelSample] returns the low byte of the field, while the
    record reader's decoder of the 2-byte window returns the 12-bit
    value. *)
Lemma GetChannelSample_truncates_width :
  fst (GetChannelSample [g_u16 12 1] "speed" (mkFile (repeat Byte.x00 24 ++ bytes_of [52; 2]) 0)) =
    Ok [VUint8 52] /\
  parseSignalMeasure (bytes_of [52; 2]) LittleEndian TUint16 0 12 = Ok (VUint16 564).
Proof. split; vm_compute; reflexivity. Qed.

(** ** Witnesses *)

Definition g_rows : channel_group := mkGroup {[ "speed" := mkCN 0 0 16 0 ]} 2 2 0 0.
Definition f_two_rows : file := mkFile (repeat Byte.x00 24 ++ bytes_of [52; 18; 1; 0]) 0.

Lemma GetChannelSample_rows_witness :
  fst (GetChannelSample [g_rows] "speed" f_two_rows) =
  Ok (map (fun i => row_at LittleEndian TUint16 (f_bytes f_two_rows) (24 + Z.of_nat i * 2)) (seq 0 2)).
Proof. apply (GetChannelSample_rows g_rows [] "speed" (mkCN 0 0 16 0)); vm_compute; try reflexivity; discriminate. Defined.

Lemma GetChannelSample_count_witness :
  exists g cn, In g [g_rows] /\ cg_Channels g !! "speed" = Some cn /\ length [VUint16 4660; VUint16 1] = Z.to_nat (cg_CycleCount g).
Proof. apply (GetChannelSample_count [g_rows] "speed" f_two_rows). vm_compute. reflexivity. Defined.

Lemma GetChannelSample_not_found_iff_witness :
  fst (GetChannelSample [g_rows] "rpm" f_two_rows) = Err EChannelNotFound.
Proof. apply GetChannelSample_not_found_iff. vm_compute. intros [H|[]]. discriminate. Defined.

Lemma legacy_rows_past_eof_witness :
  fst (legacy_rows 2 f_two_rows 100 (bytes_of [52; 18]) LittleEndian TUint16 2 []) =
  Ok ([] ++ repeat (VUint16 4660) 2).
Proof. apply legacy_rows_past_eof; [cbn; lia | lia | reflexivity]. Defined.

Lemma GetChannelSample_nil_type_panics_witness :
  GetChannelSample [mkGroup {[ "name" := mkCN 6 0 64 0 ]} 8 1 0 0] "name" f_two_rows =
  (Err (EPanic "reflect: New(nil)"), f_two_rows).
Proof. apply (GetChannelSample_nil_type_panics _ [] "name" (mkCN 6 0 64 0)); [reflexivity|cbn; lia]. Defined.

End Legacy.
