(* ===== verification/Invalidation.v ===== *)
(** * The invalidation bit of [src/channel.go]: [readInvalidationBit]

    [readInvalidationBit] moves the file cursor forward by the record ID
    size plus the record's data bytes ([getInvalidationBitStart]),
    relative to where the cursor is ([io.SeekCurrent]), reads one byte,
    and tests the bit [InvalBitPos & 0x07] of it with [blocks.IsBitSet].
    The file is the one of [Legacy]: its bytes and its cursor.  The
    function is not called anywhere in the repository. *)

From Stdlib Require Import ZArith String Lia.
From stdpp Require Import list.
From S2P Require Import Prelude Legacy.
Import Legacy.

Open Scope Z_scope.

Module Invalidation.

(** The values the getters of [Channel] return: [RecordIDSize] of the
    data group (a [uint8]), [GetDataBytes] of the channel group (a
    [uint32]), [InvalBitPos] of the CN block (a [uint32]). *)
Record inval_src : Type := mkInval { i_RecordIDSize : Z; i_DataBytes : Z; i_InvalBitPos : Z }.

Definition getRecordIDSize (c : inval_src) : Z := i_RecordIDSize c.
Definition getDataBytes (c : inval_src) : Z := i_DataBytes c.
Definition getInvalidationBitPos (c : inval_src) : Z := i_InvalBitPos c.

(** [getInvalidationBitStart]. *)
Definition getInvalidationBitStart (c : inval_src) : Z := getRecordIDSize c + getDataBytes c.

(** [blocks.IsBitSet(num, pos)]: [num & (1 << pos) != 0]. *)
Definition IsBitSet (num pos : Z) : bool := negb (Z.land num (Z.shiftl 1 pos) =? 0).

(** [file.Seek(offset, io.SeekCurrent)]: a negative result is an error. *)
Definition seek_current (f : file) (offset : Z) : result file :=
  let o := f_off f + offset in
  if o <? 0 then Err (EIO "seek: invalid argument") else Ok (mkFile (f_bytes f) o).

(** [binary.Read(file, binary.LittleEndian, &invalByte)]: one byte at the
    cursor, [io.EOF] when there is none. *)
Definition read_uint8 (f : file) : result Byte.byte * file :=
  match nth_error (f_bytes f) (Z.to_nat (f_off f)) with
  | Some b => (Ok b, mkFile (f_bytes f) (f_off f + 1))
  | None => (Err (EIO "EOF"), f)
  end.

(** [readInvalidationBit(file)]. *)
Definition readInvalidationBit (c : inval_src) (f : file) : result bool * file :=
  let address := getInvalidationBitStart c in
  match seek_current f address with
  | Err e => (Err e, f)
  | Ok f1 =>
      match read_uint8 f1 with
      | (Err e, f2) => (Err e, f2)
      | (Ok invalByte, f2) =>
          let invalBitPos := Z.land (getInvalidationBitPos c) 7 in
          (Ok (IsBitSet (bval invalByte) invalBitPos), f2)
      end
  end.

(** ** Lemmas *)

Lemma IsBitSet_testbit n p : 0 <= p -> IsBitSet n p = Z.testbit n p.
Proof.
  intros Hp. unfold IsBitSet. rewrite Z.shiftl_1_l.
  destruct (Z.testbit n p) eqn:Et.
  - destruct (Z.eqb_spec (Z.land n (2 ^ p)) 0) as [E|E]; [|reflexivity].
    apply (f_equal (fun x => Z.testbit x p)) in E.
    rewrite Z.land_spec, Z.pow2_bits_true, Et, Z.bits_0 in E by exact Hp. discriminate.
  - rewrite (proj2 (Z.eqb_eq _ _)); [reflexivity|].
    apply Z.bits_inj_0. intros m. rewrite Z.land_spec, Z.pow2_bits_eqb by exact Hp.
    destruct (Z.eqb_spec p m) as [<-|_]; [rewrite Et|apply andb_false_r]; reflexivity.
Qed.

Lemma land_7_mod p : Z.land p 7 = p mod 8.
Proof. apply (Z.land_ones p 3). lia. Qed.

(** ** Theorems *)

(** C32: [readInvalidationBit] reads the byte [RecordIDSize + DataBytes]
    bytes after the current cursor (not after the start of a record),
    returns bit [InvalBitPos mod 8] of it, and leaves the cursor just
    past that byte. *)
Theorem readInvalidationBit_reads c f b :
  0 <= f_off f -> 0 <= getInvalidationBitStart c ->
  nth_error (f_bytes f) (Z.to_nat (f_off f + getInvalidationBitStart c)) = Some b ->
  readInvalidationBit c f =
    (Ok (Z.testbit (bval b) (getInvalidationBitPos c mod 8)),
     mkFile (f_bytes f) (f_off f + getInvalidationBitStart c + 1)).
Proof.
  intros Ho Hs Hb. unfold readInvalidationBit, seek_current.
  rewrite (proj2 (Z.ltb_ge _ _)) by lia. unfold read_uint8. cbn [f_bytes f_off]. rewrite Hb.
  rewrite IsBitSet_testbit, land_7_mod by (rewrite land_7_mod; apply Z.mod_pos_bound; lia).
  reflexivity.
Qed.

(** C33: The bit position is taken modulo 8 and the byte is always the
    first one after the data bytes: a channel whose invalidation bit is
    in the [k]-th invalidation byte ([InvalBitPos = 8 k + j]) reads bit
    [j] of the first byte, the same answer as for [InvalBitPos = j]. *)
Theorem readInvalidationBit_ignores_byte_index c f k :
  readInvalidationBit (mkInval (i_RecordIDSize c) (i_DataBytes c) (i_InvalBitPos c + 8 * k)) f =
  readInvalidationBit c f.
Proof.
  unfold readInvalidationBit. cbn [getInvalidationBitStart getRecordIDSize getDataBytes
    getInvalidationBitPos i_RecordIDSize i_DataBytes i_InvalBitPos].
  rewrite !land_7_mod. replace ((i_InvalBitPos c + 8 * k) mod 8) with (i_InvalBitPos c mod 8)
    by (rewrite (Z.mul_comm 8 k), Z.mod_add; [reflexivity|lia]).
  reflexivity.
Qed.

(** ** Witness *)

(** A file whose bytes 0 to 3 are [00 04 00 00]: one data byte, no
    record ID, the invalidation bit at position 2. *)
Definition inval_c : inval_src := mkInval 0 1 2.
Definition inval_f : file := mkFile (map byte_of_Z [0; 4; 0; 0]) 0.

Lemma readInvalidationBit_reads_witness :
  readInvalidationBit inval_c inval_f = (Ok true, mkFile (f_bytes inval_f) 2).
Proof.
  rewrite (readInvalidationBit_reads inval_c inval_f (byte_of_Z 4)); try reflexivity;
    unfold getInvalidationBitStart, getRecordIDSize, getDataBytes; cbn; lia.
Defined.

End Invalidation.
