(* ===== verification/Bootstrap.v ===== *)
(** * The container bootstrap of [src/mf4.go]: [ReadFile] and [read]

    [ReadFile] reads the identification block, refuses versions below
    400, and [read] walks the block directory: the file history (FH)
    chain, the attachment (AT) chain, and the data group (DG) chain, in
    which each DG has a channel group (CG) chain and each CG a channel
    (CN) chain.  Every chain is a [for next != 0] loop over the [Next]
    links of its blocks.  [read] builds one [ChannelGroup] per CG, DG by
    DG, with a map from each channel's name (its TX block's bytes with
    the NUL bytes trimmed) to its CN block.

    The block packages that parse DG, CG, CN, TX, AT, FH, HD and ID blocks
    are not under [src/]; the class [MdfFile] gives each parser as a
    function of the file and an address, failing with an error where the
    package cannot parse.  The MD comment blocks the loops read only feed
    [fmt.Print]; they are not modelled.  The loops are bounded by fuel:
    a chain of [n] blocks needs fuel [n], and a cyclic chain, on which the
    Go loop never ends, runs out of any fuel. *)

From Stdlib Require Import ZArith String Lia.
From stdpp Require Import gmap strings.
From S2P Require Import Prelude Decode Blocks Legacy.
Import Decode Blocks Legacy.

Open Scope Z_scope.

Module Bootstrap.

(** ** The blocks, as the packages parse them *)

(** [ID.Block]: [Version], [VersionNumber], [UnfinalizedFlag]. *)
Record id_block : Type := mkID { id_Version : string; id_VersionNumber : Z; id_UnfinalizedFlag : Z }.
(** [HD.Block]: the first FH, AT and DG links. *)
Record hd_block : Type := mkHD { hd_FhFirst : Z; hd_AtFirst : Z; hd_DgFirst : Z }.
(** [DG.Block]: [Link.Next], [Link.CgFirst], [Link.Data], [Link.MdComment], [Data.RecIDSize]. *)
Record dg_block : Type := mkDG {
  dg_Next : Z; dg_CgFirst : Z; dg_Data : Z; dg_MdComment : Z; dg_RecIDSize : Z }.
(** [CG.Block]: [Link.Next], [Link.CnFirst], [Data.DataBytes], [Data.CycleCount]. *)
Record cg_block : Type := mkCG { cg_Next : Z; cg_CnFirst : Z; cg_DataBytes : Z; cg_CycleCount : Z }.
(** [CN.Block]: [Link.Next], [Link.TxName], [Link.MdComment] and the data
    fields [GetChannelSample] reads. *)
Record cn_blk : Type := mkCNB { cn_Next : Z; cn_TxName : Z; cn_MdComment : Z; cn_Data : cn_block }.
(** [AT.Block]: [Link.Next], [Link.TXFilename], [Link.TXMimetype], [Link.MDComment]. *)
Record at_block : Type := mkAT { at_Next : Z; at_TXFilename : Z; at_TXMimetype : Z; at_MDComment : Z }.
(** [FH.Block]: [Link.Next], [Link.MDComment]. *)
Record fh_block : Type := mkFH { fh_Next : Z; fh_MDComment : Z }.

(** The parsers of the block packages; [TX_New] gives [Data.TxData]. *)
Class MdfFile (F : Type) := {
  ID_New : F -> Z -> result id_block;
  HD_New : F -> Z -> result hd_block;
  DG_New : F -> Z -> result dg_block;
  CG_New : F -> Z -> Z -> result cg_block;
  CN_New : F -> Z -> Z -> result cn_blk;
  TX_New : F -> Z -> result (list Byte.byte);
  AT_New : F -> Z -> result at_block;
  FH_New : F -> Z -> result fh_block
}.

(** [blocks.IdblockSize]: the HD block follows the 64 bytes of the ID block. *)
Definition IdblockSize : Z := 64.

(** [ChannelGroup] of mf4.go. *)
Record group : Type := mkG { g_Block : cg_block; g_Channels : gmap string cn_blk; g_Datagroup : dg_block }.

(** [MF4] of mf4.go, without the [*os.File]. *)
Record MF4 : Type := mkMF4 {
  m_Identification : id_block;
  m_FileHistory : list fh_block;
  m_Attachments : list at_block;
  m_ChannelGroup : list group
}.

(** ** The loops *)

(** The shape of the five loops of the bootstrap:
    [for next != 0 { b := New(file, next); body; next = b.Link.Next }],
    with [k] iterations of fuel. *)
Fixpoint walk {B T} (parse : Z -> result B) (next : B -> Z) (body : B -> T -> result T)
    (k : nat) (a : Z) (acc : T) : result T :=
  if a =? 0 then Ok acc
  else match k with
       | O => Err EFuel
       | Datatypes.S k' =>
           let* b := parse a in
           let* acc' := body b acc in
           walk parse next body k' (next b) acc'
       end.

(** [bytes.Trim(b, "\x00")]: the NUL bytes at both ends removed. *)
Fixpoint trim_left (b : list Byte.byte) : list Byte.byte :=
  match b with
  | Byte.x00 :: b' => trim_left b'
  | _ => b
  end.
Definition trim_nul (b : list Byte.byte) : list Byte.byte := rev (trim_left (rev (trim_left b))).

(** [string(bytes.Trim(txBlock.Data.TxData, "\x00"))]. *)
Definition channel_name (tx : list Byte.byte) : string := string_of_list_byte (trim_nul tx).

Section Read.
Context {F : Type} `{MdfFile F}.
Variables (file : F) (fuel : nat).

(** [loadFileHistory]. *)
Definition loadFileHistory (start : Z) : result (list fh_block) :=
  walk (FH_New file) fh_Next (fun fh arr => Ok (arr ++ [fh])) fuel start [].

(** [loadAttachmemt]: the file name and the MIME type are read and only
    printed. *)
Definition loadAttachmemt (start : Z) : result (list at_block) :=
  walk (AT_New file) at_Next
    (fun atb arr =>
       let* _ := TX_New file (at_TXFilename atb) in
       let* _ := TX_New file (at_TXMimetype atb) in
       Ok (arr ++ [atb])) fuel start [].

(** The CN loop: [channelGroup.Channels[channelName] = cnBlock]. *)
Definition cn_body (cn : cn_blk) (ch : gmap string cn_blk) : result (gmap string cn_blk) :=
  let* tx := TX_New file (cn_TxName cn) in
  Ok (<[channel_name tx := cn]> ch).
Definition read_cn (version start : Z) (chans : gmap string cn_blk) : result (gmap string cn_blk) :=
  walk (CN_New file version) cn_Next cn_body fuel start chans.

(** The CG loop of one DG: a [ChannelGroup] per CG, appended to
    [m.ChannelGroup] after its CN loop. *)
Definition cg_body (version : Z) (dg : dg_block) (cg : cg_block) (gs : list group) : result (list group) :=
  let* ch := read_cn version (cg_CnFirst cg) ∅ in
  Ok (gs ++ [mkG cg ch dg]).
Definition read_cg (version : Z) (dg : dg_block) (start : Z) (groups : list group) : result (list group) :=
  walk (CG_New file version) cg_Next (cg_body version dg) fuel start groups.

(** The DG loop. *)
Definition read_dg (version start : Z) (groups : list group) : result (list group) :=
  walk (DG_New file) dg_Next (fun dg gs => read_cg version dg (dg_CgFirst dg) gs) fuel start groups.

(** The method [read] of [MF4]. *)
Definition mf4_read (m : MF4) : result MF4 :=
  let idb := m_Identification m in
  if negb (id_UnfinalizedFlag idb =? 0) then panic "NOT FINALIZED, CODE NOTE PREPARE FOR IT"
  else
    let* hd := HD_New file IdblockSize in
    let* fh := loadFileHistory (hd_FhFirst hd) in
    let version := id_VersionNumber idb in
    let* ats := loadAttachmemt (hd_AtFirst hd) in
    let* gs := read_dg version (hd_DgFirst hd) (m_ChannelGroup m) in
    Ok (mkMF4 idb fh ats gs).

(** [ReadFile(file, getXML)]. *)
Definition ReadFile : result MF4 :=
  let* idb := ID_New file 0 in
  if id_VersionNumber idb <? 400 then Err EVersion
  else mf4_read (mkMF4 idb [] [] []).

End Read.

(** The method [Version] of [MF4]. *)
Definition Version (m : MF4) : string := id_Version (m_Identification m).

(** The fields [GetChannelSample] reads from a [ChannelGroup]. *)
Definition to_legacy (g : group) : channel_group :=
  mkGroup (cn_Data <$> g_Channels g) (cg_DataBytes (g_Block g)) (cg_CycleCount (g_Block g))
          (dg_Data (g_Datagroup g)) (dg_RecIDSize (g_Datagroup g)).

(** [m.GetChannelSample(name)] on the groups [read] built. *)
Definition mf4_GetChannelSample (m : MF4) (name : string) (f : file) : result (list value) * file :=
  GetChannelSample (map to_legacy (m_ChannelGroup m)) name f.


(** ** A block directory given by maps, for concrete files *)

Record image : Type := mkImage {
  im_id : id_block; im_hd : hd_block;
  im_dg : gmap Z dg_block; im_cg : gmap Z cg_block; im_cn : gmap Z cn_blk;
  im_tx : gmap Z (list Byte.byte); im_at : gmap Z at_block; im_fh : gmap Z fh_block
}.

Definition from_opt {A} (what : string) (o : option A) : result A :=
  match o with Some a => Ok a | None => Err (EIO what) end.

#[export] Instance image_file : MdfFile image := {
  ID_New im a := if a =? 0 then Ok (im_id im) else Err (EIO "ID");
  HD_New im a := if a =? IdblockSize then Ok (im_hd im) else Err (EIO "HD");
  DG_New im a := from_opt "DG" (im_dg im !! a);
  CG_New im _ a := from_opt "CG" (im_cg im !! a);
  CN_New im _ a := from_opt "CN" (im_cn im !! a);
  TX_New im a := from_opt "TX" (im_tx im !! a);
  AT_New im a := from_opt "AT" (im_at im !! a);
  FH_New im a := from_opt "FH" (im_fh im !! a)
}.

(** ** Chains of blocks *)

(** [chain parse next a bs]: from address [a], following [next], the
    blocks [bs] are parsed, and the last link is [0]. *)
Inductive chain {B} (parse : Z -> result B) (next : B -> Z) : Z -> list B -> Prop :=
  | chain_end : chain parse next 0 []
  | chain_link a b bs :
      a <> 0 -> parse a = Ok b -> chain parse next (next b) bs -> chain parse next a (b :: bs).

(** The body of a loop run over the blocks of a chain. *)
Fixpoint foldM {B T} (body : B -> T -> result T) (bs : list B) (acc : T) : result T :=
  match bs with
  | [] => Ok acc
  | b :: bs' => let* acc' := body b acc in foldM body bs' acc'
  end.

Lemma walk_chain {B T} (parse : Z -> result B) next (body : B -> T -> result T) a bs k acc :
  chain parse next a bs -> (length bs <= k)%nat -> walk parse next body k a acc = foldM body bs acc.
Proof.
  intros Hc. revert k acc. induction Hc as [|a b bs Ha Hp Hc IH]; intros k acc Hk.
  - destruct k; reflexivity.
  - destruct k as [|k]; cbn in Hk; [lia|]. cbn [walk foldM].
    rewrite (proj2 (Z.eqb_neq _ _) Ha), Hp, rbind_Ok.
    destruct (body b acc); cbn; [apply IH; lia|reflexivity].
Qed.

(** A set of addresses the links never leave, on which every block
    parses and the body never fails: the loop never reaches [0]. *)
Lemma walk_cycle {B T} (parse : Z -> result B) next (body : B -> T -> result T) (P : Z -> Prop) :
  (forall a, P a -> a <> 0 /\ exists b, parse a = Ok b /\ P (next b) /\ forall acc, exists acc', body b acc = Ok acc') ->
  forall k a acc, P a -> walk parse next body k a acc = Err EFuel.
Proof.
  intros HP k. induction k as [|k IH]; intros a acc Ha; destruct (HP a Ha) as [Ha0 (b & Hb & Hn & Hbody)];
    cbn [walk]; rewrite (proj2 (Z.eqb_neq _ _) Ha0); [reflexivity|].
  rewrite Hb, rbind_Ok. destruct (Hbody acc) as [acc' ->]. rewrite rbind_Ok. apply IH, Hn.
Qed.

Lemma foldM_append {B} (bs : list B) acc : foldM (fun b arr => Ok (arr ++ [b])) bs acc = Ok (acc ++ bs).
Proof.
  revert acc. induction bs as [|b bs IH]; intros acc; cbn; [rewrite app_nil_r; reflexivity|].
  rewrite IH, <- app_assoc. reflexivity.
Qed.

Lemma trim_left_nuls i l : trim_left (repeat Byte.x00 i ++ l) = trim_left l.
Proof. induction i; [reflexivity|exact IHi]. Qed.

Lemma trim_left_head l : head l <> Some Byte.x00 -> trim_left l = l.
Proof. destruct l as [|b l]; [reflexivity|]. destruct b; cbn; congruence. Qed.

Lemma rev_repeat {A} (x : A) n : rev (repeat x n) = repeat x n.
Proof. induction n; cbn; [reflexivity|]. rewrite IHn. symmetry. apply repeat_cons. Qed.


(** ** The loops over chains *)

Section Loops.
Context {F : Type} `{MdfFile F}.
Variables (file : F) (fuel : nat) (version : Z).

(** The channel map after the CN loop over [cns], of which the TX blocks
    hold [txs]: each name inserted in turn on top of [ch]. *)
Lemma foldM_cn_body cns txs ch :
  Forall2 (fun cn tx => TX_New file (cn_TxName cn) = Ok tx) cns txs ->
  foldM (cn_body file) cns ch =
  Ok (foldr (fun p m => <[p.1 := p.2]> m) ch (rev (zip (map channel_name txs) cns))).
Proof.
  intros Htx. revert ch. induction Htx as [|cn tx cns txs Htx _ IH]; intros ch; [reflexivity|].
  cbn [foldM]. unfold cn_body at 1. rewrite Htx, rbind_Ok, rbind_Ok, IH.
  cbn [map zip rev]. rewrite foldr_app. reflexivity.
Qed.

(** The groups of one DG, whose CN loops give [chans]. *)
Lemma read_cg_groups dg a cgs (chans : cg_block -> gmap string cn_blk) gs :
  chain (CG_New file version) cg_Next a cgs -> (length cgs <= fuel)%nat ->
  (forall cg, In cg cgs -> read_cn file fuel version (cg_CnFirst cg) ∅ = Ok (chans cg)) ->
  read_cg file fuel version dg a gs = Ok (gs ++ map (fun cg => mkG cg (chans cg) dg) cgs).
Proof.
  intros Hc Hk Hch. unfold read_cg. rewrite (walk_chain _ _ _ _ _ _ _ Hc Hk).
  clear Hc Hk. revert gs. induction cgs as [|cg cgs IH]; intros gs; cbn [foldM map].
  - rewrite app_nil_r. reflexivity.
  - unfold cg_body at 1. rewrite Hch by (left; reflexivity). rewrite !rbind_Ok, IH by (intros; apply Hch; right; assumption).
    rewrite <- app_assoc. reflexivity.
Qed.

(** The groups [read] builds from the DGs [dgs], DG by DG. *)
Definition groups_of (chans : cg_block -> gmap string cn_blk) (dgs : list dg_block) (cgss : list (list cg_block)) :
    list group :=
  concat (zip_with (fun dg cgs => map (fun cg => mkG cg (chans cg) dg) cgs) dgs cgss).

Lemma foldM_dg dgs cgss chans gs :
  Forall2 (fun dg cgs => chain (CG_New file version) cg_Next (dg_CgFirst dg) cgs /\ (length cgs <= fuel)%nat) dgs cgss ->
  (forall cg, In cg (concat cgss) -> read_cn file fuel version (cg_CnFirst cg) ∅ = Ok (chans cg)) ->
  foldM (fun dg gs => read_cg file fuel version dg (dg_CgFirst dg) gs) dgs gs = Ok (gs ++ groups_of chans dgs cgss).
Proof.
  intros Hd. revert gs. induction Hd as [|dg cgs dgs cgss [Hc Hk] _ IH]; intros gs Hch; cbn [foldM].
  - rewrite app_nil_r. reflexivity.
  - rewrite (read_cg_groups dg _ cgs chans gs Hc Hk) by (intros; apply Hch, in_or_app; left; assumption).
    rewrite rbind_Ok, IH by (intros; apply Hch, in_or_app; right; assumption).
    unfold groups_of. cbn [zip_with concat]. rewrite app_assoc. reflexivity.
Qed.

Lemma foldM_at ats acc :
  Forall (fun atb => is_ok (TX_New file (at_TXFilename atb)) && is_ok (TX_New file (at_TXMimetype atb)) = true) ats ->
  foldM (fun atb arr => let* _ := TX_New file (at_TXFilename atb) in
                        let* _ := TX_New file (at_TXMimetype atb) in Ok (arr ++ [atb])) ats acc = Ok (acc ++ ats).
Proof.
  intros Hat. revert acc. induction Hat as [|atb ats Hok _ IH]; intros acc; cbn [foldM].
  - rewrite app_nil_r. reflexivity.
  - destruct (TX_New file (at_TXFilename atb)), (TX_New file (at_TXMimetype atb)); try discriminate.
    cbn. rewrite IH, <- app_assoc. reflexivity.
Qed.

End Loops.

(** ** What [ReadFile] builds *)

Section Claims.
Context {F : Type} `{MdfFile F}.

(** C26: The CN loop of a channel group maps each channel's trimmed TX
    name to its CN block; the blocks are inserted in chain order, so when
    two channels of the group have the same name the later one is kept. *)
Theorem read_cn_channels (file : F) fuel version a cns txs :
  chain (CN_New file version) cn_Next a cns ->
  Forall2 (fun cn tx => TX_New file (cn_TxName cn) = Ok tx) cns txs ->
  (length cns <= fuel)%nat ->
  read_cn file fuel version a ∅ = Ok (list_to_map (rev (zip (map channel_name txs) cns))).
Proof.
  intros Hc Htx Hk. unfold read_cn. rewrite (walk_chain _ _ _ _ _ _ _ Hc Hk).
  apply foldM_cn_body, Htx.
Qed.

(** C27: On a file of version at least 400 that is finalized, whose FH,
    AT and DG chains are well formed and end within the fuel, and whose
    CN loops give the maps [chans], [ReadFile] returns the file history and
    the attachments in chain order, and one [ChannelGroup] per CG, DG by DG
    and CG by CG, each pointing to its own DG. *)
Theorem ReadFile_ok (file : F) fuel idb hd fhs ats dgs cgss chans :
  ID_New file 0 = Ok idb -> 400 <= id_VersionNumber idb -> id_UnfinalizedFlag idb = 0 ->
  HD_New file IdblockSize = Ok hd ->
  chain (FH_New file) fh_Next (hd_FhFirst hd) fhs -> (length fhs <= fuel)%nat ->
  chain (AT_New file) at_Next (hd_AtFirst hd) ats -> (length ats <= fuel)%nat ->
  Forall (fun atb => is_ok (TX_New file (at_TXFilename atb)) && is_ok (TX_New file (at_TXMimetype atb)) = true) ats ->
  chain (DG_New file) dg_Next (hd_DgFirst hd) dgs -> (length dgs <= fuel)%nat ->
  Forall2 (fun dg cgs => chain (CG_New file (id_VersionNumber idb)) cg_Next (dg_CgFirst dg) cgs /\ (length cgs <= fuel)%nat) dgs cgss ->
  (forall cg, In cg (concat cgss) -> read_cn file fuel (id_VersionNumber idb) (cg_CnFirst cg) ∅ = Ok (chans cg)) ->
  ReadFile file fuel = Ok (mkMF4 idb fhs ats (groups_of chans dgs cgss)).
Proof.
  intros Hid Hv Hu Hhd Hfh Hkf Hat Hka Htx Hdg Hkd Hcg Hch.
  unfold ReadFile. rewrite Hid, rbind_Ok, (proj2 (Z.ltb_ge _ _) Hv).
  unfold mf4_read. cbn [m_Identification m_ChannelGroup]. rewrite Hu. cbn [Z.eqb negb].
  rewrite Hhd, rbind_Ok. unfold loadFileHistory, loadAttachmemt, read_dg.
  rewrite (walk_chain _ _ _ _ _ _ _ Hfh Hkf), foldM_append, rbind_Ok.
  rewrite (walk_chain _ _ _ _ _ _ _ Hat Hka), foldM_at, rbind_Ok by exact Htx.
  rewrite (walk_chain _ _ _ _ _ _ _ Hdg Hkd), (foldM_dg file fuel _ dgs cgss chans [] Hcg Hch).
  reflexivity.
Qed.

(** C28: When the [Next] links of the CN blocks from [a] never lead to
    [0] (a set of addresses closed under the links, every block and its
    name readable), the CN loop does not terminate: it runs out of any
    fuel.  The code has no guard against a cyclic chain. *)
Theorem read_cn_cycle (file : F) version (P : Z -> Prop) :
  (forall a, P a -> a <> 0 /\ exists cn tx,
     CN_New file version a = Ok cn /\ TX_New file (cn_TxName cn) = Ok tx /\ P (cn_Next cn)) ->
  forall fuel a ch, P a -> read_cn file fuel version a ch = Err EFuel.
Proof.
  intros HP fuel a ch Ha. unfold read_cn. revert Ha. apply walk_cycle. intros b Hb.
  destruct (HP b Hb) as [Hb0 (cn & tx & Hcn & Htx & Hn)]. split; [exact Hb0|].
  exists cn. split; [exact Hcn|]. split; [exact Hn|].
  intros acc. unfold cn_body. rewrite Htx. eexists. reflexivity.
Qed.

(** C29: A file whose identification block has a version number below
    400 is refused with a [VersionError], before anything else is read. *)
Theorem ReadFile_old_version (file : F) fuel idb :
  ID_New file 0 = Ok idb -> id_VersionNumber idb < 400 -> ReadFile file fuel = Err EVersion.
Proof.
  intros Hid Hv. unfold ReadFile. rewrite Hid, rbind_Ok, (proj2 (Z.ltb_lt _ _) Hv). reflexivity.
Qed.

(** C30: A file of version 400 or more whose unfinalized flag is set
    makes [read] panic before the HD block is read. *)
Theorem ReadFile_unfinalized (file : F) fuel idb :
  ID_New file 0 = Ok idb -> 400 <= id_VersionNumber idb -> id_UnfinalizedFlag idb <> 0 ->
  ReadFile file fuel = panic "NOT FINALIZED, CODE NOTE PREPARE FOR IT".
Proof.
  intros Hid Hv Hu. unfold ReadFile. rewrite Hid, rbind_Ok, (proj2 (Z.ltb_ge _ _) Hv).
  unfold mf4_read. cbn [m_Identification]. rewrite (proj2 (Z.eqb_neq _ _) Hu). reflexivity.
Qed.

End Claims.

(** C31: A channel name stored in its TX block with any number of NUL
    bytes before and after it reads back as the name, when the name itself
    neither starts nor ends with a NUL byte. *)
Theorem channel_name_padded s i j :
  head (list_byte_of_string s) <> Some Byte.x00 -> head (rev (list_byte_of_string s)) <> Some Byte.x00 ->
  channel_name (repeat Byte.x00 i ++ list_byte_of_string s ++ repeat Byte.x00 j) = s.
Proof.
  intros Hh Hl. unfold channel_name, trim_nul.
  destruct (list_byte_of_string s) as [|b l] eqn:E.
  - rewrite app_nil_l, trim_left_nuls, <- (app_nil_r (repeat _ j)), trim_left_nuls. cbn [trim_left rev].
    rewrite <- E, string_of_list_byte_of_string. reflexivity.
  - rewrite trim_left_nuls, (trim_left_head ((b :: l) ++ _)) by exact Hh.
    rewrite rev_app_distr, rev_repeat, trim_left_nuls, trim_left_head by exact Hl.
    rewrite rev_involutive, <- E. apply string_of_list_byte_of_string.
Qed.

(** ** A file with two channels of the same name *)

Definition cn300 : cn_blk := mkCNB 400 500 0 (mkCN 0 0 8 0).
Definition cn400 : cn_blk := mkCNB 0 600 0 (mkCN 0 1 8 0).
Definition dg100 : dg_block := mkDG 0 200 0 0 0.
Definition cg200 : cg_block := mkCG 0 300 2 2.
Definition fh10 : fh_block := mkFH 0 0.
Definition tx_speed : list Byte.byte := list_byte_of_string "speed".
Definition tx_speed_nul : list Byte.byte := list_byte_of_string "speed" ++ [Byte.x00; Byte.x00].

(** An MDF 4.10 file: one FH block, no attachment, one DG with one CG of
    two one-byte channels, both named "speed" (the second padded with NUL
    bytes), at byte offsets 0 and 1 of a two-byte record. *)
Definition mk_img (idb : id_block) (cns : gmap Z cn_blk) : image :=
  mkImage idb (mkHD 10 0 100) {[100 := dg100]} {[200 := cg200]} cns
          (<[500 := tx_speed]> {[600 := tx_speed_nul]}) ∅ {[10 := fh10]}.
Definition img_dup : image := mk_img (mkID "4.10" 410 0) (<[300 := cn300]> {[400 := cn400]}).
(** The records of [img_dup]: bytes 1, 2 then 3, 4 after the block header. *)
Definition f_dup : file := mkFile (repeat Byte.x00 24 ++ bytes_of [1; 2; 3; 4]) 0.

(** An example: two channels of one group with the same trimmed name: [read]
    keeps only the later CN block under the name, so the group lists one
    channel, and [GetChannelSample] reads the second channel's bytes; the
    first channel cannot be reached by its name. *)
Example ReadFile_duplicate_name :
  match ReadFile img_dup 4 with
  | Ok m => fst (mf4_GetChannelSample m "speed" f_dup) = Ok [VUint8 2; VUint8 4] /\
            ChannelNames (map to_legacy (m_ChannelGroup m)) = ["speed"]
  | Err _ => False
  end.
Proof. vm_compute. split; reflexivity. Qed.

(** ** Witnesses *)

Ltac chain_tac := repeat (apply chain_link; [cbv; discriminate|reflexivity|]); apply chain_end.

Lemma read_cn_channels_witness :
  read_cn img_dup 2 410 300 ∅ = Ok (list_to_map (rev (zip (map channel_name [tx_speed; tx_speed_nul]) [cn300; cn400]))).
Proof.
  apply read_cn_channels; [chain_tac| |cbn; lia].
  repeat (apply Forall2_cons; [reflexivity|]). apply Forall2_nil.
Defined.

Lemma ReadFile_ok_witness :
  ReadFile img_dup 4 =
  Ok (mkMF4 (mkID "4.10" 410 0) [fh10] [] (groups_of (fun _ => {["speed" := cn400]}) [dg100] [[cg200]])).
Proof.
  apply (ReadFile_ok img_dup 4 (mkID "4.10" 410 0) (mkHD 10 0 100));
    try reflexivity; try (cbn; lia); try chain_tac.
  - apply Forall_nil.
  - apply Forall2_cons; [split; [chain_tac|cbn; lia]|apply Forall2_nil].
  - intros cg [<-|[]]. vm_compute. reflexivity.
Defined.

Definition img_cycle : image := mk_img (mkID "4.10" 410 0) (<[300 := cn300]> {[400 := mkCNB 300 600 0 (mkCN 0 1 8 0)]}).

Lemma read_cn_cycle_witness : read_cn img_cycle 7 410 300 ∅ = Err EFuel.
Proof.
  apply (read_cn_cycle img_cycle 410 (fun a => a = 300 \/ a = 400)); [|left; reflexivity].
  intros a [->| ->]; (split; [lia|]).
  - exists cn300, tx_speed. split; [reflexivity|split; [reflexivity|right; reflexivity]].
  - exists (mkCNB 300 600 0 (mkCN 0 1 8 0)), tx_speed_nul.
    split; [reflexivity|split; [reflexivity|left; reflexivity]].
Defined.

Definition img_old : image := mk_img (mkID "3.30" 330 0) ∅.

Lemma ReadFile_old_version_witness : ReadFile img_old 3 = Err EVersion.
Proof. apply (ReadFile_old_version img_old 3 (mkID "3.30" 330 0)); [reflexivity|cbn; lia]. Defined.

Definition img_unfinalized : image := mk_img (mkID "4.10" 410 1) ∅.

Lemma ReadFile_unfinalized_witness :
  ReadFile img_unfinalized 3 = panic "NOT FINALIZED, CODE NOTE PREPARE FOR IT".
Proof. apply (ReadFile_unfinalized img_unfinalized 3 (mkID "4.10" 410 1)); [reflexivity|cbn; lia|cbn; lia]. Defined.

Lemma channel_name_padded_witness :
  channel_name (repeat Byte.x00 2 ++ list_byte_of_string "speed" ++ repeat Byte.x00 3) = "speed".
Proof. apply channel_name_padded; vm_compute; discriminate. Defined.

End Bootstrap.
