(* ===== verification/Fuel.v ===== *)
(** * The fuel of the dispatcher is not observable

    [extractSample] and the DL loop of [readDataList] are bounded by fuel
    (see [Dispatch]); running out is the model's outcome [EFuel].  This
    file proves that fuel only ever cuts a computation short: a result
    other than [EFuel] is the result with any larger fuel.  The relation
    [agrees x y] ("[y] has every outcome of [x] that is not [EFuel]") is
    preserved by [mbind], and each handler preserves it when its
    dispatcher one level down does; induction on the fuel closes the
    recursion. *)

From Stdlib Require Import ZArith String Lia.
From stdpp Require Import gmap.
From S2P Require Import Prelude Decode Records Blocks State Dispatch.
Import Decode Records Blocks State Dispatch.

Open Scope Z_scope.
Open Scope dispatch_scope.

Module Fuel.

(** [y] has every outcome of [x] but running out of fuel. *)
Definition agrees {A} (x y : result A) : Prop := x <> Err EFuel -> y = x.

Lemma agrees_refl {A} (x : result A) : agrees x x.
Proof. intros _. reflexivity. Qed.

Lemma bind_agrees {A B} (c c' : M A) (k k' : A -> M B) s :
  agrees (c s) (c' s) -> (forall a s', agrees (k a s') (k' a s')) ->
  agrees (mbind c k s) (mbind c' k' s).
Proof.
  unfold agrees, mbind. intros Hc Hk Hx.
  destruct (c s) as [[a s1]|e] eqn:E.
  - rewrite Hc by discriminate. cbn in *. apply Hk, Hx.
  - rewrite Hc by (intros He; apply Hx; rewrite He; reflexivity). reflexivity.
Qed.

Lemma with_copy_agrees (c c' : M unit) s :
  agrees (c s) (c' s) -> agrees (with_copy c s) (with_copy c' s).
Proof.
  unfold agrees, with_copy. intros Hc Hx.
  destruct (c s) as [[u s1]|e] eqn:E.
  - rewrite Hc by discriminate. reflexivity.
  - rewrite Hc by (intros He; apply Hx; rewrite He; reflexivity). reflexivity.
Qed.

(** Two dispatchers of which the second has every outcome of the first. *)
Definition rec_agrees (rec rec' : string -> M unit) : Prop :=
  forall id s, agrees (rec id s) (rec' id s).

(** Peel the binds of two handlers that differ only in their
    dispatchers. *)
Ltac agree_tac Hrec :=
  repeat first
    [ apply agrees_refl
    | apply Hrec
    | apply with_copy_agrees
    | apply bind_agrees; intros
    | match goal with |- agrees ((match ?x with _ => _ end) _) _ => destruct x end
    | match goal with |- agrees ((if ?b then _ else _) _) _ => destruct b end ].

Section Handlers.
Context {F : Type} `{BlockSource F} `{Decompressor}.
Variables (file : F) (d : channel_desc) (rec rec' : string -> M unit).
Hypothesis Hrec : rec_agrees rec rec'.

Lemma readDataZipped_agrees s : agrees (readDataZipped file rec s) (readDataZipped file rec' s).
Proof. unfold readDataZipped. agree_tac Hrec. Qed.

Lemma readHeaderList_agrees s : agrees (readHeaderList file d rec s) (readHeaderList file d rec' s).
Proof. unfold readHeaderList. agree_tac Hrec. Qed.

Lemma dl_loop_agrees k k' dtl i id s :
  (k <= k')%nat -> agrees (dl_loop file rec k dtl i id s) (dl_loop file rec' k' dtl i id s).
Proof.
  revert k' dtl i id s. induction k as [|k IH]; intros k' dtl i id s Hk.
  - destruct k'; cbn [dl_loop]; (destruct (i <? _)%nat; [|apply agrees_refl]);
      intros Hx; exfalso; apply Hx; reflexivity.
  - destruct k' as [|k']; [lia|]. cbn [dl_loop].
    destruct (i <? _)%nat; [|apply agrees_refl].
    agree_tac Hrec; apply IH; lia.
Qed.

Lemma readDataList_agrees k k' s :
  (k <= k')%nat -> agrees (readDataList file d rec k s) (readDataList file d rec' k' s).
Proof. intros Hk. unfold readDataList. agree_tac Hrec. apply dl_loop_agrees. exact Hk. Qed.

Lemma readFixedLenghtSample_agrees k k' id s :
  (k <= k')%nat ->
  agrees (readFixedLenghtSample file d rec k id s) (readFixedLenghtSample file d rec' k' id s).
Proof.
  intros Hk. unfold readFixedLenghtSample.
  destruct (_ || _); [apply agrees_refl|].
  destruct (String.eqb id DlID); [apply readDataList_agrees, Hk|].
  destruct (String.eqb id DzID); [apply readDataZipped_agrees|].
  destruct (String.eqb id HlID); [apply readHeaderList_agrees|apply agrees_refl].
Qed.

Lemma readVLSDSample_agrees k k' id s :
  (k <= k')%nat -> agrees (readVLSDSample file d rec k id s) (readVLSDSample file d rec' k' id s).
Proof.
  intros Hk. unfold readVLSDSample.
  destruct (String.eqb id DtID); [apply agrees_refl|].
  destruct (String.eqb id SdID); [apply agrees_refl|].
  destruct (String.eqb id DlID); [apply readDataList_agrees, Hk|].
  destruct (String.eqb id DzID); [apply readDataZipped_agrees|].
  destruct (String.eqb id HlID); [apply readHeaderList_agrees|apply agrees_refl].
Qed.

End Handlers.

Section Dispatcher.
Context {F : Type} `{BlockSource F} `{Decompressor}.
Variables (file : F) (d : channel_desc).

Lemma extractSample_agrees f f' :
  (f <= f')%nat -> rec_agrees (extractSample file d f) (extractSample file d f').
Proof.
  revert f'. induction f as [|f IH]; intros f' Hf id s.
  - intros Hx. exfalso. apply Hx. reflexivity.
  - destruct f' as [|f']; [lia|]. cbn [extractSample].
    destruct (cn_IsVLSD d).
    + apply readVLSDSample_agrees; [apply IH|]; lia.
    + apply with_copy_agrees, readFixedLenghtSample_agrees; [apply IH|]; lia.
Qed.

(** More fuel never changes what [RawSample] returns once it
    returns something other than running out of fuel: the bound only
    cuts the recursion short, and every result the theorems state with a
    given fuel is the result with any larger fuel. *)
Theorem RawSample_fuel_mono fuel fuel' s :
  (fuel <= fuel')%nat -> RawSample file d fuel s <> Err EFuel ->
  RawSample file d fuel' s = RawSample file d fuel s.
Proof.
  intros Hf. unfold RawSample. apply bind_agrees; intros; [apply agrees_refl|].
  apply bind_agrees; intros; [apply agrees_refl|].
  apply bind_agrees; intros; [apply agrees_refl|].
  apply bind_agrees; intros; [apply agrees_refl|].
  apply bind_agrees; intros; [apply extractSample_agrees, Hf|apply agrees_refl].
Qed.

End Dispatcher.

(** ** Witness *)

Definition file_dl : block_map :=
  <[100 := dl_blk 0 [200; 300]]> (<[200 := dt_blk (bytes_of [1; 2])]> (<[300 := dt_blk (bytes_of [3])]> ∅)).

Lemma RawSample_fuel_mono_witness :
  RawSample (H0 := stored) file_dl d_u8 9 st0 = RawSample (H0 := stored) file_dl d_u8 4 st0.
Proof. apply RawSample_fuel_mono; [lia|vm_compute; discriminate]. Defined.

End Fuel.
