(* ===== verification/Heap.v ===== *)
(** * The reader pointer of a channel is never dangling

    Every handler of [src/channel.go] dereferences [c.channelReader].  The
    pointer is nil on a channel that has not read anything ([st0]);
    [RawSample] allocates a reader before it dispatches, [readHeaderList]
    and [readDataList] rebind the pointer to fresh readers, and
    [readFixedLenghtSample] runs on a copy of the channel whose rebindings
    are dropped on return.  This file proves the invariant that makes all
    those dereferences safe: the channel's pointer addresses an allocated
    reader ([live]), and the heap of readers only grows ([grows]), so the
    pointer the copy leaves behind still addresses a reader.  A
    computation is [safe] when, from a live state, it either ends in a
    live state whose heap contains the old one, or fails with an error
    other than the nil dereference.  [safe] is closed under [mbind] and
    [with_copy]; each handler is safe when its dispatcher is, and
    induction on the fuel closes the recursion. *)

From Stdlib Require Import ZArith String Lia.
From stdpp Require Import gmap.
From S2P Require Import Prelude Decode Records Blocks State Dispatch.
Import Decode Records Blocks State Dispatch.

Open Scope Z_scope.
Open Scope dispatch_scope.

Module Heap.

#[local] Transparent cur set_cur alloc_st set_cache set_measure.

(** ** The invariant *)

(** The panic of a nil [c.channelReader]. *)
Definition nil_deref : err := EPanic "nil pointer dereference".

(** A result that is not the nil dereference. *)
Definition no_nil {A} (r : result A) : Prop := r <> Err nil_deref.

(** The channel's reader pointer addresses an allocated reader. *)
Definition live (s : st) : Prop := cur s <> None.

(** Every reader allocated in [s] is still allocated in [s']. *)
Definition grows (s s' : st) : Prop :=
  forall k, rd_get (h_readers (s_heap s)) k <> None -> rd_get (h_readers (s_heap s')) k <> None.

Definition safe {A} (c : M A) : Prop :=
  forall s, live s ->
  match c s with
  | Ok (_, s') => live s' /\ grows s s'
  | Err e => e <> nil_deref
  end.

(** ** The rules of [safe] *)

Lemma grows_refl s : grows s s.
Proof. intros k H. exact H. Qed.

Lemma grows_trans s1 s2 s3 : grows s1 s2 -> grows s2 s3 -> grows s1 s3.
Proof. intros H1 H2 k H. apply H2, H1, H. Qed.

Lemma safe_bind {A B} (c : M A) (k : A -> M B) :
  safe c -> (forall a, safe (k a)) -> safe (mbind c k).
Proof.
  intros Hc Hk s Hs. unfold mbind. specialize (Hc s Hs).
  destruct (c s) as [[a s1]|e]; cbn; [|exact Hc].
  destruct Hc as [L1 G1]. specialize (Hk a s1 L1).
  destruct (k a s1) as [[b s2]|e]; [|exact Hk].
  destruct Hk as [L2 G2]. split; [exact L2|eapply grows_trans; eassumption].
Qed.

Lemma safe_ret {A} (a : A) : safe (mret a).
Proof. intros s Hs. split; [exact Hs|apply grows_refl]. Qed.

Lemma safe_fail {A} e : e <> nil_deref -> safe (@mfail A e).
Proof. intros He s _. exact He. Qed.

Lemma safe_lift {A} (r : result A) : no_nil r -> safe (lift r).
Proof.
  intros Hr s Hs. unfold lift. destruct r as [a|e]; cbn.
  - split; [exact Hs|apply grows_refl].
  - intros ->. apply Hr. reflexivity.
Qed.

(** Reads of the state leave it as it is. *)
Lemma safe_read {A} (f : st -> A) : safe (fun s => Ok (f s, s)).
Proof. intros s Hs. split; [exact Hs|apply grows_refl]. Qed.

Lemma safe_get_var : safe get_var.
Proof. apply safe_read. Qed.
Lemma safe_get_cache : safe get_cache.
Proof. apply safe_read. Qed.
Lemma safe_get_measure : safe get_measure.
Proof. apply safe_read. Qed.

Lemma safe_get_reader : safe get_reader.
Proof.
  intros s Hs. unfold get_reader. destruct (cur s) eqn:E; [|contradiction].
  split; [exact Hs|apply grows_refl].
Qed.

Lemma rd_set_grows m k r k' : rd_get m k' <> None -> rd_get (rd_set k r m) k' <> None.
Proof.
  destruct (decide (k = k')) as [<-|Hne].
  - rewrite rd_get_set_eq. discriminate.
  - rewrite rd_get_set_ne by exact Hne. exact id.
Qed.

Lemma safe_put_reader r : safe (put_reader r).
Proof.
  intros s Hs. split; [unfold live; rewrite cur_set_cur; discriminate|].
  intros k. unfold set_cur. cbn. apply rd_set_grows.
Qed.

Lemma safe_alloc_reader r : safe (alloc_reader r).
Proof.
  intros s Hs. split; [unfold live; rewrite cur_alloc_st; discriminate|].
  intros k. unfold alloc_st. cbn. apply rd_set_grows.
Qed.

Lemma safe_put_cache c : safe (put_cache c).
Proof.
  intros s Hs. split; [unfold live; rewrite cur_set_cache; exact Hs|].
  intros k. unfold set_cache. cbn. exact id.
Qed.

Lemma safe_put_measure m : safe (put_measure m).
Proof.
  intros s Hs. split; [unfold live; rewrite cur_set_measure; exact Hs|].
  intros k. unfold set_measure. cbn. exact id.
Qed.

(** Writing [compressedHL] keeps the pointer. *)
Lemma safe_set_hl {B} b (k : M B) :
  safe k -> safe (do v <- get_var; put_var (mkVar (cv_reader v) b);; k).
Proof.
  intros Hk s Hs. unfold mbind, get_var, put_var. cbn.
  specialize (Hk (mkSt (mkVar (cv_reader (s_var s)) b) (s_heap s) (s_measure s))).
  destruct (k _) as [[a s2]|e]; [|apply Hk; exact Hs].
  destruct (Hk Hs) as [L2 G2]. split; [exact L2|exact G2].
Qed.

(** The copy a value receiver works on: the pointer it drops addresses a
    reader still allocated after the call. *)
Lemma safe_with_copy (c : M unit) : safe c -> safe (with_copy c).
Proof.
  intros Hc s Hs. unfold with_copy. specialize (Hc s Hs).
  destruct (c s) as [[u s']|e]; cbn; [|exact Hc].
  destruct Hc as [_ G]. split; [|intros k; exact (G k)].
  unfold live, cur in *. cbn. apply G, Hs.
Qed.

Create HintDb heap.
#[export] Hint Resolve safe_ret safe_get_var safe_get_cache safe_get_measure safe_get_reader
  safe_put_reader safe_alloc_reader safe_put_cache safe_put_measure : heap.

(** Peel a handler bind by bind; the remaining goals are [no_nil] facts
    and the safety of the dispatcher. *)
Ltac safe_tac :=
  repeat first
    [ solve [eauto with heap]
    | apply safe_with_copy
    | apply safe_set_hl
    | apply safe_bind; intros
    | apply safe_lift
    | apply safe_fail; first [discriminate | solve [eauto with heap]]
    | match goal with |- safe (match ?x with _ => _ end) => destruct x eqn:? end
    | match goal with |- safe (if ?b then _ else _) => destruct b end ].

(** ** The pure functions never report a nil dereference *)

Ltac no_nil_tac :=
  unfold no_nil, nil_deref; repeat (unfold rbind, panic in *; case_match); cbn in *; congruence.

Lemma no_nil_Err {A B} e : no_nil (@Err A e) -> no_nil (@Err B e).
Proof. intros H E. apply H. injection E as ->. reflexivity. Qed.

Lemma go_index_n_no_nil {A} (l : list A) i : no_nil (go_index_n l i).
Proof. unfold go_index_n. no_nil_tac. Qed.

Lemma go_slice_no_nil {A} (l : list A) lo hi : no_nil (go_slice l lo hi).
Proof. unfold go_slice. no_nil_tac. Qed.

Lemma parseSignalMeasure_no_nil w bo dt o n : no_nil (parseSignalMeasure w bo dt o n).
Proof. unfold parseSignalMeasure, go_index, bitArrayAtUint64, convertWide. no_nil_tac. Qed.

Lemma readDatablock_no_nil r p : no_nil (readDatablock r p).
Proof.
  unfold readDatablock. pose proof (go_slice_no_nil (measure_cap r) p (p + SizeMeasureRow r)).
  destruct (go_slice _ _ _); cbn; [apply parseSignalMeasure_no_nil|eapply no_nil_Err, H].
Qed.

Lemma readDT_loop_no_nil cc r m : no_nil (readDT_loop cc r m).
Proof.
  unfold readDT_loop. generalize (StartOffset r). revert m.
  induction (Z.to_nat cc) as [|k IH]; intros m p; cbn [readDT_rows]; [discriminate|].
  unfold go_rem. destruct (_ <=? _).
  - no_nil_tac.
  - pose proof (readDatablock_no_nil r p). destruct (readDatablock r p); cbn; [apply IH|eapply no_nil_Err, H].
Qed.

#[export] Hint Resolve go_index_n_no_nil go_slice_no_nil parseSignalMeasure_no_nil
  readDT_loop_no_nil : heap.

(** ** Every handler keeps the invariant *)

(** A DL block of two DT children, for the witness. *)
Definition file_chain_nil : block_map :=
  <[100 := dl_blk 0 [200; 300]]> (<[200 := dt_blk (bytes_of [1; 2])]> (<[300 := dt_blk (bytes_of [3])]> ∅)).

Section Handlers.
Context {F : Type} `{BlockSource F} `{Decompressor}.
Variables (file : F) (d : channel_desc).

(** The block packages and [io.ReadAll] of the inflater report their own
    errors, never a nil [channelReader]. *)
Hypotheses (Hid : forall a, no_nil (GetHeaderID file a)) (Hlen : forall a, no_nil (GetLength file a))
  (Hdata : forall a n, no_nil (ReadData file a n)) (Hdl : forall a, no_nil (DL_New file a))
  (Hdz : forall a, no_nil (DZ_New file a)) (Hhl : forall a, no_nil (HL_New file a))
  (Hdef : forall b, snd (zlib_ReadAll b) <> Some nil_deref).

(** Nor does [Deflate], which replaces the error of [zlib.NewReader] by
    its own. *)
Lemma Deflate_no_nil b x e : Deflate b = (x, Some e) -> e <> nil_deref.
Proof.
  unfold Deflate. destruct (zlib_NewReader b); [intros [= _ <-]; discriminate|].
  pose proof (Hdef b). destruct (zlib_ReadAll b). intros [= _ ->]. cbn in *. congruence.
Qed.

Local Hint Resolve Hid Hlen Hdata Hdl Hdz Hhl Deflate_no_nil : heap.

Lemma safe_newChannelReader a : safe (newChannelReader d a).
Proof. unfold newChannelReader, loadChannelReader. safe_tac. Qed.

Lemma safe_readBlockToMemory : safe (readBlockToMemory file).
Proof. unfold readBlockToMemory, loadBuffer, readBlockFromFile. safe_tac. Qed.

Local Hint Resolve safe_newChannelReader safe_readBlockToMemory : heap.

Lemma safe_readDT : safe (readDT file d).
Proof. unfold readDT. safe_tac. Qed.

Lemma safe_readSdBlock : safe (readSdBlock file).
Proof. unfold readSdBlock. safe_tac. Qed.

Section Rec.
Variable rec : string -> M unit.
Hypothesis Hrec : forall id, safe (rec id).
Local Hint Resolve Hrec : heap.

Lemma safe_readDataZipped : safe (readDataZipped file rec).
Proof. unfold readDataZipped. safe_tac. Qed.

Lemma safe_readHeaderList : safe (readHeaderList file d rec).
Proof. unfold readHeaderList. safe_tac. Qed.

Lemma safe_dl_loop k dtl i id : safe (dl_loop file rec k dtl i id).
Proof.
  revert dtl i id. induction k as [|k IH]; intros dtl i id; cbn [dl_loop]; safe_tac.
Qed.

Local Hint Resolve safe_dl_loop : heap.

Lemma safe_readDataList k : safe (readDataList file d rec k).
Proof. unfold readDataList. safe_tac. Qed.

Local Hint Resolve safe_readDT safe_readSdBlock safe_readDataZipped safe_readHeaderList
  safe_readDataList : heap.

Lemma safe_readVLSDSample k id : safe (readVLSDSample file d rec k id).
Proof. unfold readVLSDSample. safe_tac. Qed.

Lemma safe_readFixedLenghtSample k id : safe (readFixedLenghtSample file d rec k id).
Proof. unfold readFixedLenghtSample. safe_tac. Qed.

End Rec.

Lemma safe_extractSample fuel id : safe (extractSample file d fuel id).
Proof.
  revert id. induction fuel as [|f IH]; intros id; cbn [extractSample]; [apply safe_fail; discriminate|].
  destruct (cn_IsVLSD d); [apply safe_readVLSDSample, IH|apply safe_with_copy, safe_readFixedLenghtSample, IH].
Qed.

(** C34: Whatever state the channel is in (a nil [channelReader]
    included), [RawSample] never dereferences a nil reader pointer: it
    allocates a reader before it dispatches, and every handler, through
    the DL loop, the HL rebinding and the copy [readFixedLenghtSample]
    works on, leaves the pointer addressing an allocated reader.  A
    result is returned with the pointer still live; an error is one of
    the file, the decoder or the fuel, never the nil dereference. *)
Theorem RawSample_no_nil_deref fuel s :
  match RawSample file d fuel s with
  | Ok (_, s') => live s'
  | Err e => e <> nil_deref
  end.
Proof.
  unfold RawSample, loadChannelReader, mbind, lift, get_cache, mret, alloc_reader, put_measure.
  cbn. pose proof (Hid (loadDataAdress d)) as Hh.
  destruct (GetHeaderID file (loadDataAdress d)) as [id|e]; cbn; [|intros ->; apply Hh; reflexivity].
  set (s1 := set_measure (alloc_st s _) []).
  assert (L1 : live s1) by (unfold live, s1; rewrite cur_set_measure, cur_alloc_st; discriminate).
  pose proof (safe_bind _ _ (safe_extractSample fuel id) (fun _ => safe_get_measure) s1 L1) as Hs.
  unfold mbind in Hs. destruct (extractSample file d fuel id s1) as [[[] s2]|e]; cbn in *; [|exact Hs].
  unfold get_measure in Hs. cbn in Hs. exact (proj1 Hs).
Qed.

End Handlers.

(** ** Witness *)

(** The block map of [Blocks] reports end-of-file and parse errors only. *)
Lemma BlockMap_no_nil_id (f : block_map) a : no_nil (GetHeaderID f a).
Proof. cbn. unfold find_block. no_nil_tac. Qed.
Lemma BlockMap_no_nil_len (f : block_map) a : no_nil (GetLength f a).
Proof. cbn. unfold find_block. no_nil_tac. Qed.
Lemma BlockMap_no_nil_data (f : block_map) a n : no_nil (ReadData f a n).
Proof. cbn. unfold find_block. no_nil_tac. Qed.
Lemma BlockMap_no_nil_dl (f : block_map) a : no_nil (DL_New f a).
Proof. cbn. unfold find_block, parse_dl. no_nil_tac. Qed.
Lemma BlockMap_no_nil_dz (f : block_map) a : no_nil (DZ_New f a).
Proof. cbn. unfold find_block, parse_dz. no_nil_tac. Qed.
Lemma BlockMap_no_nil_hl (f : block_map) a : no_nil (HL_New f a).
Proof. cbn. unfold find_block, parse_hl. no_nil_tac. Qed.

(** From the channel that has read nothing, whose reader pointer is nil. *)
Lemma RawSample_no_nil_deref_witness :
  match RawSample (H0 := stored) file_chain_nil d_u8 4 st0 with
  | Ok (_, s') => live s'
  | Err e => e <> nil_deref
  end.
Proof.
  apply RawSample_no_nil_deref; intros; first
    [ apply BlockMap_no_nil_id | apply BlockMap_no_nil_len | apply BlockMap_no_nil_data
    | apply BlockMap_no_nil_dl | apply BlockMap_no_nil_dz | apply BlockMap_no_nil_hl
    | discriminate ].
Defined.

End Heap.
