(* ===== verification/Group.v ===== *)
(** * The channels of a file and the data groups they share

    In [src/channel.go] a [Channel] holds a pointer [DataGroup] to a data
    group object that every channel of the group points to, and the
    dispatcher reads and writes [c.DataGroup.CachedDataGroup] through it.
    The [ChannelReader] objects a channel allocates are reachable only
    from that channel.  This file models the [Channel] struct, a store of
    channels and data group objects addressed by keys (the pointers), and
    [Sample] on the channel at a key: the channel's view of the store is
    the state of [Dispatch], and the data group's cache goes back to the
    shared object.  The theorems say that channels interact through that
    cache only (non-interference), and that the interaction is visible:
    a channel sampled after another one of its group can read the other
    one's last inflated block in place of its own data. *)

From Stdlib Require Import ZArith String Lia.
From stdpp Require Import gmap.
From S2P Require Import Prelude Decode Records Blocks State Dispatch Chains Orchestrator Bootstrap.
Import Decode Records Blocks State Dispatch Chains Orchestrator.

Open Scope Z_scope.

Module Group.

(** ** The [Channel] struct *)

(** The fields of [Channel], in the order of the source.  Pointers to
    objects of the store are keys: [Master] to a channel ([None] is
    [nil]), [DataGroup] to a data group object.  [block] is the CN block
    with the fields of the CG and DG blocks the engine reads, which is
    also what [ChannelGroup] points to; [mf4] is the file of the Section.
    [channelReader] is the address of the reader among the channel's own
    [ChannelReader] objects [readers], of which [nextReader] is the next
    free address.  [SourceInfo] is not read by any code of [src/] and is
    left out. *)
Record Channel : Type := mkChannel {
  Name : string;
  Conversion : option (list value -> list value);
  ChType : string;
  Master : option nat;
  DataGroup : nat;
  DataGroupIndex : Z;
  ChannelGroupIndex : Z;
  isUnsorted : bool;
  Comment : string;
  CachedSamples : option (list value);
  isConverted : bool;
  block : channel_desc;
  channelReader : nat;
  readers : gmap nat reader;
  nextReader : nat;
  startAddress : Z;
  compressedHL : bool
}.

(** The struct [ChannelGroup] of channel.go: its CG and DG blocks as
    [Bootstrap] reads them, and its channels by name, each a key of the
    store.  [SourceInfo] is not read by any code of [src/] and is left
    out. *)
Record ChannelGroup : Type := mkChannelGroup {
  cgBlock : Bootstrap.cg_block;
  cgChannels : gmap string nat;
  cgDataGroup : Bootstrap.dg_block;
  cgComment : string;
  IsVLSDBlock : bool
}.

(** The objects of a file: the [CachedDataGroup] of each data group
    object ([None] is [nil]) and the channels. *)
Record store : Type := mkStore {
  dataGroups : gmap nat (option byte_slice);
  channels : gmap nat Channel
}.

(** [c.recordIDSize()]. *)
Definition recordIDSize (c : Channel) : Z := dg_RecordIDSize (block c).

(** [c.readSingleDataBlockVLSD()]: a [nil] error. *)
Definition readSingleDataBlockVLSD (c : Channel) : option err := None.

(** The state of the dispatcher a channel sees: its own fields and
    reader objects, and the cache of its data group. *)
Definition view (c : Channel) (cache : option byte_slice) : channel_state :=
  mkChan (mkSt (mkVar (channelReader c) (compressedHL c)) (mkHeap (readers c) (nextReader c) cache) [])
    (CachedSamples c) (isConverted c).

(** The channel after [Sample] left it in [cs]; [startAddress] is set by
    [loadDataAdress] when [RawSample] ran, that is when nothing was
    cached. *)
Definition write_back (c : Channel) (cs : channel_state) : Channel :=
  let s := c_st cs in
  {| Name := Name c; Conversion := Conversion c; ChType := ChType c; Master := Master c;
     DataGroup := DataGroup c; DataGroupIndex := DataGroupIndex c;
     ChannelGroupIndex := ChannelGroupIndex c; isUnsorted := isUnsorted c; Comment := Comment c;
     CachedSamples := c_CachedSamples cs; isConverted := c_isConverted cs; block := block c;
     channelReader := cv_reader (s_var s); readers := h_readers (s_heap s);
     nextReader := h_next (s_heap s);
     startAddress := if CachedSamples c is None then loadDataAdress (block c) else startAddress c;
     compressedHL := cv_compressedHL (s_var s) |}.

Definition nil_panic : err := EPanic "nil pointer dereference".

Section Sample.
Context {F : Type} `{BlockSource F} `{Decompressor}.
Variable file : F.
(** [c.mf4.IsMemoryOptimized()]. *)
Variable memoryOptimized : bool.

(** [Sample] called on the channel at key [k]: a missing channel or
    data group is a nil pointer; the cache the call leaves is written
    to the shared data group object. *)
Definition Sample_at (fuel : nat) (k : nat) (S : store) : result (list value * store) :=
  match channels S !! k with
  | None => Err nil_panic
  | Some c =>
      match dataGroups S !! DataGroup c with
      | None => Err nil_panic
      | Some cache =>
          let* '(v, cs) := Sample file (block c) (Conversion c) memoryOptimized fuel (view c cache) in
          Ok (v, mkStore (<[DataGroup c := h_cache (s_heap (c_st cs))]> (dataGroups S))
                         (<[k := write_back c cs]> (channels S)))
      end
  end.

(** ** The frame of [Sample_at] *)

Lemma res_fst_map {A B C} (x : result (A * B)) (f : B -> C) :
  res_fst (let* '(a, b) := x in Ok (a, f b)) = res_fst x.
Proof. destruct x as [[]|]; reflexivity. Qed.

(** A call on channel [j] succeeds only on a channel and data group of
    the store, and writes exactly those two. *)
Lemma Sample_at_ok fuel j S v S' :
  Sample_at fuel j S = Ok (v, S') ->
  exists c cs, channels S !! j = Some c /\
    dataGroups S' = <[DataGroup c := h_cache (s_heap (c_st cs))]> (dataGroups S) /\
    channels S' = <[j := write_back c cs]> (channels S).
Proof.
  unfold Sample_at. destruct (channels S !! j) as [c|]; [|discriminate].
  destruct (dataGroups S !! DataGroup c); [|discriminate].
  destruct (Sample _ _ _ _ _ _) as [[v' cs]|]; cbn; [|discriminate].
  intros [= <- <-]. exists c, cs. auto.
Qed.

(** ** Channels interact through the data group's cache only *)

(** A call on channel [j] changes nothing another channel [k]
    reads but the cache of [k]'s data group: when that cache is as it
    was, [k] samples what it would have sampled before the call. *)
Theorem Sample_at_noninterference fuel fuel' j k S v S' c :
  j <> k -> Sample_at fuel j S = Ok (v, S') -> channels S !! k = Some c ->
  dataGroups S' !! DataGroup c = dataGroups S !! DataGroup c ->
  res_fst (Sample_at fuel' k S') = res_fst (Sample_at fuel' k S).
Proof.
  intros Hjk Hj Hk Hg. destruct (Sample_at_ok _ _ _ _ _ Hj) as (cj & cs & _ & _ & Hc).
  unfold Sample_at. rewrite Hc, lookup_insert_ne, Hk, Hg by exact Hjk.
  destruct (dataGroups S !! DataGroup c); [rewrite !res_fst_map|]; reflexivity.
Qed.

(** The cache of any other data group is left as it was. *)
Lemma Sample_at_other_group fuel j S v S' cj g :
  Sample_at fuel j S = Ok (v, S') -> channels S !! j = Some cj -> DataGroup cj <> g ->
  dataGroups S' !! g = dataGroups S !! g.
Proof.
  intros Hj Hcj Hg. destruct (Sample_at_ok _ _ _ _ _ Hj) as (c & cs & Hc & Hd & _).
  rewrite Hcj in Hc. injection Hc as <-. rewrite Hd. apply lookup_insert_ne, Hg.
Qed.

(** ** What a channel reads from its data group's cache *)

(** C18: A channel whose data group already holds a cached slice and
    whose data starts with a DT block does not read that block: its
    samples are the rows of the cached slice, whatever the file holds
    at the block's address.  The cache is shared by every channel of the
    group and filled by [readDataZipped] with the last DZ block any of
    them inflated, so what a channel samples depends on what was sampled
    before it. *)
Theorem Sample_at_cached_DT fuel k St ch c :
  channels St !! k = Some ch -> dataGroups St !! DataGroup ch = Some (Some c) ->
  CachedSamples ch = None -> Conversion ch = None -> cn_IsVLSD (block ch) = false ->
  GetHeaderID file (loadDataAdress (block ch)) = Ok DtID ->
  res_fst (Sample_at (S fuel) k St) =
  measure_of (readDT_loop (cg_CycleCount (block ch)) (reader0 (block ch) (loadDataAdress (block ch)) c) []).
Proof.
  intros Hk Hg Hcs Hconv Hv Hid.
  rewrite <- (RawSample_DT_cached file (block ch) fuel (c_st (view ch (Some c))) c) by auto.
  unfold Sample_at, Sample, applyConversion. rewrite Hk, Hg, Hconv. cbn [view c_CachedSamples c_st].
  rewrite Hcs. destruct (RawSample _ _ _ _) as [[raw s']|e]; reflexivity.
Qed.

End Sample.

(** ** Two channels of one data group *)

(** An HL block heading a DL list of a DT block and then a DZ block
    that replaces a DT block. *)
Definition file_hl_dt_dz : block_map :=
  <[100 := hl_blk 150]> (<[150 := dl_blk 0 [200; 300]]>
    (<[200 := dt_blk (bytes_of [1; 2])]> (<[300 := dz_blk "DT" 2 (bytes_of [7; 8])]> ∅))).

(** A [uint8] channel of the data group at key [dg] that has read
    nothing. *)
Definition chan_u8 (name : string) (dg : nat) : Channel :=
  mkChannel name None EmptyString None dg 0 0 false EmptyString None false d_u8 0 ∅ 0 0 false.

(** Channels [a] and [b] of the data group 0. *)
Definition store_ab : store :=
  mkStore {[0%nat := None]} (<[1%nat := chan_u8 "a" 0]> {[2%nat := chan_u8 "b" 0]}).

(** The store after a [Sample] of the channel at [k]. *)
Definition after (mo : bool) (k : nat) (S : store) : store :=
  match Sample_at (H0 := stored) file_hl_dt_dz mo 8 k S with Ok (_, S') => S' | Err _ => S end.

(** An example of the finding: the shared cache makes [Sample] depend
    on what was sampled before.  On an HL list of a DT block and then a DZ block, channel
    [b] alone reads both blocks; after channel [a] of the same data
    group has been sampled, the cache holds [a]'s last inflated block,
    so [b]'s reader starts on it and [readDT] decodes it in place of the
    DT block.  On a memory-optimized file the same happens to [a]
    itself: its second [Sample] differs from its first. *)
Theorem Sample_at_shared_cache_stale :
  (res_fst (Sample_at (H0 := stored) file_hl_dt_dz false 8 2 store_ab) =
     Ok [VUint8 1; VUint8 2; VUint8 7; VUint8 8]) /\
  (res_fst (Sample_at (H0 := stored) file_hl_dt_dz false 8 2 (after false 1 store_ab)) =
     Ok [VUint8 7; VUint8 8; VUint8 7; VUint8 8]) /\
  (res_fst (Sample_at (H0 := stored) file_hl_dt_dz true 8 1 store_ab) =
     Ok [VUint8 1; VUint8 2; VUint8 7; VUint8 8]) /\
  (res_fst (Sample_at (H0 := stored) file_hl_dt_dz true 8 1 (after true 1 store_ab)) =
     Ok [VUint8 7; VUint8 8; VUint8 7; VUint8 8]).
Proof. vm_compute. repeat split. Qed.

(** ** Witnesses *)

(** Channel [b] of a data group whose cache holds [07 08], on a file
    whose DT block holds [05 06]. *)
Definition store_cached : store :=
  mkStore {[0%nat := Some (slice_of (bytes_of [7; 8]))]} {[2%nat := chan_u8 "b" 0]}.

Lemma Sample_at_cached_DT_witness :
  res_fst (Sample_at (H0 := stored) file_dt false 3 2 store_cached) =
  measure_of (readDT_loop 100 (reader0 d_u8 100 (slice_of (bytes_of [7; 8]))) []).
Proof.
  apply (Sample_at_cached_DT (H0 := stored) file_dt false 2 2 store_cached (chan_u8 "b" 0));
    vm_compute; reflexivity.
Defined.

(** Channel [a] of data group 0 and channel [b] of data group 1. *)
Definition store_2g : store :=
  mkStore (<[0%nat := None]> {[1%nat := None]}) (<[1%nat := chan_u8 "a" 0]> {[2%nat := chan_u8 "b" 1]}).

Lemma Sample_at_noninterference_witness :
  res_fst (Sample_at (H0 := stored) file_hl_dt_dz false 8 2 (after false 1 store_2g)) =
  res_fst (Sample_at (H0 := stored) file_hl_dt_dz false 8 2 store_2g).
Proof.
  apply (Sample_at_noninterference (H0 := stored) file_hl_dt_dz false 8 8 1 2 store_2g
           (match Sample_at (H0 := stored) file_hl_dt_dz false 8 1 store_2g with
            | Ok (v, _) => v | Err _ => [] end)
           _ (chan_u8 "b" 1)); vm_compute; first [discriminate | reflexivity].
Defined.

End Group.
